(* ===== verification/_CoqProject ===== *)
-Q . S2P
Prelude.v
PyValue.v
Scraper.v
BaseMetrics.v
DateParse.v
RiskClassifier.v
BatchRunner.v
ReportMerge.v
Train.v
ReviewPage.v
Pipeline.v
Evaluate.v
TrainScript.v
Handover.v
