(* ===== verification/Prelude.v ===== *)
(** * A verification development of the e-commerce churn-prediction pipeline

    The repository is a linear batch pipeline written in Python/pandas:

    - [src/webscraping/ty_scrapping.py] scrapes product reviews into a CSV
      (review text, date, star rating recovered from a CSS padding value);
    - [src/scripts/base_metrics.py] ([LeakFreeProductPreparator]) parses the
      Turkish dates, drops undated reviews and builds one row of aggregate
      statistics per product ([create_product_features],
      [_calculate_review_velocity]);
    - [src/scripts/llm_extraction.py] ([LLMFeatureExtractor]) walks the
      product table, asks a language model for a sentiment summary of the
      100 most recent reviews of each product, and appends every successful
      answer, together with a risk label computed by [_calculate_risk_class],
      to a checkpoint CSV, so that a later run resumes where the previous one
      stopped ([_load_processed_products], [process_all_products],
      [_save_single_result]); [finalize_and_save] left-joins the checkpoint
      file onto the product table and labels every row again in batch with
      [create_risk_class];
    - [src/scripts/train_model.py] trains a gradient-boosted classifier on
      the labelled table.

    ** Files of the development (in dependency order)

    - [Prelude] (this file): the result type of Python code that may raise
      ([pyres], with the exceptions the modelled code can raise), its
      notation in [churn_scope], the byte-level string helpers the
      components share ([str.strip] as [py_strip], [\s*] as [skip_ws],
      [startswith] as [strip_prefix], digits), Python's slice [l[:n]]
      ([py_head]), [py_mapM] (a loop that stops at the first exception),
      the shared list lemmas, the hint database [churn] and the tactics.
    - [PyValue]: the dynamic values a pandas cell or a JSON field can hold
      ([PyVal]: None, NaN, bool, number, string, container), Python's
      comparisons on them ([==], [<=], [>=], [<] with their [TypeError]s),
      [dict.get], pandas' [row[key]] ([KeyError] on a missing column), and
      the CSV round trip as an interface ([CsvCodec], a typeclass with its
      laws, discharged by a concrete pandas-like instance).
    - [Scraper] ([ty_scrapping.py], lines 27-69): [get_review_link],
      [extract_padding_value] (the regular expression as a matcher, then
      [float]) and [closest_star_from_padding] ([min] with a key over
      [PADDING_TO_STAR]); theorems: the star is the nearest key's, the
      padding of a rendered style is read back exactly.
    - [BaseMetrics] ([base_metrics.py], lines 51-100): the review store and
      the per-product aggregate row ([create_product_features],
      [_calculate_review_velocity]); theorems: one row per product name,
      the counts partition the reviews, rating shares, velocity and
      extreme bounds, the [IndexError] of a nameless review.
    - [DateParse] ([base_metrics.py] lines 24-49, its copy
      [llm_extraction.py] lines 38-59): [convert_date] (month names by
      [str.replace], then [pd.to_datetime] with [%d %B %Y]: the strptime
      expression, the calendar and the [Timestamp] range) and
      [parse_turkish_dates]; theorems: a rendered date parses back to its
      day number, invalid or out-of-range dates drop the review, day
      numbers are chronological, the replacement's fuel suffices.
    - [RiskClassifier] ([llm_extraction.py] lines 72-118 and 341-373): the
      rule engine at both call sites ([_calculate_risk_class] on the LLM's
      dict, [classify_product] on a merged row), the abstract classifier of
      the specification ([classify]); theorems: refinement, agreement of
      the two call sites, ranges and error cases.
    - [BatchRunner] ([llm_extraction.py] lines 20-315 and 447-459): the
      checkpointed runner as explicit state passing over [RunnerState]
      (processed set, checkpoint file, event trace), each step returning
      the exception that ends the run, and the prompt (the review lines
      between the exact instruction text of the f-string); theorems: one
      row per product over any sequence of runs, a save precedes the next
      call, reruns are no-ops, a failed call is retried, every reviewed
      product is saved.
    - [ReportMerge] ([llm_extraction.py] lines 317-419): pandas' left merge
      with suffixes, [create_risk_class] and [finalize_and_save]; theorems:
      one row per product, the final label is the checkpointed one, an
      unprocessed product is labelled Healthy, a missing column aborts.
    - [Train] ([train_model.py] lines 35-61): the feature preparation on a
      table with typed columns; theorems: the type of [X] (numbers only),
      an [object] column becomes an indicator of the value 1, the
      [KeyError] of a missing column.
    - [ReviewPage] ([ty_scrapping.py] lines 91-267): the product loop of
      the scraper against a browser interface, the scroll loop and the CSV
      append; theorems: header and row order of the output file, the
      header lost after an empty first page, the scroll bound, a scraped
      date parses back.
    - [Pipeline] ([base_metrics.py] lines 118-133 and [llm_extraction.py]
      lines 447-462): the two entry points composed on one review CSV
      ([base_metrics_main], [llm_main]); theorem: the final table has one
      row per product whose reviews have a parsable date, in order of
      first appearance.
    - [Evaluate] ([train_model.py] lines 71-226): the
      script after the feature preparation, each sklearn, imblearn or
      XGBoost call modelled by what the library computes at the
      script's arguments: the stratified split's sizes and checks, SMOTE's
      class counts and neighbour check, the balanced sample weights,
      XGBoost's label check, accuracy, weighted F1, the report's label
      check, the confusion matrix and its cell loop, the wrong
      predictions ([train_evaluate] composes them, in the script's order),
      the feature-importance table with its descending sort
      ([importance_frame], [sort_by_importance]) and the SHAP loop's
      per-class selection and files ([shap_for_class], [shap_plots]);
      theorems: too few products per class stop the split, SMOTE balances
      the classes and a small minority class stops it, the sample weights
      are all 1, the printed scores agree, only [ValueError] escapes.
    - [TrainScript] ([train_model.py] lines 30-226): [Train] and
      [Evaluate] composed as the script runs them, with the labels taken
      from 'Risk_Class' and the product names looked up at line 214;
      lemmas: the script stops only with [KeyError] or [ValueError], its
      fitted weights are all 1, and it runs to the end on a table of
      twelve products; theorem: the importance table lists the seven
      features once each, by non-increasing importance.
    - [Handover] (lines 19-24 of [train_model.py], 121-126 of
      [base_metrics.py], 438-445 of [llm_extraction.py], 15-21 of
      [ty_scrapping.py]): how the scripts hand files to each other. Each
      one computes its paths from [__file__] with [os.path.dirname] and
      [os.path.join], modelled as posixpath computes them on strings
      ([py_dirname], [py_join]); the checkout location is a variable
      [repo]. Theorems: for every [repo] each script reads the file the
      previous one writes and the pipeline's files are distinct; the
      scraper's CSV is read by no script, and its columns lack the
      'duzeltilmis_yorum' the extractor reads.

    ** Bounds and fuel

    [str.replace] is a scan with fuel, given the length of the string:
    each step consumes at least one byte ([DateParse.replace_fuel_enough]).
    The scroll loop runs on fuel [MAX_TOTAL_SCROLL_ATTEMPTS] = 50, the
    bound of its own [while] test ([ReviewPage.scroll_loop_spec]). All
    other loops are structural recursions on lists.

    ** What is not modelled

    The network call to the language model and [json.loads] (an
    interface: any function from prompts to answers), pandas' CSV parser
    (an interface with laws, and a table with typed columns for the
    training script), the browser (what Selenium finds on a page is the
    input of [ReviewPage]), Python's [float] on arbitrary text (a
    parameter), the rows the stratified split draws and the rows SMOTE
    generates (random; parameters of [Evaluate]), XGBoost's training and
    predictions and importances (parameters), the SHAP explainer's values
    (an input of [shap_plots]), the plots, [os.makedirs], the Chrome
    options, sleeps and prints: they are libraries or I/O the sources only
    call. The importance sort is a stable merge sort; numpy's vectorised
    argsort may order rows of equal importance differently, so the
    theorems only use that the result is a permutation by non-increasing
    importance. Floating-point numbers
    are exact rationals [Q]; every comparison the code makes is against a
    small integer constant, for which float and rational comparison agree
    on every value that a JSON literal or a CSV cell denotes exactly, and
    the balanced weights [n / (k * m)] with [n = k * m] are exactly [1.0]
    in floating point too. Text is bytes: [\d], [\s] and [.lower()] are
    their ASCII cases. *)

From stdpp Require Export base gmap strings list.
From Stdlib Require Export ZArith QArith.

Close Scope Q_scope.

Declare Scope churn_scope.
Delimit Scope churn_scope with churn.

(** ** Python exceptions and results *)

(** The exceptions the modelled code can raise and does not catch. *)
Inductive exc : Type :=
  | TypeError          (** comparison of None or str with an int; item
                           assignment on a non-dict *)
  | KeyError           (** [row[key]] on a column the frame lacks *)
  | IndexError         (** [.iloc[0]] on an empty selection *)
  | ValueError         (** [min] of an empty sequence; the argument checks of
                           sklearn, imblearn and XGBoost *)
  | ZeroDivisionError. (** [x / 0] *)

#[export] Instance exc_eq_dec : EqDecision exc.
Proof. solve_decision. Defined.

(** The outcome of Python code that returns a value or raises. *)
Inductive pyres (A : Type) : Type :=
  | Ok (a : A)
  | Raise (e : exc).
Arguments Ok {A} a.
Arguments Raise {A} e.

Definition pybind {A B} (m : pyres A) (k : A -> pyres B) : pyres B :=
  match m with
  | Ok a => k a
  | Raise e => Raise e
  end.

Notation "x <- m ;; k" := (pybind m (fun x => k))
  (at level 100, m at next level, right associativity) : churn_scope.

Open Scope churn_scope.

(** Python's [l[:n]] for an integer [n]: the first [n] items when [n] is
    non-negative, all but the last [-n] items when it is negative. *)
Definition py_head {A} (n : Z) (l : list A) : list A :=
  if (0 <=? n)%Z then take (Z.to_nat n) l
  else take (length l - Z.to_nat (- n)) l.

(** Python's [x not in s] for the list comprehension
    [[p for p in l if p not in s]]. *)
Definition py_not_in (s : gset string) (p : string) : bool :=
  bool_decide (p ∉ s).

(** [str.isspace] (and the class [\s] of [re] for str patterns) on one byte: tab to carriage return, the four
    separators 28-31 and space. *)
Definition py_isspace (c : Ascii.ascii) : bool :=
  let n := Ascii.nat_of_ascii c in
  ((9 <=? n) && (n <=? 13)) || ((28 <=? n) && (n <=? 32)).

(** [c.isdigit()] for an ASCII digit, and its value. *)
Definition is_digit (c : Ascii.ascii) : bool :=
  let n := Ascii.nat_of_ascii c in (48 <=? n) && (n <=? 57).

Definition digit_val (c : Ascii.ascii) : Z := (Z.of_nat (Ascii.nat_of_ascii c) - 48)%Z.

(** The byte of a decimal digit. *)
Definition digit_char (d : nat) : Ascii.ascii := Ascii.ascii_of_nat (48 + d)%nat.

(** [\s*] of [re], and [str.lstrip()]: the bytes after the leading
    whitespace. *)
Fixpoint skip_ws (l : list Ascii.ascii) : list Ascii.ascii :=
  match l with
  | c :: l' => if py_isspace c then skip_ws l' else l
  | [] => []
  end.

(** The string ["\n"]. *)
Definition newline : string := String (Ascii.ascii_of_nat 10) EmptyString.

(** [str.strip()] *)
Definition py_strip (s : string) : string :=
  String.string_of_list_ascii
    (rev (skip_ws (rev (skip_ws (String.list_ascii_of_string s))))).

(** The rest of the byte string [l] after the prefix [p], if [p] is one
    ([l.startswith(p)] and the slice after it). *)
Fixpoint strip_prefix (p l : list Ascii.ascii) : option (list Ascii.ascii) :=
  match p, l with
  | [], _ => Some l
  | c :: p', d :: l' => if Ascii.eqb c d then strip_prefix p' l' else None
  | _ :: _, [] => None
  end.

(** Python's [a < b] on floats. *)
Definition qlt_bool (a b : Q) : bool := negb (Qle_bool b a).

Lemma qlt_bool_iff (a b : Q) : qlt_bool a b = true <-> (a < b)%Q.
Proof.
  unfold qlt_bool. rewrite negb_true_iff. split.
  - intros H. apply Qnot_le_lt. intros Hle. apply Qle_bool_iff in Hle. congruence.
  - intros H. destruct (Qle_bool b a) eqn:E; [| done].
    apply Qle_bool_iff in E. exfalso. by apply (Qlt_not_le a b).
Qed.

#[export] Instance Q_eq_dec : EqDecision Q.
Proof.
  intros [n1 d1] [n2 d2].
  destruct (decide (n1 = n2)), (decide (d1 = d2)); subst;
    [left; reflexivity | right; congruence ..].
Defined.

(** ** Shared lemmas *)

Create HintDb churn discriminated.

(** [decide_prop] proves a decidable proposition on concrete data. *)
Ltac decide_prop := apply (bool_decide_unpack _); vm_compute; exact I.
Create Rewrite HintDb churn_rw.

Lemma pybind_ok {A B} (a : A) (k : A -> pyres B) : pybind (Ok a) k = k a.
Proof. reflexivity. Qed.

Lemma pybind_raise {A B} (e : exc) (k : A -> pyres B) : pybind (Raise e) k = Raise e.
Proof. reflexivity. Qed.

Lemma pybind_eq_ok {A B} (m : pyres A) (k : A -> pyres B) (b : B) :
  pybind m k = Ok b -> exists a, m = Ok a /\ k a = Ok b.
Proof. destruct m; simpl; [eauto | discriminate]. Qed.

Lemma py_head_nonneg {A} (n : Z) (l : list A) :
  (0 <= n)%Z -> py_head n l = take (Z.to_nat n) l.
Proof. intros H. unfold py_head. by rewrite (proj2 (Z.leb_le 0 n) H). Qed.

Lemma py_head_neg {A} (n : Z) (l : list A) :
  (n < 0)%Z -> py_head n l = take (length l - Z.to_nat (- n)) l.
Proof.
  intros H. unfold py_head. destruct (Z.leb_spec 0 n); [lia | done].
Qed.

Lemma py_head_sublist {A} (n : Z) (l : list A) : py_head n l `prefix_of` l.
Proof. unfold py_head. case_match; apply prefix_take. Qed.

Lemma py_not_in_spec (s : gset string) (p : string) :
  py_not_in s p = true <-> p ∉ s.
Proof. unfold py_not_in. apply bool_decide_eq_true. Qed.

#[export] Hint Rewrite @pybind_ok @pybind_raise : churn_rw.
#[export] Hint Resolve py_head_sublist : churn.

(** [pyres_inv H] decomposes a hypothesis [pybind m k = Ok b]. *)
Ltac pyres_inv H :=
  let a := fresh "a" in
  let Ha := fresh "Hm" in
  let Hk := fresh "Hk" in
  apply pybind_eq_ok in H; destruct H as (a & Ha & Hk).

(** [[f(x) for x in l]] where [f] may raise: the first exception aborts. *)
Fixpoint py_mapM {A B} (f : A -> pyres B) (l : list A) : pyres (list B) :=
  match l with
  | [] => Ok []
  | x :: l' => y <- f x ;; ys <- py_mapM f l' ;; Ok (y :: ys)
  end.

(** pandas' [Series.unique()]: distinct values in order of first
    appearance. *)
Fixpoint py_unique `{EqDecision A} (l : list A) : list A :=
  match l with
  | [] => []
  | x :: l' => x :: filter (fun y => y <> x) (py_unique l')
  end.

Lemma py_mapM_length {A B} (f : A -> pyres B) (l : list A) (l' : list B) :
  py_mapM f l = Ok l' -> length l' = length l.
Proof.
  revert l'. induction l as [|x l IH]; intros l' H; simpl in H.
  - by injection H as <-.
  - pyres_inv H. pyres_inv Hk. injection Hk0 as <-. simpl. by rewrite (IH a0).
Qed.

Lemma py_mapM_Forall2 {A B} (f : A -> pyres B) (l : list A) (l' : list B) :
  py_mapM f l = Ok l' -> Forall2 (fun x y => f x = Ok y) l l'.
Proof.
  revert l'. induction l as [|x l IH]; intros l' H; simpl in H.
  - injection H as <-. constructor.
  - pyres_inv H. pyres_inv Hk. injection Hk0 as <-. constructor; auto.
Qed.

Lemma py_mapM_raise {A B} (f : A -> pyres B) (l : list A) (x : A) (e : exc) :
  x ∈ l -> f x = Raise e -> exists e', py_mapM f l = Raise e'.
Proof.
  induction l as [|y l IH]; intros Hx Hf; [by apply not_elem_of_nil in Hx |].
  simpl. destruct (f y) eqn:Hy; simpl; [| eauto].
  apply elem_of_cons in Hx as [-> | Hx]; [congruence |].
  destruct (IH Hx Hf) as [e' ->]. eauto.
Qed.

Lemma elem_of_py_unique `{EqDecision A} (l : list A) (x : A) :
  x ∈ py_unique l <-> x ∈ l.
Proof.
  induction l as [|y l IH]; simpl; [done |].
  rewrite !elem_of_cons, list_elem_of_filter, IH.
  destruct (decide (x = y)); naive_solver.
Qed.

Lemma NoDup_py_unique `{EqDecision A} (l : list A) : NoDup (py_unique l).
Proof.
  induction l as [|y l IH]; simpl; constructor.
  - rewrite list_elem_of_filter. naive_solver.
  - by apply NoDup_filter.
Qed.

Lemma filter_none {A} (P : A -> Prop) `{forall x, Decision (P x)} (l : list A) :
  (forall y, y ∈ l -> ~ P y) -> filter P l = [].
Proof.
  induction l as [|y l IH]; intros Hn; [done |].
  rewrite filter_cons_False by (apply Hn, list_elem_of_here).
  apply IH. intros z Hz. apply Hn, list_elem_of_further, Hz.
Qed.

Lemma elem_of_map_2 {A B} (f : A -> B) (l : list A) (x : A) : x ∈ l -> f x ∈ map f l.
Proof. rewrite !list_elem_of_In. apply in_map. Qed.

(** Selecting by a key that is unique in the list selects exactly one item:
    the shape of [df[df['Ürün'] == name]] on a table with distinct names. *)
Lemma filter_key_unique {A K} (key : A -> K) (P : A -> Prop) `{forall y, Decision (P y)}
    (l : list A) (x : A) :
  (forall y, P y <-> key y = key x) -> x ∈ l -> NoDup (map key l) -> filter P l = [x].
Proof.
  intros HP. induction l as [|y l IH]; intros Hx Hnd; [by apply not_elem_of_nil in Hx |].
  simpl in Hnd. apply NoDup_cons in Hnd as [Hy Hnd].
  apply elem_of_cons in Hx as [-> | Hx].
  - rewrite filter_cons_True by (by apply HP). rewrite filter_none; [done |].
    intros z Hz HPz. apply Hy. apply HP in HPz. rewrite <- HPz. by apply elem_of_map_2.
  - rewrite filter_cons_False; [by apply IH |].
    intros HPy. apply HP in HPy. apply Hy. rewrite HPy. by apply elem_of_map_2.
Qed.

(** [decompose_Forall H] splits a hypothesis [Forall P [x1; ...; xn]]. *)
Ltac decompose_Forall H :=
  repeat match type of H with
  | Forall _ (_ :: _) =>
      let H1 := fresh H in apply Forall_cons_1 in H as [H1 H]
  | Forall _ [] => clear H
  end.

Lemma py_head_sublist_of {A} (n : Z) (l : list A) : py_head n l `sublist_of` l.
Proof. unfold py_head. case_match; apply sublist_take. Qed.

Lemma Forall_sublist_of {A} (P : A -> Prop) (l1 l2 : list A) :
  l1 `sublist_of` l2 -> Forall P l2 -> Forall P l1.
Proof.
  induction 1 as [|x l1 l2 _ IH|x l1 l2 _ IH]; intros HP; [done | |].
  - apply Forall_cons_1 in HP as [Hx HP]. constructor; auto.
  - apply Forall_cons_1 in HP as [_ HP]. auto.
Qed.

Lemma elem_of_sublist_of {A} (x : A) (l1 l2 : list A) :
  l1 `sublist_of` l2 -> x ∈ l1 -> x ∈ l2.
Proof.
  intros Hs Hx.
  assert (HF : Forall (fun y => y ∈ l2) l1).
  { apply (Forall_sublist_of _ l1 l2 Hs). by apply Forall_forall. }
  rewrite Forall_forall in HF. by apply HF.
Qed.

#[export] Hint Resolve py_head_sublist_of sublist_filter : churn.

Lemma elem_of_map_inv {A B} (f : A -> B) (l : list A) (y : B) :
  y ∈ map f l -> exists x, y = f x /\ x ∈ l.
Proof.
  rewrite list_elem_of_In, in_map_iff. intros (x & <- & Hx).
  exists x. split; [done | by apply list_elem_of_In].
Qed.

Lemma NoDup_middle_not_in {A} (l1 l2 : list A) (x : A) :
  NoDup (l1 ++ x :: l2) -> x ∉ l1 ++ l2.
Proof.
  intros H. apply NoDup_app in H as (_ & Hdis & H3). apply NoDup_cons in H3 as [Hx _].
  rewrite elem_of_app. intros [H1 | H2]; [| done].
  apply (Hdis x H1), list_elem_of_here.
Qed.

(** At most one element of a list has a given key, when the keys the list
    has are distinct. *)
Lemma NoDup_omap_filter_length {A K} `{EqDecision K} (g : A -> option K) (l : list A) (k : K) :
  NoDup (omap g l) -> length (filter (fun x => g x = Some k) l) <= 1.
Proof.
  induction l as [| x l IH]; [simpl; lia |]. intros Hnd. simpl in Hnd.
  rewrite filter_cons. destruct (g x) as [y |] eqn:Hx.
  - apply NoDup_cons in Hnd as [Hy Hnd]. case_decide as Hk.
    + injection Hk as ->. simpl.
      rewrite (filter_none _ l); [simpl; lia |].
      intros z Hz Hzk. apply Hy, list_elem_of_omap. eauto.
    + auto.
  - case_decide; [discriminate | auto].
Qed.

Lemma elem_of_concat_map {A B} (f : A -> list B) (l : list A) (x : A) (y : B) :
  x ∈ l -> y ∈ f x -> y ∈ concat (map f l).
Proof.
  intros Hx Hy. induction Hx; simpl; rewrite elem_of_app; [left | right]; auto.
Qed.

Lemma Forall2_elem_of_l {A B} (R : A -> B -> Prop) (l : list A) (k : list B) (x : A) :
  Forall2 R l k -> x ∈ l -> exists y, y ∈ k /\ R x y.
Proof.
  intros HR Hx. apply list_elem_of_lookup_1 in Hx as [i Hi].
  destruct (Forall2_lookup_l _ _ _ _ _ HR Hi) as (y & Hy & Hxy).
  exists y. split; [by eapply list_elem_of_lookup_2 | done].
Qed.

Lemma py_mapM_raise_inv {A B} (f : A -> pyres B) (l : list A) (e : exc) :
  py_mapM f l = Raise e -> exists x, x ∈ l /\ f x = Raise e.
Proof.
  induction l as [|y l IH]; simpl; [discriminate |].
  destruct (f y) eqn:Hy; simpl.
  - destruct (py_mapM f l); simpl; [discriminate |]. intros [= ->].
    destruct (IH eq_refl) as (x & Hx & Hfx). exists x. split; [by apply list_elem_of_further | done].
  - intros [= ->]. exists y. split; [apply list_elem_of_here | done].
Qed.

Lemma py_mapM_ok {A B} (f : A -> pyres B) (l : list A) :
  (forall x, x ∈ l -> exists y, f x = Ok y) -> exists l', py_mapM f l = Ok l'.
Proof.
  induction l as [|x l IH]; intros Hf; simpl; [eauto |].
  destruct (Hf x (list_elem_of_here _ _)) as [y ->]. cbn [pybind].
  destruct IH as [l' ->]; [intros z Hz; apply Hf, list_elem_of_further, Hz |]. simpl. eauto.
Qed.

(** Grouping by a key whose values all occur, once each, in [U] splits a
    list into its groups: every item lands in exactly one group. *)
Lemma partition_by_key `{EqDecision K} {A} (key : A -> K) (U : list K) (l : list A) :
  NoDup U -> Forall (fun x => key x ∈ U) l ->
  l ≡ₚ concat (map (fun k => filter (fun x => key x = k) l) U).
Proof.
  intros Hnd. revert l. induction Hnd as [| u U Hu Hnd IH]; intros l Hl.
  - destruct l as [| x l]; [done |]. apply Forall_cons_1 in Hl as [Hx _].
    by apply not_elem_of_nil in Hx.
  - simpl. rewrite <- (filter_app_complement (fun x => key x = u) l) at 1.
    apply Permutation_app_head.
    rewrite (IH (filter (fun x => ~ key x = u) l)).
    + apply Permutation_refl'. f_equal. apply map_ext_in. intros k Hk.
      rewrite list_filter_filter. apply list_filter_iff. intros x.
      apply list_elem_of_In in Hk. split; [intros [? ?]; done | intros ->; split; [done | by intros ->]].
    + apply Forall_forall. intros x Hx. apply list_elem_of_filter in Hx as [Hne Hx].
      eapply Forall_forall in Hl; [| exact Hx]. by apply elem_of_cons in Hl as [? | ?].
Qed.

Lemma length_concat_Z {A} (ls : list (list A)) :
  foldr Z.add 0%Z (map (fun l => Z.of_nat (length l)) ls) = Z.of_nat (length (concat ls)).
Proof. induction ls as [| l ls IH]; simpl; [done |]. rewrite IH, length_app. lia. Qed.

Lemma strip_prefix_app p l : strip_prefix p (p ++ l) = Some l.
Proof. induction p as [| c p IH]; cbn [strip_prefix app]; [done |]. by rewrite Ascii.eqb_refl. Qed.

Lemma strip_prefix_Some p l r : strip_prefix p l = Some r -> l = p ++ r.
Proof.
  revert l. induction p as [| c p IH]; intros [| d l] H; simplify_eq/=; try done.
  destruct (Ascii.eqb_spec c d); simplify_eq. by rewrite (IH l H).
Qed.

Lemma nat_of_digit_char d : (d < 10)%nat -> Ascii.nat_of_ascii (digit_char d) = (48 + d)%nat.
Proof. intros Hd. apply Ascii.nat_ascii_embedding. lia. Qed.

Lemma digit_char_digit d :
  (d < 10)%nat ->
  is_digit (digit_char d) = true /\ py_isspace (digit_char d) = false /\
  digit_val (digit_char d) = Z.of_nat d.
Proof.
  intros Hd. unfold is_digit, py_isspace, digit_val. rewrite (nat_of_digit_char d Hd).
  split; [| split].
  - apply andb_true_intro. split; apply Nat.leb_le; lia.
  - apply orb_false_intro; apply andb_false_intro2; apply Nat.leb_gt; lia.
  - lia.
Qed.

(** A property of every integer of [[lo, lo + n)] from its instances. *)
Lemma Z_enum (P : Z -> Prop) (lo : Z) (n : nat) :
  Forall (fun k => P (lo + Z.of_nat k)%Z) (seq 0 n) ->
  forall x, (lo <= x < lo + Z.of_nat n)%Z -> P x.
Proof.
  intros HF x Hx. rewrite Forall_forall in HF.
  assert (Z.to_nat (x - lo) ∈ seq 0 n) as Hk by (apply elem_of_seq; lia).
  specialize (HF _ Hk). by replace x with (lo + Z.of_nat (Z.to_nat (x - lo)))%Z by lia.
Qed.

Lemma py_mapM_map {A B} (f : A -> pyres B) (g : A -> B) (l : list A) :
  (forall x, x ∈ l -> f x = Ok (g x)) -> py_mapM f l = Ok (map g l).
Proof.
  induction l as [| x l IH]; intros Hf; [done |]. cbn [py_mapM map].
  rewrite (Hf x (list_elem_of_here _ _)). cbn [pybind].
  rewrite IH; [done |]. intros y Hy. apply Hf. by apply list_elem_of_further.
Qed.

