(* ===== verification/PyValue.v ===== *)
(** * Python and pandas values

    The values the modelled code reads from a language-model JSON answer or
    from a pandas cell, Python's comparisons on them (which raise
    [TypeError] on [None] and strings), [dict.get], pandas' [row[key]], the
    truthiness test [if llm_result:], and the CSV round trip of a cell as a
    typeclass with the laws the theorems use. *)

From S2P Require Import Prelude.

(** A dynamic value: [None], pandas' missing value [NaN], a bool, a number
    (int or float, as an exact rational), a string, or a nested list or
    dict (whose contents no modelled code inspects). *)
Inductive PyVal : Type :=
  | PNone
  | PNaN
  | PBool (b : bool)
  | PNum (q : Q)
  | PStr (s : string)
  | PContainer.

#[export] Instance PyVal_eq_dec : EqDecision PyVal.
Proof. solve_decision. Defined.

(** [PNum] of an integer literal. *)
Definition PInt (z : Z) : PyVal := PNum (inject_Z z).

(** ** Python's comparisons with an integer constant *)

(** The number a value stands for in arithmetic comparisons: [bool] is a
    subclass of [int] in Python ([True == 1]); [NaN] is handled apart. *)
Definition py_num (v : PyVal) : option Q :=
  match v with
  | PBool b => Some (if b then 1 else 0)%Q
  | PNum q => Some q
  | _ => None
  end.

(** [v == True]: never raises; [None], [NaN], strings and containers are
    unequal to [True]. *)
Definition py_eq_true (v : PyVal) : bool :=
  match py_num v with
  | Some q => Qeq_bool q 1
  | None => false
  end.

(** [v == c] for an integer constant [c]. *)
Definition py_eq_int (v : PyVal) (c : Z) : bool :=
  match py_num v with
  | Some q => Qeq_bool q (inject_Z c)
  | None => false
  end.

(** An ordering comparison [v op c]: [False] on [NaN], a [TypeError] on
    [None], strings and containers (Python 3 does not order them against
    an [int]). *)
Definition py_order (op : Q -> Q -> bool) (v : PyVal) (c : Z) : pyres bool :=
  match v with
  | PNaN => Ok false
  | _ => match py_num v with
         | Some q => Ok (op q (inject_Z c))
         | None => Raise TypeError
         end
  end.

Definition py_le (v : PyVal) (c : Z) : pyres bool := py_order Qle_bool v c.
Definition py_ge (v : PyVal) (c : Z) : pyres bool :=
  py_order (fun q k => Qle_bool k q) v c.
Definition py_lt (v : PyVal) (c : Z) : pyres bool :=
  py_order (fun q k => Qle_bool q k && negb (Qeq_bool q k)) v c.

(** Python's [a == b] between two values. *)
Definition py_eq (a b : PyVal) : bool :=
  match a, b with
  | PNone, PNone => true
  | PStr s, PStr t => bool_decide (s = t)
  | _, _ => match py_num a, py_num b with
            | Some p, Some q => Qeq_bool p q
            | _, _ => false
            end
  end.

(** Truthiness of a scalar ([if v:]). *)
Definition py_truthy (v : PyVal) : bool :=
  match v with
  | PNone => false
  | PNaN => true
  | PBool b => b
  | PNum q => negb (Qeq_bool q 0)
  | PStr s => bool_decide (s <> "")
  | PContainer => true
  end.

(** ** Dicts and frames *)

(** [d.get(k, default)]; [d.get(k)] is [dict_get d k PNone]. *)
Definition dict_get (d : gmap string PyVal) (k : string) (default : PyVal) : PyVal :=
  match d !! k with
  | Some v => v
  | None => default
  end.

(** A pandas frame: its columns and its rows. A row that has no entry for
    a column holds [NaN] there (what concat and merge fill in). *)
Record frame : Type := {
  fr_columns : list string;
  fr_rows : list (gmap string PyVal)
}.

(** [row[k]] on a row of a frame with columns [cols]. *)
Definition df_get (cols : list string) (row : gmap string PyVal) (k : string)
    : pyres PyVal :=
  if bool_decide (k ∈ cols) then Ok (dict_get row k PNaN) else Raise KeyError.

(** ** The parsed JSON answer of the language model *)

(** [json.loads] returns a dict, a list (only its length matters to the
    code: its truthiness) or a scalar. *)
Inductive JsonTop : Type :=
  | JDict (d : gmap string PyVal)
  | JList (n : nat)
  | JScalar (v : PyVal).

(** [if llm_result:] *)
Definition json_truthy (j : JsonTop) : bool :=
  match j with
  | JDict d => bool_decide (d <> ∅)
  | JList n => bool_decide (n <> 0)
  | JScalar v => py_truthy v
  end.

(** ** The CSV round trip of a cell *)

(** What [to_csv] followed by [read_csv] does to one cell: [None] and
    [NaN] come back as [NaN], bools and numbers come back unchanged, and
    reading back what was read is the identity. Strings may change
    ([""] becomes [NaN], ["True"] a bool, ["12"] a number), which the laws
    leave open. *)
Class CsvCodec := {
  csv_cell : PyVal -> PyVal;
  csv_cell_none : csv_cell PNone = PNaN;
  csv_cell_nan : csv_cell PNaN = PNaN;
  csv_cell_bool b : csv_cell (PBool b) = PBool b;
  csv_cell_num q : csv_cell (PNum q) = PNum q;
  csv_cell_idem v : csv_cell (csv_cell v) = csv_cell v
}.

(** A value whose round trip the laws determine. *)
Definition is_plain (v : PyVal) : bool :=
  match v with
  | PNone | PNaN | PBool _ | PNum _ => true
  | _ => false
  end.

(** A concrete codec with pandas' reading of the empty string and of
    [True]/[False]; containers are written as their [repr]. *)
Definition pandas_str (s : string) : PyVal :=
  if bool_decide (s = "") then PNaN
  else if bool_decide (s = "True") then PBool true
  else if bool_decide (s = "False") then PBool false
  else PStr s.

Definition pandas_cell (v : PyVal) : PyVal :=
  match v with
  | PNone => PNaN
  | PStr s => pandas_str s
  | PContainer => PStr "[...]"
  | _ => v
  end.

Lemma pandas_cell_idem v : pandas_cell (pandas_cell v) = pandas_cell v.
Proof.
  destruct v as [| | | |s|]; try reflexivity; simpl.
  unfold pandas_str. repeat (case_bool_decide; simplify_eq/=); try reflexivity.
  unfold pandas_str. repeat case_bool_decide; done.
Qed.

#[export] Instance pandas_codec : CsvCodec := {|
  csv_cell := pandas_cell;
  csv_cell_none := eq_refl;
  csv_cell_nan := eq_refl;
  csv_cell_bool _ := eq_refl;
  csv_cell_num _ := eq_refl;
  csv_cell_idem := pandas_cell_idem
|}.

(** ** Comparisons on known values *)

Lemma Qle_bool_inject_Z (a b : Z) : Qle_bool (inject_Z a) (inject_Z b) = (a <=? b)%Z.
Proof. unfold Qle_bool, inject_Z. simpl. by rewrite !Z.mul_1_r. Qed.

Lemma Qeq_bool_inject_Z (a b : Z) : Qeq_bool (inject_Z a) (inject_Z b) = (a =? b)%Z.
Proof. unfold Qeq_bool, inject_Z. simpl. by rewrite !Z.mul_1_r. Qed.

Lemma py_eq_true_bool b : py_eq_true (PBool b) = b.
Proof. by destruct b. Qed.

Lemma py_ge_int (z c : Z) : py_ge (PInt z) c = Ok (c <=? z)%Z.
Proof. unfold py_ge, py_order, PInt. simpl. by rewrite Qle_bool_inject_Z. Qed.

Lemma py_le_int (z c : Z) : py_le (PInt z) c = Ok (z <=? c)%Z.
Proof. unfold py_le, py_order, PInt. simpl. by rewrite Qle_bool_inject_Z. Qed.

Lemma py_lt_int (z c : Z) : py_lt (PInt z) c = Ok (z <? c)%Z.
Proof.
  unfold py_lt, py_order, PInt. simpl.
  rewrite Qle_bool_inject_Z, Qeq_bool_inject_Z.
  destruct (Z.ltb_spec z c), (Z.leb_spec z c), (Z.eqb_spec z c); simpl; f_equal; lia.
Qed.

Lemma py_eq_int_int (z c : Z) : py_eq_int (PInt z) c = (z =? c)%Z.
Proof. unfold py_eq_int, PInt. simpl. by rewrite Qeq_bool_inject_Z. Qed.

Lemma py_eq_str (s t : string) : py_eq (PStr s) (PStr t) = bool_decide (s = t).
Proof. reflexivity. Qed.

Lemma py_order_none op c : py_order op PNone c = Raise TypeError.
Proof. reflexivity. Qed.

Lemma py_order_nan op c : py_order op PNaN c = Ok false.
Proof. reflexivity. Qed.

#[export] Hint Rewrite py_eq_true_bool py_ge_int py_le_int py_lt_int py_eq_int_int
  py_eq_str py_order_none py_order_nan : churn_rw.

(** ** Comparisons survive the CSV round trip *)

Section CsvComparisons.
Context `{CsvCodec}.

(** The round trip of a plain value: [None] becomes [NaN], the rest stay. *)
Lemma csv_cell_plain v :
  is_plain v = true -> csv_cell v = match v with PNone => PNaN | _ => v end.
Proof.
  destruct v; simpl; intros Hp; try discriminate;
    auto using csv_cell_none, csv_cell_nan, csv_cell_bool, csv_cell_num.
Qed.

Lemma py_eq_true_csv v : is_plain v = true -> py_eq_true (csv_cell v) = py_eq_true v.
Proof. intros Hp. rewrite csv_cell_plain by done. by destruct v. Qed.

Lemma py_eq_int_csv v c : is_plain v = true -> py_eq_int (csv_cell v) c = py_eq_int v c.
Proof. intros Hp. rewrite csv_cell_plain by done. by destruct v. Qed.

(** An ordering comparison that did not raise on a plain value gives the
    same answer after the round trip. *)
Lemma py_order_csv op v c b :
  is_plain v = true -> py_order op v c = Ok b -> py_order op (csv_cell v) c = Ok b.
Proof. intros Hp Hb. rewrite csv_cell_plain by done. by destruct v. Qed.

End CsvComparisons.

(** ** Reading a key with a default against reading it back from a CSV *)

Section DefaultVersusNaN.
Context `{CsvCodec}.

(** When the key is absent the code compares the default, the batch pass
    compares NaN: they agree when the default compares like NaN. *)
Lemma py_order_default_csv op (d : gmap string PyVal) k dflt c b :
  py_order op dflt c = Ok false ->
  is_plain (dict_get d k PNone) = true ->
  py_order op (dict_get d k dflt) c = Ok b ->
  py_order op (csv_cell (dict_get d k PNone)) c = Ok b.
Proof.
  unfold dict_get. intros Hd Hp Hb. destruct (d !! k) as [v|].
  - by apply py_order_csv.
  - rewrite csv_cell_none. rewrite Hd in Hb. by injection Hb as <-.
Qed.

Lemma py_eq_int_default_csv (d : gmap string PyVal) k dflt c :
  py_eq_int dflt c = false ->
  is_plain (dict_get d k PNone) = true ->
  py_eq_int (csv_cell (dict_get d k PNone)) c = py_eq_int (dict_get d k dflt) c.
Proof.
  unfold dict_get. intros Hd Hp. destruct (d !! k) as [v|].
  - by apply py_eq_int_csv.
  - by rewrite csv_cell_none, Hd.
Qed.

End DefaultVersusNaN.

(** An ordering comparison only ever raises [TypeError]. *)
Lemma py_order_raise op v c e : py_order op v c = Raise e -> e = TypeError.
Proof. unfold py_order. repeat case_match; congruence. Qed.

(** ... and never raises on a plain value other than [None]. *)
Lemma py_order_plain op v c :
  is_plain v = true -> v <> PNone -> exists b, py_order op v c = Ok b.
Proof. destruct v; simpl; intros; try discriminate; try congruence; eauto. Qed.

Lemma dict_get_insert_ne (d : gmap string PyVal) k k' v dflt :
  k <> k' -> dict_get (<[k := v]> d) k' dflt = dict_get d k' dflt.
Proof. intros Hne. unfold dict_get. by rewrite lookup_insert_ne. Qed.

Lemma dict_get_insert_eq (d : gmap string PyVal) k v dflt :
  dict_get (<[k := v]> d) k dflt = v.
Proof. unfold dict_get. by rewrite lookup_insert_eq. Qed.

(** [simpl_dict_get] resolves [dict_get] through [<[k := v]>] for
    distinct literal keys. *)
Ltac simpl_dict_get :=
  repeat first [ rewrite dict_get_insert_eq
               | rewrite dict_get_insert_ne by discriminate ].
