(* ===== verification/Scraper.v ===== *)
(** * The pure helpers of the web scraper

    [src/webscraping/ty_scrapping.py]: [get_review_link] (lines 27-39)
    turns a product link into the link of its review page;
    [extract_padding_value] (lines 60-69) reads the padding out of the
    style of the star element with a regular expression and [float];
    [closest_star_from_padding] (lines 51-58) maps the padding to the
    star whose padding in [PADDING_TO_STAR] is nearest. The product loop
    that calls them is modelled in [ReviewPage].

    Strings are byte strings ([string], lists of [ascii]); the regular
    expression is modelled by the matcher it amounts to (both repeated
    classes are followed by a character outside them, so the greedy match
    never backtracks); [\d] is an ASCII digit. Paddings are exact
    rationals: the float keys of the dict are their decimal values. *)

From S2P Require Import Prelude.
From Stdlib Require Import Ascii Qabs Lqa.

Module Scraper.

(** ** [get_review_link] *)

Definition question : Ascii.ascii := "?"%char.
Definition slash : Ascii.ascii := "/"%char.

(** [s.split(c, 1)]: one part, or the part before the first [c] and the
    rest. *)
Fixpoint split_once (c : Ascii.ascii) (s : string) : string * option string :=
  match s with
  | EmptyString => (EmptyString, None)
  | String d s' =>
      if Ascii.eqb d c then (EmptyString, Some s')
      else let '(b, q) := split_once c s' in (String d b, q)
  end.

Definition py_split1 (c : Ascii.ascii) (s : string) : list string :=
  match split_once c s with
  | (b, None) => [b]
  | (b, Some q) => [b; q]
  end.

(** [s.rstrip(c)] *)
Fixpoint py_rstrip (c : Ascii.ascii) (s : string) : string :=
  match s with
  | EmptyString => EmptyString
  | String d s' =>
      let r := py_rstrip c s' in
      if Ascii.eqb d c && String.eqb r EmptyString then EmptyString else String d r
  end.

Definition get_review_link (product_link : string) : string :=
  let parts := py_split1 question product_link in
  let base_url := py_rstrip slash (hd EmptyString parts) in
  let query_params := match parts with _ :: q :: _ => String question q | _ => EmptyString end in
  (base_url ++ "/yorumlar" ++ query_params)%string.

(** ** [closest_star_from_padding] *)

(** [PADDING_TO_STAR], in insertion order. *)
Definition PADDING_TO_STAR : list (Q * Z) :=
  [(668571 # 10000, 1%Z); (501429 # 10000, 2%Z); (334286 # 10000, 3%Z);
   (167143 # 10000, 4%Z); (0, 5%Z)].

(** [min(xs, key=key)]: the first item whose key is smallest. *)
Fixpoint py_min_by {A} (key : A -> Q) (best : A) (xs : list A) : A :=
  match xs with
  | [] => best
  | x :: xs' => py_min_by key (if qlt_bool (key x) (key best) then x else best) xs'
  end.

(** [d[k]] on a dict with float keys. *)
Fixpoint q_lookup (k : Q) (d : list (Q * Z)) : pyres Z :=
  match d with
  | [] => Raise KeyError
  | (k', v) :: d' => if Qeq_bool k k' then Ok v else q_lookup k d'
  end.

Definition closest_star_from_padding (padding_value : option Q) : pyres (option Z) :=
  match padding_value with
  | None => Ok None
  | Some p =>
      match map fst PADDING_TO_STAR with
      | [] => Raise ValueError
      | k0 :: ks =>
          star <- q_lookup (py_min_by (fun k => Qabs (k - p)) k0 ks) PADDING_TO_STAR ;;
          Ok (Some star)
      end
  end.

(** The reading the table encodes: a padding at or above the midpoint
    between two neighbouring keys gets the star of the larger key. *)
Definition star_by_threshold (p : Q) : Z :=
  if Qle_bool (117 # 2) p then 1
  else if Qle_bool (835715 # 20000) p then 2
  else if Qle_bool (501429 # 20000) p then 3
  else if Qle_bool (167143 # 20000) p then 4
  else 5.

(** ** [extract_padding_value] *)

(** The class [[\d\.]]. *)
Definition is_num_char (c : Ascii.ascii) : bool := is_digit c || Ascii.eqb c "."%char.

(** [[\d\.]*], greedy: the run and what follows it. *)
Fixpoint take_num (l : list Ascii.ascii) : list Ascii.ascii * list Ascii.ascii :=
  match l with
  | c :: l' => if is_num_char c then let '(n, r) := take_num l' in (c :: n, r) else ([], l)
  | [] => ([], [])
  end.

Definition padding_key : list Ascii.ascii := String.list_ascii_of_string "padding-inline-end".
Definition px : list Ascii.ascii := String.list_ascii_of_string "px".

(** [padding-inline-end\s*:\s*([\d\.]+)px] matched at the start of [l]:
    the group. *)
Definition match_at (l : list Ascii.ascii) : option (list Ascii.ascii) :=
  match strip_prefix padding_key l with
  | None => None
  | Some r =>
      match skip_ws r with
      | c :: r' =>
          if Ascii.eqb c ":"%char then
            let '(num, rest) := take_num (skip_ws r') in
            match num, strip_prefix px rest with
            | _ :: _, Some _ => Some num
            | _, _ => None
            end
          else None
      | [] => None
      end
  end.

(** [re.search]: the leftmost match. *)
Fixpoint re_search (l : list Ascii.ascii) : option (list Ascii.ascii) :=
  match match_at l with
  | Some g => Some g
  | None => match l with [] => None | _ :: l' => re_search l' end
  end.

Definition digits_value (l : list Ascii.ascii) : Z :=
  fold_left (fun acc c => 10 * acc + digit_val c)%Z l 0%Z.

(** The part before the first dot and the part after it. *)
Fixpoint split_dot (l : list Ascii.ascii) : list Ascii.ascii * option (list Ascii.ascii) :=
  match l with
  | [] => ([], None)
  | c :: l' => if Ascii.eqb c "."%char then ([], Some l') else let '(a, b) := split_dot l' in (c :: a, b)
  end.

(** [float(s)] on a run of digits and dots: [None] where Python raises
    [ValueError] (a second dot, or no digit at all). *)
Definition py_float (s : list Ascii.ascii) : option Q :=
  match split_dot s with
  | ([], None) => None
  | (ip, None) => Some (inject_Z (digits_value ip))
  | (ip, Some fp) =>
      if existsb (fun c => Ascii.eqb c "."%char) fp then None
      else match ip, fp with
           | [], [] => None
           | _, _ => Some (inject_Z (digits_value ip)
                           + inject_Z (digits_value fp) / inject_Z (10 ^ Z.of_nat (length fp)))%Q
           end
  end.

(** [extract_padding_value]: [None] for a missing or empty style, no
    match, or a group [float] rejects. *)
Definition extract_padding_value (style_str : option string) : option Q :=
  match style_str with
  | None => None
  | Some s =>
      if String.eqb s EmptyString then None
      else match re_search (String.list_ascii_of_string s) with
           | Some g => py_float g
           | None => None
           end
  end.

(** ** Lemmas on the nearest key *)

(** Between two keys [b < a], [b] is strictly nearer to [p] exactly when
    [p] is below their midpoint. *)
Lemma Qabs_split x : (0 <= x /\ Qabs x == x)%Q \/ (x <= 0 /\ Qabs x == - x)%Q.
Proof.
  destruct (Qlt_le_dec x 0) as [H | H];
    [right; split; [lra | apply Qabs_neg; lra] | left; split; [done | by apply Qabs_pos]].
Qed.

Ltac abs_cases a b p :=
  destruct (Qabs_split (a - p)) as [[? ?] | [? ?]]; destruct (Qabs_split (b - p)) as [[? ?] | [? ?]].

Lemma Qabs_closer a b p : (b < a)%Q -> (Qabs (b - p) < Qabs (a - p))%Q -> (2 * p < a + b)%Q.
Proof. intros. abs_cases a b p; lra. Qed.

Lemma Qabs_farther a b p : (b < a)%Q -> (Qabs (a - p) <= Qabs (b - p))%Q -> (a + b <= 2 * p)%Q.
Proof. intros. abs_cases a b p; lra. Qed.

(** Turn the boolean comparisons of the hypotheses into linear facts. *)
Ltac q_facts :=
  repeat match goal with
  | H : Qle_bool _ _ = true |- _ => apply Qle_bool_iff in H
  | H : Qle_bool _ _ = false |- _ =>
      apply not_true_iff_false in H; rewrite Qle_bool_iff in H; apply Qnot_le_lt in H
  end.

(** One step of [py_min_by] over two constant keys. *)
Ltac min_step :=
  match goal with
  | |- context [qlt_bool (Qabs (?b - ?p)) (Qabs (?a - ?p))] =>
      lazymatch a with Qmake _ _ => idtac end; lazymatch b with Qmake _ _ => idtac end;
      let E := fresh "E" in
      destruct (qlt_bool (Qabs (b - p)) (Qabs (a - p))) eqn:E;
      [ apply qlt_bool_iff, Qabs_closer in E; [| reflexivity]
      | apply not_true_iff_false in E; rewrite qlt_bool_iff in E;
        apply Qnot_lt_le, Qabs_farther in E; [| reflexivity] ];
      cbv beta iota
  end.

Ltac threshold_case :=
  unfold star_by_threshold;
  repeat match goal with |- context [Qle_bool ?a ?b] => destruct (Qle_bool a b) eqn:? end;
  q_facts; first [reflexivity | exfalso; lra].

Lemma threshold_1 p : (117 # 2 <= p)%Q -> star_by_threshold p = 1%Z.
Proof. intros. threshold_case. Qed.
Lemma threshold_2 p : (835715 # 20000 <= p)%Q -> (p < 117 # 2)%Q -> star_by_threshold p = 2%Z.
Proof. intros. threshold_case. Qed.
Lemma threshold_3 p : (501429 # 20000 <= p)%Q -> (p < 835715 # 20000)%Q -> star_by_threshold p = 3%Z.
Proof. intros. threshold_case. Qed.
Lemma threshold_4 p : (167143 # 20000 <= p)%Q -> (p < 501429 # 20000)%Q -> star_by_threshold p = 4%Z.
Proof. intros. threshold_case. Qed.
Lemma threshold_5 p : (p < 167143 # 20000)%Q -> star_by_threshold p = 5%Z.
Proof. intros. threshold_case. Qed.

(** The scan of [min] over the five keys is the threshold reading. *)
Lemma closest_star_by_threshold p :
  closest_star_from_padding (Some p) = Ok (Some (star_by_threshold p)).
Proof.
  unfold closest_star_from_padding. cbn [map fst PADDING_TO_STAR py_min_by].
  repeat min_step;
    lazymatch goal with |- ?l = ?r => let l' := eval vm_compute in l in change (l' = r) end;
    first [ rewrite threshold_1 by lra | rewrite threshold_2 by lra | rewrite threshold_3 by lra
          | rewrite threshold_4 by lra | rewrite threshold_5 by lra | exfalso; lra ];
    first [reflexivity | exfalso; lra].
Qed.

Lemma star_by_threshold_range p : (1 <= star_by_threshold p <= 5)%Z.
Proof. unfold star_by_threshold. repeat destruct (Qle_bool _ p); lia. Qed.

Lemma star_by_threshold_antitone p p' :
  (p <= p')%Q -> (star_by_threshold p' <= star_by_threshold p)%Z.
Proof.
  intros Hp. unfold star_by_threshold.
  repeat match goal with |- context [Qle_bool ?a ?b] => destruct (Qle_bool a b) eqn:? end;
    q_facts; first [lia | exfalso; lra].
Qed.

(** ** Lemmas on the review link *)

Lemma string_app_cons c (s t : string) : (String c s ++ t)%string = String c (s ++ t)%string.
Proof. reflexivity. Qed.

Lemma string_app_nil_l (t : string) : (EmptyString ++ t)%string = t.
Proof. reflexivity. Qed.

Lemma string_app_nil_r (s : string) : (s ++ EmptyString)%string = s.
Proof. induction s as [| c s IH]; [done |]. by rewrite string_app_cons, IH. Qed.

Lemma split_once_app c (x y : string) :
  split_once c x = (x, None) ->
  split_once c (x ++ y)%string = let '(b, q) := split_once c y in ((x ++ b)%string, q).
Proof.
  induction x as [| d x IH]; intros Hx.
  - rewrite string_app_nil_l. by destruct (split_once c y).
  - rewrite string_app_cons. simpl in *. destruct (Ascii.eqb d c); [discriminate |].
    destruct (split_once c x) as [b q] eqn:E. injection Hx as -> ->.
    rewrite IH by done. by destruct (split_once c y).
Qed.

Lemma split_once_prefix c (x t : string) :
  split_once c (x ++ t)%string = ((x ++ t)%string, None) -> split_once c x = (x, None).
Proof.
  induction x as [| d x IH]; intros H; [done |].
  rewrite string_app_cons in H. simpl in *. destruct (Ascii.eqb d c); [discriminate |].
  destruct (split_once c (x ++ t)%string) as [b q] eqn:E. injection H as Hb ->.
  rewrite IH; [done |]. by rewrite Hb.
Qed.

Lemma split_once_fst c s : split_once c (split_once c s).1 = ((split_once c s).1, None).
Proof.
  induction s as [| d s IH]; simpl; [done |].
  destruct (Ascii.eqb d c) eqn:E; [done |].
  destruct (split_once c s) as [b q]. simpl in *. by rewrite E, IH.
Qed.

Lemma py_rstrip_prefix c s : exists t, s = (py_rstrip c s ++ t)%string.
Proof.
  induction s as [| d s [t IH]]; simpl; [by exists EmptyString |].
  destruct (Ascii.eqb d c && String.eqb (py_rstrip c s) EmptyString) eqn:E.
  - exists (String d s). done.
  - exists t. rewrite string_app_cons. by rewrite <- IH.
Qed.

Lemma py_rstrip_no_char c d s :
  split_once c s = (s, None) -> split_once c (py_rstrip d s) = (py_rstrip d s, None).
Proof.
  intros Hs. destruct (py_rstrip_prefix d s) as [t Ht].
  apply (split_once_prefix c _ t). by rewrite <- Ht.
Qed.

(** ** Lemmas on the padding matcher *)

Lemma digit_char_facts d :
  (d < 10)%nat -> is_num_char (digit_char d) = true /\ py_isspace (digit_char d) = false /\
            Ascii.eqb (digit_char d) "."%char = false /\ Ascii.eqb "p"%char (digit_char d) = false /\
            digit_val (digit_char d) = Z.of_nat d.
Proof.
  intros Hd. pose proof (nat_of_digit_char d Hd) as Hn.
  unfold is_num_char, is_digit, py_isspace, digit_val. rewrite Hn.
  repeat split.
  - apply orb_true_intro. left. apply andb_true_intro. split; apply Nat.leb_le; lia.
  - apply Ascii.eqb_neq. intros E. apply (f_equal Ascii.nat_of_ascii) in E. rewrite Hn in E.
    change (Ascii.nat_of_ascii "."%char) with 46%nat in E. lia.
  - apply Ascii.eqb_neq. intros E. apply (f_equal Ascii.nat_of_ascii) in E. rewrite Hn in E.
    change (Ascii.nat_of_ascii "p"%char) with 112%nat in E. lia.
  - lia.
Qed.

(** The decimal rendering of a padding: integral digits, then a dot and
    the fractional digits when there are any. *)
Definition render_padding (ip fp : list nat) : list Ascii.ascii :=
  map digit_char ip ++ match fp with [] => [] | _ => "."%char :: map digit_char fp end.

Definition decimal_value (ds : list nat) : Z :=
  fold_left (fun acc d => 10 * acc + Z.of_nat d)%Z ds 0%Z.

Lemma padding_key_cons : padding_key = "p"%char :: String.list_ascii_of_string "adding-inline-end".
Proof. reflexivity. Qed.

Lemma re_search_cons c l :
  re_search (c :: l) = match match_at (c :: l) with Some g => Some g | None => re_search l end.
Proof. reflexivity. Qed.

Lemma match_at_not_p c l : c <> "p"%char -> match_at (c :: l) = None.
Proof.
  intros Hc. unfold match_at. rewrite padding_key_cons. cbn [strip_prefix].
  by rewrite (proj2 (Ascii.eqb_neq _ _) (not_eq_sym Hc)).
Qed.

(** [re.search] skips a prefix without the letter the pattern starts
    with. *)
Lemma re_search_skip pre l : "p"%char ∉ pre -> re_search (pre ++ l) = re_search l.
Proof.
  induction pre as [| c pre IH]; intros Hp; [done |].
  apply not_elem_of_cons in Hp as [Hc Hp]. cbn [app].
  rewrite re_search_cons, match_at_not_p by done. by apply IH.
Qed.

Lemma re_search_match l g : match_at l = Some g -> re_search l = Some g.
Proof. intros H. destruct l; cbn [re_search]; by rewrite H. Qed.

Lemma take_num_app xs c l :
  Forall (fun x => is_num_char x = true) xs -> is_num_char c = false ->
  take_num (xs ++ c :: l) = (xs, c :: l).
Proof.
  intros Hxs Hc. induction Hxs as [| x xs Hx _ IH]; cbn [app take_num].
  - by rewrite Hc.
  - by rewrite Hx, IH.
Qed.

Lemma split_dot_digits ds rest :
  Forall (fun d => d < 10)%nat ds ->
  split_dot (map digit_char ds ++ rest) = let '(a, b) := split_dot rest in (map digit_char ds ++ a, b).
Proof.
  intros Hds. induction Hds as [| d ds Hd _ IH]; cbn [map app split_dot].
  - by destruct (split_dot rest).
  - destruct (digit_char_facts d Hd) as (_ & _ & -> & _). rewrite IH. by destruct (split_dot rest).
Qed.

Lemma digits_value_render ds :
  Forall (fun d => d < 10)%nat ds -> digits_value (map digit_char ds) = decimal_value ds.
Proof.
  unfold digits_value, decimal_value. generalize 0%Z.
  intros acc Hds. revert acc. induction Hds as [| d ds Hd _ IH]; intros acc; [done |].
  cbn [map fold_left]. destruct (digit_char_facts d Hd) as (_ & _ & _ & _ & ->). apply IH.
Qed.

Lemma render_num_chars ip fp :
  Forall (fun d => d < 10)%nat (ip ++ fp) ->
  Forall (fun x => is_num_char x = true) (render_padding ip fp).
Proof.
  intros H. apply Forall_app in H as [Hip Hfp]. unfold render_padding. apply Forall_app. split.
  - apply Forall_forall. intros x Hx. apply elem_of_map_inv in Hx as (d & -> & Hd).
    eapply Forall_forall in Hip; [| exact Hd]. by destruct (digit_char_facts d Hip).
  - destruct fp as [| f fp]; [constructor |]. constructor; [reflexivity |].
    apply Forall_forall. intros x Hx. apply elem_of_map_inv in Hx as (d & -> & Hd).
    eapply Forall_forall in Hfp; [| exact Hd]. by destruct (digit_char_facts d Hfp).
Qed.

Lemma match_at_padding ip fp post :
  ip <> [] -> Forall (fun d => d < 10)%nat (ip ++ fp) ->
  match_at (padding_key ++ [":"%char; " "%char] ++ render_padding ip fp ++ px ++ post)
  = Some (render_padding ip fp).
Proof.
  intros Hip Hd. unfold match_at. rewrite strip_prefix_app. cbn [app skip_ws].
  change (py_isspace ":"%char) with false. cbv iota. rewrite Ascii.eqb_refl.
  change (skip_ws (" "%char :: ?l)) with (skip_ws l).
  assert (Hws : skip_ws (render_padding ip fp ++ px ++ post) = render_padding ip fp ++ px ++ post).
  { destruct ip as [| i ip]; [done |]. pose proof Hd as Hd'. apply Forall_cons in Hd' as [Hi _].
    unfold render_padding. cbn [map app skip_ws]. by destruct (digit_char_facts i Hi) as (_ & -> & _). }
  rewrite Hws. change (px ++ post) with ("p"%char :: "x"%char :: post).
  rewrite take_num_app by (done || by apply render_num_chars).
  change ("p"%char :: "x"%char :: post) with (px ++ post). rewrite strip_prefix_app.
  destruct ip as [| i ip]; [done | reflexivity].
Qed.

Lemma existsb_dot_digits ds :
  Forall (fun d => d < 10)%nat ds -> existsb (fun c => Ascii.eqb c "."%char) (map digit_char ds) = false.
Proof.
  induction 1 as [| d ds Hd _ IH]; [done |]. cbn [map existsb].
  destruct (digit_char_facts d Hd) as (_ & _ & -> & _). exact IH.
Qed.

Lemma py_float_render ip fp :
  ip <> [] -> Forall (fun d => d < 10)%nat (ip ++ fp) ->
  exists q, py_float (render_padding ip fp) = Some q /\
    (q == inject_Z (decimal_value ip) + inject_Z (decimal_value fp) / inject_Z (10 ^ Z.of_nat (length fp)))%Q.
Proof.
  intros Hip Hd. pose proof Hd as Hd'. apply Forall_app in Hd' as [Hi Hf].
  unfold py_float, render_padding. rewrite split_dot_digits by done.
  destruct fp as [| f fp]; cbn [split_dot]; [| change (Ascii.eqb "."%char "."%char) with true];
    cbv beta iota; rewrite app_nil_r; destruct ip as [| i ip]; try done.
  - eexists. split; [reflexivity |]. rewrite digits_value_render by done.
    change (decimal_value []) with 0%Z. unfold Qdiv. rewrite Qmult_0_l. ring.
  - rewrite existsb_dot_digits by done. eexists. split; [reflexivity |].
    by rewrite !digits_value_render, length_map.
Qed.

(** ** Theorems *)

(** [closest_star_from_padding] never raises and returns the star of
    a key of [PADDING_TO_STAR] that is nearest to the padding: no key is
    strictly nearer. *)
Theorem closest_star_is_nearest (p : Q) :
  exists k s, closest_star_from_padding (Some p) = Ok (Some s) /\ (k, s) ∈ PADDING_TO_STAR /\
    Forall (fun kv => (Qabs (k - p) <= Qabs (kv.1 - p))%Q) PADDING_TO_STAR.
Proof.
  pose proof (closest_star_by_threshold p) as Hc. unfold star_by_threshold in Hc.
  repeat match type of Hc with context [Qle_bool ?a ?b] => destruct (Qle_bool a b) eqn:? end;
    q_facts; eexists _, _; (split; [exact Hc |]);
    (split; [repeat (first [apply list_elem_of_here | apply list_elem_of_further]) |]);
    repeat constructor; cbn [fst];
    match goal with |- (Qabs (?a - ?p) <= Qabs (?b - ?p))%Q => abs_cases a b p end; lra.
Qed.

(** The star read from a padding never increases with the padding
    and is between 1 and 5: more padding, fewer stars. *)
Theorem closest_star_antitone (p p' : Q) (s s' : Z) :
  (p <= p')%Q -> closest_star_from_padding (Some p) = Ok (Some s) ->
  closest_star_from_padding (Some p') = Ok (Some s') -> (1 <= s' <= s /\ s <= 5)%Z.
Proof.
  intros Hp H H'. rewrite closest_star_by_threshold in H, H'.
  injection H as <-. injection H' as <-.
  pose proof (star_by_threshold_antitone p p' Hp).
  pose proof (star_by_threshold_range p). pose proof (star_by_threshold_range p'). lia.
Qed.

(** [get_review_link] inserts "/yorumlar" at the end of the path
    (after removing its trailing slashes) and keeps the query: splitting
    the result at its first '?' gives that path and the query of the
    product link, unchanged. *)
Theorem get_review_link_split (product_link : string) :
  py_split1 question (get_review_link product_link) =
    (py_rstrip slash (hd EmptyString (py_split1 question product_link)) ++ "/yorumlar")%string
    :: tl (py_split1 question product_link).
Proof.
  unfold get_review_link, py_split1.
  pose proof (split_once_fst question product_link) as Hb.
  destruct (split_once question product_link) as [b q] eqn:E. cbn [fst] in Hb.
  pose proof (py_rstrip_no_char question slash b Hb) as Hr.
  destruct q as [q |]; cbn [hd tl];
    rewrite (split_once_app _ _ _ Hr), (split_once_app question "/yorumlar") by reflexivity;
    cbn [split_once]; [change (Ascii.eqb question question) with true | ];
    cbv iota; by rewrite ?string_app_nil_r.
Qed.

(** C40: the padding the scraper reads is the decimal written in the
    style: for a style holding "padding-inline-end: <digits>px" after a
    prefix without the letter 'p', [extract_padding_value] returns the
    value of the digits. *)
Theorem extract_padding_value_roundtrip (pre post : list Ascii.ascii) (ip fp : list nat) :
  ip <> [] -> Forall (fun d => d < 10)%nat (ip ++ fp) -> "p"%char ∉ pre ->
  exists q, extract_padding_value (Some (String.string_of_list_ascii
      (pre ++ padding_key ++ [":"%char; " "%char] ++ render_padding ip fp ++ px ++ post))) = Some q /\
    (q == inject_Z (decimal_value ip) + inject_Z (decimal_value fp) / inject_Z (10 ^ Z.of_nat (length fp)))%Q.
Proof.
  intros Hip Hd Hp. unfold extract_padding_value.
  assert (Hne : String.eqb (String.string_of_list_ascii
            (pre ++ padding_key ++ [":"%char; " "%char] ++ render_padding ip fp ++ px ++ post))
            EmptyString = false) by (rewrite padding_key_cons; by destruct pre).
  rewrite Hne, String.list_ascii_of_string_of_list_ascii, re_search_skip by done.
  rewrite (re_search_match _ _ (match_at_padding ip fp post Hip Hd)).
  by apply py_float_render.
Qed.

(** ** Witnesses *)

Example closest_star_antitone_witness :
  closest_star_from_padding (Some (10 # 1)%Q) = Ok (Some 4%Z) /\
  closest_star_from_padding (Some (60 # 1)%Q) = Ok (Some 1%Z) /\ (1 <= 1 <= 4 /\ 4 <= 5)%Z.
Proof.
  split; [reflexivity |]. split; [reflexivity |].
  apply (closest_star_antitone (10 # 1) (60 # 1) 4 1); [apply Qle_bool_iff | |]; reflexivity.
Defined.

Example extract_padding_value_roundtrip_witness :
  exists q, extract_padding_value (Some (String.string_of_list_ascii
      (String.list_ascii_of_string "width: 100%; " ++ padding_key ++ [":"%char; " "%char]
       ++ render_padding [1; 6]%nat [7; 1; 4; 3]%nat ++ px ++ String.list_ascii_of_string ";"))) = Some q /\
    (q == inject_Z (decimal_value [1; 6]%nat) + inject_Z (decimal_value [7; 1; 4; 3]%nat)
          / inject_Z (10 ^ Z.of_nat (length [7; 1; 4; 3]%nat)))%Q.
Proof. apply extract_padding_value_roundtrip; [discriminate | decide_prop | decide_prop]. Defined.

End Scraper.
