(* ===== verification/BaseMetrics.v ===== *)
(** * The review store and the aggregate feature builder

    [src/scripts/base_metrics.py], class [LeakFreeProductPreparator]: the
    reviews that survived date parsing ([DateParse]), grouped by product
    name, each group summarised by one [ProductFeatures] row
    ([create_product_features], [_calculate_review_velocity]). A date is a
    day number; a review's rating ([Puan]) is an integer or missing. *)

From S2P Require Import Prelude PyValue.

Module BaseMetrics.

(** A row of the review CSV. The product name is [None] where the cell is
    empty (pandas reads it as NaN); the rating is [None] where the scraper
    found no star element. *)
Record Review : Type := {
  rv_marka : PyVal;            (** 'Marka' *)
  rv_urun : option string;     (** 'Ürün' *)
  rv_genel_puan : PyVal;       (** 'Genel Puan' *)
  rv_puan : option Z;          (** 'Puan' *)
  rv_yorum : option string;    (** 'duzeltilmis_yorum' *)
  rv_date : Z                  (** 'parsed_date', a day number *)
}.

(** One row of the product table (base_metrics.csv). The standard
    deviation is represented by its square, the sample variance, since the
    code only stores it ([None] is NaN). *)
Record ProductFeatures : Type := {
  pf_urun : string;
  pf_marka : PyVal;
  pf_genel_puan : PyVal;
  pf_toplam : Z;               (** 'Toplam_Yorum_Sayisi' *)
  pf_std_sq : option Q;        (** 'Puan_Standart_Sapma' squared *)
  pf_min : option Z;
  pf_max : option Z;
  pf_oran5 : Q;
  pf_oran4 : Q;
  pf_oran3 : Q;
  pf_oran2 : Q;
  pf_oran1 : Q;
  pf_negatif : Q;
  pf_pozitif : Q;
  pf_hiz : Q                   (** 'Yorum_Hizi' *)
}.

(** pandas' [df['Ürün'] == name]: a missing name equals nothing. *)
Definition name_eq (a b : option string) : bool :=
  match a, b with
  | Some x, Some y => bool_decide (x = y)
  | _, _ => false
  end.

(** [self.df[self.df['Ürün'] == product_name]] *)
Definition product_rows (df : list Review) (name : option string) : list Review :=
  filter (fun r => name_eq (rv_urun r) name = true) df.

(** The ratings of a group that are present (pandas skips NaN). *)
Definition ratings (g : list Review) : list Z := omap rv_puan g.

(** [(product_df['Puan'] <op> k).sum()] *)
Definition count_puan (P : Z -> bool) (g : list Review) : Z :=
  Z.of_nat (length (filter (fun z => P z = true) (ratings g))).

(** [x / len(product_df)] *)
Definition ratio (n : Z) (g : list Review) : Q :=
  (inject_Z n / inject_Z (Z.of_nat (length g)))%Q.

(** [Series.std()]: the sample variance (ddof 1) of the present ratings,
    NaN when fewer than two are present. *)
Definition sample_variance (xs : list Z) : option Q :=
  let n := Z.of_nat (length xs) in
  if (n <? 2)%Z then None
  else
    let mean := (inject_Z (foldr Z.add 0%Z xs) / inject_Z n)%Q in
    Some (foldr (fun x acc => (inject_Z x - mean) * (inject_Z x - mean) + acc) 0 xs
          / inject_Z (n - 1))%Q.

(** [Series.min()], [Series.max()] over the present ratings. *)
Definition list_min (xs : list Z) : option Z :=
  match xs with [] => None | x :: xs' => Some (foldr Z.min x xs') end.
Definition list_max (xs : list Z) : option Z :=
  match xs with [] => None | x :: xs' => Some (foldr Z.max x xs') end.

(** The dates of a group: the group is never empty where this is used. *)
Definition date_min (g : list Review) : Z :=
  match g with [] => 0%Z | r :: g' => foldr Z.min (rv_date r) (map rv_date g') end.
Definition date_max (g : list Review) : Z :=
  match g with [] => 0%Z | r :: g' => foldr Z.max (rv_date r) (map rv_date g') end.

(** [_calculate_review_velocity] (lines 95-100) *)
Definition calculate_review_velocity (g : list Review) : Q :=
  let date_range := (date_max g - date_min g)%Z in
  if (date_range =? 0)%Z then inject_Z (Z.of_nat (length g))
  else (inject_Z (Z.of_nat (length g)) / inject_Z date_range)%Q.

(** The [stats] dict of one product (lines 61-88); [.iloc[0]] on the empty
    selection of a missing name raises [IndexError]. *)
Definition product_stats (df : list Review) (name : option string)
    : pyres ProductFeatures :=
  let g := product_rows df name in
  match name, g with
  | Some s, r :: _ =>
      Ok {| pf_urun := s;
            pf_marka := rv_marka r;
            pf_genel_puan := rv_genel_puan r;
            pf_toplam := Z.of_nat (length g);
            pf_std_sq := sample_variance (ratings g);
            pf_min := list_min (ratings g);
            pf_max := list_max (ratings g);
            pf_oran5 := ratio (count_puan (fun z => z =? 5)%Z g) g;
            pf_oran4 := ratio (count_puan (fun z => z =? 4)%Z g) g;
            pf_oran3 := ratio (count_puan (fun z => z =? 3)%Z g) g;
            pf_oran2 := ratio (count_puan (fun z => z =? 2)%Z g) g;
            pf_oran1 := ratio (count_puan (fun z => z =? 1)%Z g) g;
            pf_negatif := ratio (count_puan (fun z => z <=? 2)%Z g) g;
            pf_pozitif := ratio (count_puan (fun z => 4 <=? z)%Z g) g;
            pf_hiz := calculate_review_velocity g |}
  | _, _ => Raise IndexError
  end.

(** [create_product_features] (lines 51-93): one row per distinct name, in
    order of first appearance. *)
Definition create_product_features (df : list Review) : pyres (list ProductFeatures) :=
  py_mapM (product_stats df) (py_unique (map rv_urun df)).

(** ** Lemmas *)

(** [stats_inv H] opens [H : product_stats df k = Ok f] into the record
    built from the product's name and non-empty group. *)
Ltac stats_inv H :=
  unfold product_stats in H; cbv zeta in H;
  match type of H with
  | (match ?k with _ => _ end) = _ => destruct k as [?s |]; [| discriminate H]
  end;
  match type of H with
  | (match ?g with _ => _ end) = _ => destruct g as [| ?r ?l] eqn:?Hg; [discriminate H |]
  end;
  injection H as <-;
  cbn [pf_urun pf_toplam pf_std_sq pf_min pf_max pf_oran5 pf_oran4 pf_oran3 pf_oran2
       pf_oran1 pf_negatif pf_pozitif pf_hiz];
  try match goal with Hg : product_rows _ _ = _ |- _ => rewrite Hg in * end.

Lemma product_rows_some df s :
  product_rows df (Some s) = filter (fun r => rv_urun r = Some s) df.
Proof.
  apply list_filter_iff. intros r. unfold name_eq.
  destruct (rv_urun r); [rewrite bool_decide_eq_true |]; split; congruence.
Qed.

Lemma product_stats_raise df k e : product_stats df k = Raise e -> e = IndexError.
Proof. unfold product_stats. repeat case_match; congruence. Qed.

Lemma product_stats_name df k f : product_stats df k = Ok f -> k = Some (pf_urun f).
Proof. intros H. by stats_inv H. Qed.

Lemma product_stats_toplam df k f :
  product_stats df k = Ok f -> pf_toplam f = Z.of_nat (length (product_rows df k)).
Proof. intros H. by stats_inv H. Qed.

(** A name that occurs has its statistics. *)
Lemma product_stats_some df s :
  Some s ∈ map rv_urun df -> exists f, product_stats df (Some s) = Ok f.
Proof.
  intros Hs. apply elem_of_map_inv in Hs as (r & Hr & Hin).
  assert (Hg : r ∈ product_rows df (Some s)).
  { rewrite product_rows_some. apply list_elem_of_filter. auto. }
  unfold product_stats. destruct (product_rows df (Some s)); [by apply not_elem_of_nil in Hg | eauto].
Qed.

Ltac count_induction :=
  unfold count_puan; match goal with |- context [ratings ?g] => generalize (ratings g) end;
  let z := fresh "z" in let IH := fresh "IH" in
  induction 1 as [| z ? ? ? IH]; [reflexivity |];
  rewrite !filter_cons; repeat case_decide; cbn [length]; lia.

Lemma count_stars g : Forall (fun z => 1 <= z <= 5)%Z (ratings g) ->
  (count_puan (fun z => z =? 5) g + count_puan (fun z => z =? 4) g
   + count_puan (fun z => z =? 3) g + count_puan (fun z => z =? 2) g
   + count_puan (fun z => z =? 1) g = Z.of_nat (length (ratings g)))%Z.
Proof. count_induction. Qed.

Lemma count_negative g : Forall (fun z => 1 <= z <= 5)%Z (ratings g) ->
  count_puan (fun z => z <=? 2)%Z g
  = (count_puan (fun z => z =? 1) g + count_puan (fun z => z =? 2) g)%Z.
Proof. count_induction. Qed.

Lemma count_positive g : Forall (fun z => 1 <= z <= 5)%Z (ratings g) ->
  count_puan (fun z => 4 <=? z)%Z g
  = (count_puan (fun z => z =? 4) g + count_puan (fun z => z =? 5) g)%Z.
Proof. count_induction. Qed.

Lemma ratio_add a b g : (ratio a g + ratio b g == ratio (a + b) g)%Q.
Proof. unfold ratio, Qdiv. rewrite inject_Z_plus. ring. Qed.

Lemma foldr_min_le a l : (foldr Z.min a l <= a)%Z.
Proof. induction l; simpl; lia. Qed.

Lemma foldr_max_ge a l : (a <= foldr Z.max a l)%Z.
Proof. induction l; simpl; lia. Qed.

Lemma inject_Z_pos (z : Z) : (0 < z)%Z -> (0 < inject_Z z)%Q.
Proof. unfold Qlt. simpl. lia. Qed.

Lemma inject_Z_le (a b : Z) : (a <= b)%Z -> (inject_Z a <= inject_Z b)%Q.
Proof. unfold Qle. simpl. lia. Qed.

Lemma foldr_min_lower lo a l :
  (lo <= a)%Z -> Forall (fun x => lo <= x)%Z l -> (lo <= foldr Z.min a l)%Z.
Proof. intros Ha Hl. induction Hl; simpl; lia. Qed.

Lemma foldr_max_upper hi a l :
  (a <= hi)%Z -> Forall (fun x => x <= hi)%Z l -> (foldr Z.max a l <= hi)%Z.
Proof. intros Ha Hl. induction Hl; simpl; lia. Qed.

Lemma unique_names_nodup (fs : list ProductFeatures) (U : list (option string)) :
  map (fun f => Some (pf_urun f)) fs = py_unique U -> NoDup (map pf_urun fs).
Proof.
  intros Hmap. pose proof (NoDup_py_unique U) as Hnd.
  rewrite <- Hmap, <- (map_map pf_urun Some) in Hnd. by apply (NoDup_fmap_1 Some).
Qed.

(** The product names of the table, when every review names its product. *)
Lemma create_product_features_names (df : list Review) :
  Forall (fun r => is_Some (rv_urun r)) df ->
  exists fs, create_product_features df = Ok fs /\
    map (fun f => Some (pf_urun f)) fs = py_unique (map rv_urun df).
Proof.
  intros Hn. unfold create_product_features.
  destruct (py_mapM_ok (product_stats df) (py_unique (map rv_urun df))) as [fs Hfs].
  { intros k Hk. apply elem_of_py_unique, elem_of_map_inv in Hk as (r & -> & Hin).
    eapply Forall_forall in Hn as [s Hs]; [| exact Hin]. rewrite Hs.
    apply product_stats_some. rewrite <- Hs. by apply elem_of_map_2. }
  exists fs. split; [done |].
  apply py_mapM_Forall2 in Hfs. induction Hfs as [| k f U fs' Hk _ IH]; [done |].
  simpl. by rewrite IH, (product_stats_name _ _ _ Hk).
Qed.

(** ** Theorems *)

(** C15: on reviews that all name their product, [create_product_features]
    succeeds and returns one row per distinct product name, in order of
    first appearance; the names of the rows are distinct. *)
Theorem create_product_features_one_row_per_name (df : list Review) :
  Forall (fun r => is_Some (rv_urun r)) df ->
  exists fs, create_product_features df = Ok fs /\
    map (fun f => Some (pf_urun f)) fs = py_unique (map rv_urun df) /\ NoDup (map pf_urun fs).
Proof.
  intros Hn. destruct (create_product_features_names df Hn) as (fs & Hfs & Hmap).
  exists fs. split; [done |]. split; [done |]. by eapply unique_names_nodup.
Qed.

(** C32: a single review whose product name is empty (NaN after the CSV
    read) makes [create_product_features] raise [IndexError]: its group is
    empty and [.iloc[0]] fails, so no product table is written at all. *)
Theorem create_product_features_nameless_review (df : list Review) (r : Review) :
  r ∈ df -> rv_urun r = None -> create_product_features df = Raise IndexError.
Proof.
  intros Hr Hn. unfold create_product_features.
  destruct (py_mapM_raise (product_stats df) (py_unique (map rv_urun df)) None IndexError)
    as [e He]; [| reflexivity |].
  { apply elem_of_py_unique. rewrite <- Hn. by apply elem_of_map_2. }
  rewrite He. apply py_mapM_raise_inv in He as (k & _ & Hk).
  by rewrite (product_stats_raise _ _ _ Hk).
Qed.

(** C16: every review is counted in exactly one product: the review
    counts 'Toplam_Yorum_Sayisi' of the product table add up to the number
    of reviews. *)
Theorem toplam_counts_every_review (df : list Review) (fs : list ProductFeatures) :
  create_product_features df = Ok fs ->
  foldr Z.add 0%Z (map pf_toplam fs) = Z.of_nat (length df).
Proof.
  intros Hfs. unfold create_product_features in Hfs.
  assert (Hn : Forall (fun r => rv_urun r ∈ py_unique (map rv_urun df)) df).
  { apply Forall_forall. intros r Hr. apply elem_of_py_unique, elem_of_map_2, Hr. }
  rewrite (Permutation_length (partition_by_key rv_urun _ df (NoDup_py_unique _) Hn)).
  rewrite <- length_concat_Z, map_map. f_equal. clear Hn.
  apply py_mapM_Forall2 in Hfs. induction Hfs as [| k f U fs' Hk _ IH]; [done |].
  simpl. rewrite IH, (product_stats_toplam _ _ _ Hk), (product_stats_name _ _ _ Hk).
  by rewrite product_rows_some.
Qed.

(** C38: with ratings between 1 and 5 (what the scraper produces), the five
    rating shares add up to the share of reviews that have a rating, which
    is below 1 as soon as one review has none (its [NaN] rating counts in
    the denominator); the negative share is the share of 1 and 2 stars,
    the positive share that of 4 and 5 stars. *)
Theorem rating_shares (df : list Review) (k : option string) (f : ProductFeatures) :
  product_stats df k = Ok f ->
  Forall (fun z => 1 <= z <= 5)%Z (ratings (product_rows df k)) ->
  (pf_oran5 f + pf_oran4 f + pf_oran3 f + pf_oran2 f + pf_oran1 f
     == inject_Z (Z.of_nat (length (ratings (product_rows df k)))) / inject_Z (pf_toplam f))%Q /\
  (pf_negatif f == pf_oran1 f + pf_oran2 f)%Q /\ (pf_pozitif f == pf_oran4 f + pf_oran5 f)%Q.
Proof.
  intros H Hr. stats_inv H. split; [| split].
  - rewrite !ratio_add, <- (count_stars _ Hr). reflexivity.
  - rewrite (count_negative _ Hr). symmetry. apply ratio_add.
  - rewrite (count_positive _ Hr). symmetry. apply ratio_add.
Qed.

(** The review velocity 'Yorum_Hizi' never divides by zero: it is
    positive and at most the review count (a one-day product gets its
    review count). *)
Theorem review_velocity_bounds (df : list Review) (k : option string) (f : ProductFeatures) :
  product_stats df k = Ok f -> (0 < pf_hiz f)%Q /\ (pf_hiz f <= inject_Z (pf_toplam f))%Q.
Proof.
  intros H. stats_inv H. unfold calculate_review_velocity, date_max, date_min.
  pose proof (foldr_min_le (rv_date r) (map rv_date l)).
  pose proof (foldr_max_ge (rv_date r) (map rv_date l)).
  set (d := (foldr Z.max (rv_date r) (map rv_date l) - foldr Z.min (rv_date r) (map rv_date l))%Z).
  destruct (d =? 0)%Z eqn:Hd.
  - split; [apply inject_Z_pos; simpl; lia | apply Qle_refl].
  - apply Z.eqb_neq in Hd. assert (Hd1 : (1 <= d)%Z) by (unfold d in *; lia).
    assert (Hdq : (0 < inject_Z d)%Q) by (apply inject_Z_pos; lia).
    split.
    + apply Qlt_shift_div_l; [done |]. rewrite Qmult_0_l. apply inject_Z_pos. simpl. lia.
    + apply Qle_shift_div_r; [done |]. rewrite <- inject_Z_mult. apply inject_Z_le. simpl. nia.
Qed.

(** With ratings between 1 and 5, 'Min_Puan' and 'Max_Puan' are both
    present exactly when the product has a rating, and then
    1 <= min <= max <= 5. *)
Theorem rating_extremes (df : list Review) (k : option string) (f : ProductFeatures) :
  product_stats df k = Ok f ->
  Forall (fun z => 1 <= z <= 5)%Z (ratings (product_rows df k)) ->
  match pf_min f, pf_max f with
  | Some a, Some b => (1 <= a <= b /\ b <= 5)%Z
  | None, None => ratings (product_rows df k) = []
  | _, _ => False
  end.
Proof.
  intros H Hr. stats_inv H.
  change (match rv_puan r with Some y => y :: ratings l | None => ratings l end)
    with (ratings (r :: l)).
  destruct (ratings (r :: l)) as [| z zs]; simpl; [done |].
  apply Forall_cons in Hr as [Hz Hzs].
  pose proof (foldr_min_le z zs). pose proof (foldr_max_ge z zs).
  assert (Hlo : (1 <= foldr Z.min z zs)%Z).
  { apply foldr_min_lower; [lia |]. eapply Forall_impl; [exact Hzs | simpl; lia]. }
  assert (Hhi : (foldr Z.max z zs <= 5)%Z).
  { apply foldr_max_upper; [lia |]. eapply Forall_impl; [exact Hzs | simpl; lia]. }
  lia.
Qed.

(** ** A concrete review table for the witnesses *)

Definition bm_review (p : option string) (puan : option Z) (day : Z) : Review :=
  {| rv_marka := PStr "marka"; rv_urun := p; rv_genel_puan := PNum (43 # 10);
     rv_puan := puan; rv_yorum := Some "iyi"; rv_date := day |}.

(** Three reviews of "kazak" (one without a rating) over three days, one of
    "bluz". *)
Definition bm_reviews : list Review :=
  [bm_review (Some "kazak") (Some 5%Z) 10; bm_review (Some "bluz") (Some 2%Z) 3;
   bm_review (Some "kazak") None 12; bm_review (Some "kazak") (Some 1%Z) 11].

Example create_product_features_one_row_per_name_witness :
  exists fs, create_product_features bm_reviews = Ok fs /\
    map (fun f => Some (pf_urun f)) fs = py_unique (map rv_urun bm_reviews) /\
    NoDup (map pf_urun fs).
Proof. apply create_product_features_one_row_per_name. decide_prop. Defined.

Example create_product_features_nameless_review_witness :
  create_product_features (bm_review None (Some 3%Z) 1 :: bm_reviews) = Raise IndexError.
Proof.
  apply (create_product_features_nameless_review _ (bm_review None (Some 3%Z) 1));
    [apply list_elem_of_here | reflexivity].
Defined.

Example toplam_counts_every_review_witness :
  exists fs, create_product_features bm_reviews = Ok fs /\
    foldr Z.add 0%Z (map pf_toplam fs) = Z.of_nat (length bm_reviews).
Proof.
  eexists. split; [reflexivity |]. apply toplam_counts_every_review. reflexivity.
Defined.

Example rating_shares_witness :
  exists f, product_stats bm_reviews (Some "kazak") = Ok f /\
  (pf_oran5 f + pf_oran4 f + pf_oran3 f + pf_oran2 f + pf_oran1 f
     == inject_Z (Z.of_nat (length (ratings (product_rows bm_reviews (Some "kazak")))))
        / inject_Z (pf_toplam f))%Q /\
  (pf_negatif f == pf_oran1 f + pf_oran2 f)%Q /\ (pf_pozitif f == pf_oran4 f + pf_oran5 f)%Q.
Proof.
  eexists. split; [reflexivity |]. apply (rating_shares bm_reviews (Some "kazak")); [reflexivity | decide_prop].
Defined.

Example review_velocity_bounds_witness :
  exists f, product_stats bm_reviews (Some "kazak") = Ok f /\
    (0 < pf_hiz f)%Q /\ (pf_hiz f <= inject_Z (pf_toplam f))%Q.
Proof.
  eexists. split; [reflexivity |]. apply (review_velocity_bounds bm_reviews (Some "kazak")). reflexivity.
Defined.

Example rating_extremes_witness :
  exists f, product_stats bm_reviews (Some "kazak") = Ok f /\
  match pf_min f, pf_max f with
  | Some a, Some b => (1 <= a <= b /\ b <= 5)%Z
  | None, None => ratings (product_rows bm_reviews (Some "kazak")) = []
  | _, _ => False
  end.
Proof.
  eexists. split; [reflexivity |]. apply (rating_extremes bm_reviews (Some "kazak")); [reflexivity | decide_prop].
Defined.

End BaseMetrics.
