(* ===== verification/DateParse.v ===== *)
(** * Date parsing of the review store

    [src/scripts/base_metrics.py], [parse_turkish_dates] (lines 24-49),
    and its copy [LLMFeatureExtractor._parse_dates] in
    [src/scripts/llm_extraction.py] (lines 38-59): every 'Tarih' cell is
    rewritten by replacing each Turkish month name by the English one
    ([str.replace], in the order of [month_mapping]), then parsed by
    [pd.to_datetime(..., format='%d %B %Y')]; a cell that is NaN or does
    not parse gives [None], and [dropna] removes its review.

    [str.replace] is a scan with fuel (the length of the string, which is
    enough: [replace_fuel_enough]). [pd.to_datetime] is modelled by the
    regular expression pandas builds for the format (from Python's
    [_strptime.TimeRE]: [%d] is [3[0-1]|[1-2]\d|0[1-9]|[1-9]| [1-9], a
    space is [\s+], [%B] the English month names, longest first, matched
    ignoring case, [%Y] four digits, and the whole string must match),
    followed by the [datetime] check of the day against the month and the
    bounds of a nanosecond [Timestamp] (1677-09-22 to 2262-04-11 for a
    date at midnight). A parsed date is its day number counted from
    1970-01-01, the number [.days] of a difference subtracts. Bytes are
    ASCII for the digit and case classes. *)

From S2P Require Import Prelude PyValue BaseMetrics.
From Stdlib Require Import Ascii.
Import BaseMetrics.

Module DateParse.

Local Open Scope Z_scope.

Definition bytes (s : string) : list Ascii.ascii := String.list_ascii_of_string s.

(** ** [str.replace] *)

(** The scan of [s.replace(old, new)] for a non-empty [old]: at each
    position, [new] in place of an occurrence, else the byte itself. *)
Fixpoint replace_fuel (old new : list Ascii.ascii) (fuel : nat) (s : list Ascii.ascii)
    : list Ascii.ascii :=
  match fuel with
  | O => s
  | S fuel' =>
      match s with
      | [] => []
      | c :: s' =>
          match strip_prefix old s with
          | Some rest => new ++ replace_fuel old new fuel' rest
          | None => c :: replace_fuel old new fuel' s'
          end
      end
  end.

(** [s.replace(old, new)]: an empty [old] inserts [new] around every
    byte. *)
Definition replace_list (old new l : list Ascii.ascii) : list Ascii.ascii :=
  match old with
  | [] => new ++ concat (map (fun c => c :: new) l)
  | _ => replace_fuel old new (length l) l
  end.

Definition py_replace (s old new : string) : string :=
  String.string_of_list_ascii (replace_list (bytes old) (bytes new) (bytes s)).

(** ** [convert_date] *)

(** [month_mapping], in insertion order (lines 28-33). *)
Definition month_mapping : list (string * string) :=
  [("Ocak", "January"); ("Şubat", "February"); ("Mart", "March");
   ("Nisan", "April"); ("Mayıs", "May"); ("Haziran", "June");
   ("Temmuz", "July"); ("Ağustos", "August"); ("Eylül", "September");
   ("Ekim", "October"); ("Kasım", "November"); ("Aralık", "December")].

(** The loop [for tr, en in month_mapping.items(): date_str =
    date_str.replace(tr, en)]. *)
Definition translate_months (date_str : string) : string :=
  fold_left (fun s '(tr, en) => py_replace s tr en) month_mapping date_str.

Definition is_digit19 (c : Ascii.ascii) : bool := is_digit c && negb (Ascii.eqb c "0"%char).

(** The alternatives of [%d], in the order the regular expression tries
    them: the value and the rest of the input. *)
Definition day_candidates (l : list Ascii.ascii) : list (Z * list Ascii.ascii) :=
  match l with
  | c1 :: c2 :: r =>
      (if Ascii.eqb c1 "3"%char && (Ascii.eqb c2 "0"%char || Ascii.eqb c2 "1"%char)
       then [(30 + digit_val c2, r)%Z] else [])
      ++ (if (Ascii.eqb c1 "1"%char || Ascii.eqb c1 "2"%char) && is_digit c2
          then [(10 * digit_val c1 + digit_val c2, r)%Z] else [])
      ++ (if Ascii.eqb c1 "0"%char && is_digit19 c2 then [(digit_val c2, r)] else [])
  | _ => []
  end
  ++ match l with
     | c :: r => if is_digit19 c then [(digit_val c, r)] else []
     | [] => []
     end
  ++ match l with
     | c1 :: c2 :: r => if Ascii.eqb c1 " "%char && is_digit19 c2 then [(digit_val c2, r)] else []
     | _ => []
     end.

(** [\s+] *)
Definition skip_ws1 (l : list Ascii.ascii) : option (list Ascii.ascii) :=
  match l with
  | c :: r => if py_isspace c then Some (skip_ws r) else None
  | [] => None
  end.

Definition ascii_lower (c : Ascii.ascii) : Ascii.ascii :=
  let n := Ascii.nat_of_ascii c in
  if (65 <=? n)%nat && (n <=? 90)%nat then Ascii.ascii_of_nat (n + 32)%nat else c.

(** A prefix ignoring case. *)
Fixpoint strip_prefix_ci (p l : list Ascii.ascii) : option (list Ascii.ascii) :=
  match p, l with
  | [], _ => Some l
  | c :: p', d :: l' =>
      if Ascii.eqb (ascii_lower c) (ascii_lower d) then strip_prefix_ci p' l' else None
  | _ :: _, [] => None
  end.

(** The alternatives of [%B]: the English month names sorted by length,
    longest first (a stable sort of the calendar order), with their
    numbers. *)
Definition months_en : list (string * Z) :=
  [("September", 9); ("February", 2); ("November", 11); ("December", 12);
   ("January", 1); ("October", 10); ("August", 8); ("April", 4); ("March", 3);
   ("June", 6); ("July", 7); ("May", 5)]%Z.

Fixpoint match_month_in (ms : list (string * Z)) (l : list Ascii.ascii)
    : option (Z * list Ascii.ascii) :=
  match ms with
  | [] => None
  | (name, m) :: ms' =>
      match strip_prefix_ci (bytes name) l with
      | Some r => Some (m, r)
      | None => match_month_in ms' l
      end
  end.

(** [%Y] at the end of the input: exactly four digits. *)
Definition match_year (l : list Ascii.ascii) : option Z :=
  match l with
  | [a; b; c; d] =>
      if is_digit a && is_digit b && is_digit c && is_digit d
      then Some (1000 * digit_val a + 100 * digit_val b + 10 * digit_val c + digit_val d)%Z
      else None
  | _ => None
  end.

(** What follows the day: [\s+%B\s+%Y]. *)
Definition parse_month_year (r : list Ascii.ascii) : option (Z * Z) :=
  match skip_ws1 r with
  | None => None
  | Some r1 =>
      match match_month_in months_en r1 with
      | None => None
      | Some (m, r2) =>
          match skip_ws1 r2 with
          | None => None
          | Some r3 => option_map (fun y => (m, y)) (match_year r3)
          end
      end
  end.

(** The first alternative of [%d] after which the rest matches. *)
Fixpoint first_match (cs : list (Z * list Ascii.ascii)) : option (Z * Z * Z) :=
  match cs with
  | [] => None
  | (d, r) :: cs' =>
      match parse_month_year r with
      | Some (m, y) => Some (y, m, d)
      | None => first_match cs'
      end
  end.

Definition strptime_dBY (l : list Ascii.ascii) : option (Z * Z * Z) :=
  first_match (day_candidates l).

(** ** The calendar, as [datetime] computes it *)

Definition is_leap (y : Z) : bool :=
  ((y mod 4 =? 0) && negb (y mod 100 =? 0)) || (y mod 400 =? 0).

Definition days_in_month (y m : Z) : Z :=
  match m with
  | 1 | 3 | 5 | 7 | 8 | 10 | 12 => 31
  | 4 | 6 | 9 | 11 => 30
  | 2 => if is_leap y then 29 else 28
  | _ => 0
  end%Z.

(** [_days_before_month] *)
Definition days_before_month (y m : Z) : Z :=
  (match m with
   | 1 => 0 | 2 => 31 | 3 => 59 | 4 => 90 | 5 => 120 | 6 => 151 | 7 => 181
   | 8 => 212 | 9 => 243 | 10 => 273 | 11 => 304 | _ => 334
   end + if (2 <? m) && is_leap y then 1 else 0)%Z.

(** [_days_before_year] *)
Definition days_before_year (y : Z) : Z :=
  let y' := (y - 1)%Z in (365 * y' + y' / 4 - y' / 100 + y' / 400)%Z.

(** The day number of a date: [date.toordinal()] minus that of
    1970-01-01. *)
Definition day_number (y m d : Z) : Z :=
  (days_before_year y + days_before_month y m + d - 719163)%Z.

(** The check of the [datetime] constructor. *)
Definition valid_date (y m d : Z) : bool :=
  (1 <=? y)%Z && (y <=? 9999)%Z && (1 <=? m)%Z && (m <=? 12)%Z &&
  (1 <=? d)%Z && (d <=? days_in_month y m)%Z.

(** The number of days of a year. *)
Definition year_length (y : Z) : Z := if is_leap y then 366 else 365.

(** The dates a nanosecond [Timestamp] holds at midnight. *)
Definition ts_min : Z := day_number 1677 9 22.
Definition ts_max : Z := day_number 2262 4 11.

(** [pd.to_datetime(s, format='%d %B %Y')]: [None] where it raises. *)
Definition to_datetime_dBY (s : string) : option Z :=
  match strptime_dBY (bytes s) with
  | Some (y, m, d) =>
      if valid_date y m d && (ts_min <=? day_number y m d)%Z && (day_number y m d <=? ts_max)%Z
      then Some (day_number y m d) else None
  | None => None
  end.

(** [convert_date] (lines 35-43): [None] for NaN, and for a date that
    does not parse (the [except] catches every error). *)
Definition convert_date (date_str : option string) : option Z :=
  match date_str with
  | None => None
  | Some s => to_datetime_dBY (translate_months s)
  end.

(** ** The review table before parsing *)

(** A row of the review CSV as read: 'Tarih' is a string or NaN. *)
Record RawReview : Type := {
  raw_marka : PyVal;
  raw_urun : option string;
  raw_genel_puan : PyVal;
  raw_puan : option Z;
  raw_yorum : option string;
  raw_tarih : option string
}.

Definition with_date (r : RawReview) (d : Z) : Review :=
  {| rv_marka := raw_marka r; rv_urun := raw_urun r; rv_genel_puan := raw_genel_puan r;
     rv_puan := raw_puan r; rv_yorum := raw_yorum r; rv_date := d |}.

(** [df['parsed_date'] = df['Tarih'].apply(convert_date)] then
    [df.dropna(subset=['parsed_date'])] (lines 45-46). *)
Definition parse_turkish_dates (df : list RawReview) : list Review :=
  omap (fun r => with_date r <$> convert_date (raw_tarih r)) df.

(** [LLMFeatureExtractor._parse_dates] (lines 38-59) is the same code. *)
Definition parse_dates (df_reviews : list RawReview) : list Review :=
  parse_turkish_dates df_reviews.

(** ** Dates as the review pages render them *)

(** The replacement loop on bytes. *)
Definition translate_list (l : list Ascii.ascii) : list Ascii.ascii :=
  fold_left (fun l '(tr, en) => replace_list (bytes tr) (bytes en) l) month_mapping l.

(** A day of the month without a leading zero, a year in four digits. *)
Definition day_digits (d : Z) : list Ascii.ascii :=
  if d <? 10 then [digit_char (Z.to_nat d)]
  else [digit_char (Z.to_nat (d / 10)); digit_char (Z.to_nat (d mod 10))].

Definition year_digits (y : Z) : list Ascii.ascii :=
  [digit_char (Z.to_nat (y / 1000)); digit_char (Z.to_nat (y / 100 mod 10));
   digit_char (Z.to_nat (y / 10 mod 10)); digit_char (Z.to_nat (y mod 10))].

Definition tr_month_name (m : Z) : string := nth (Z.to_nat (m - 1)) (map fst month_mapping) "".
Definition en_month_name (m : Z) : string := nth (Z.to_nat (m - 1)) (map snd month_mapping) "".

(** The date of a review as the page shows it, e.g. [5 Mayıs 2024]. *)
Definition render_tr_date (d m y : Z) : string :=
  String.string_of_list_ascii
    (day_digits d ++ " "%char :: bytes (tr_month_name m) ++ " "%char :: year_digits y).

(** ** Lemmas on [str.replace] *)

Lemma replace_fuel_le old new f1 f2 l :
  old <> [] -> (length l <= f1)%nat -> (length l <= f2)%nat ->
  replace_fuel old new f1 l = replace_fuel old new f2 l.
Proof.
  intros Hold. revert f2 l. induction f1 as [| f1 IH]; intros f2 l H1 H2.
  - destruct l; [by destruct f2 | simpl in H1; lia].
  - destruct f2 as [| f2]; [destruct l; [done | simpl in H2; lia] |].
    destruct l as [| c l]; [done |]. cbn [replace_fuel].
    destruct (strip_prefix old (c :: l)) as [rest |] eqn:E.
    + apply strip_prefix_Some in E. destruct old as [| o old]; [done |].
      simplify_eq/=. rewrite length_app in H1, H2. f_equal. apply IH; lia.
    + simpl in H1, H2. f_equal. apply IH; lia.
Qed.

Lemma replace_list_nonempty old new l :
  old <> [] -> replace_list old new l = replace_fuel old new (length l) l.
Proof. by destruct old. Qed.

Lemma replace_list_match old new l rest :
  old <> [] -> strip_prefix old l = Some rest ->
  replace_list old new l = new ++ replace_list old new rest.
Proof.
  intros Hold E. rewrite !replace_list_nonempty by done.
  pose proof (strip_prefix_Some _ _ _ E) as ->.
  destruct old as [| o old]; [done |]. cbn [app length replace_fuel].
  change (o :: old ++ rest) with ((o :: old) ++ rest). rewrite strip_prefix_app. f_equal.
  apply replace_fuel_le; [done | rewrite length_app; lia | done].
Qed.

Lemma replace_list_skip old new c l :
  old <> [] -> strip_prefix old (c :: l) = None ->
  replace_list old new (c :: l) = c :: replace_list old new l.
Proof. intros Hold E. rewrite !replace_list_nonempty by done. cbn [length replace_fuel]. by rewrite E. Qed.

Lemma strip_prefix_app_r old a b :
  Forall (fun c => c ∉ old) b ->
  strip_prefix old (a ++ b) = (fun r => r ++ b) <$> strip_prefix old a.
Proof.
  intros Hb. revert a. induction old as [| o old IH]; intros a; [done |].
  destruct a as [| x a]; cbn [app strip_prefix].
  - destruct b as [| y b]; [done |]. apply Forall_cons in Hb as [Hy _].
    destruct (Ascii.eqb_spec o y); [subst; set_solver | done].
  - destruct (Ascii.eqb o x); [| done]. apply IH.
    eapply Forall_impl; [exact Hb |]. set_solver.
Qed.

Lemma strip_prefix_not_head old c l :
  old <> [] -> c ∉ old -> strip_prefix old (c :: l) = None.
Proof.
  destruct old as [| o old]; [done |]. intros _ Hc. cbn.
  destruct (Ascii.eqb_spec o c); [subst; set_solver | done].
Qed.

Lemma replace_list_id old new b :
  old <> [] -> Forall (fun c => c ∉ old) b -> replace_list old new b = b.
Proof.
  intros Hold Hb. induction Hb as [| c b Hc Hb IH]; [by rewrite replace_list_nonempty |].
  rewrite replace_list_skip, IH; [done | done | by apply strip_prefix_not_head].
Qed.

Lemma replace_list_app_l old new a b :
  old <> [] -> Forall (fun c => c ∉ old) a ->
  replace_list old new (a ++ b) = a ++ replace_list old new b.
Proof.
  intros Hold Ha. induction Ha as [| c a Hc Ha IH]; [done |]. cbn [app].
  rewrite replace_list_skip, IH; [done | done | by apply strip_prefix_not_head].
Qed.

Lemma replace_list_app_r old new a b :
  old <> [] -> Forall (fun c => c ∉ old) b ->
  replace_list old new (a ++ b) = replace_list old new a ++ b.
Proof.
  intros Hold Hb. induction a as [a IH] using (induction_ltof1 _ (@length _)).
  unfold ltof in IH. destruct a as [| c a]; [by rewrite replace_list_id, replace_list_nonempty |].
  pose proof (strip_prefix_app_r old (c :: a) b Hb) as E.
  destruct (strip_prefix old (c :: a)) as [rest |] eqn:Ea; simpl in E.
  - rewrite (replace_list_match old new ((c :: a) ++ b) (rest ++ b)), IH,
      (replace_list_match old new (c :: a) rest), app_assoc; try done.
    apply strip_prefix_Some in Ea. destruct old; [done |]. rewrite Ea, length_app. simpl; lia.
  - cbn [app]. rewrite !replace_list_skip, IH; try done. simpl; lia.
Qed.

(** ** Lemmas on the month translation *)

Lemma bytes_of_list l : bytes (String.string_of_list_ascii l) = l.
Proof. apply String.list_ascii_of_string_of_list_ascii. Qed.

Lemma bytes_translate_months s : bytes (translate_months s) = translate_list (bytes s).
Proof.
  unfold translate_months, translate_list. generalize month_mapping as ms.
  intros ms. revert s. induction ms as [| [tr en] ms IH]; intros s; [done |].
  cbn [fold_left]. rewrite IH. unfold py_replace. by rewrite bytes_of_list.
Qed.

Lemma digit_not_in l c :
  forallb (fun c => negb (is_digit c)) l = true -> is_digit c = true -> c ∉ l.
Proof.
  intros Hl Hc Hin. apply list_elem_of_In in Hin.
  apply (proj1 (forallb_forall _ _) Hl) in Hin. by rewrite Hc in Hin.
Qed.

Lemma month_mapping_no_digit :
  Forall (fun p => bytes p.1 <> [] /\ forallb (fun c => negb (is_digit c)) (bytes p.1) = true)
    month_mapping.
Proof. decide_prop. Qed.

(** The replacements never touch the digits around a month name. *)
Lemma translate_list_digits a mid b :
  Forall (fun c => is_digit c = true) a -> Forall (fun c => is_digit c = true) b ->
  translate_list (a ++ mid ++ b) = a ++ translate_list mid ++ b.
Proof.
  intros Ha Hb. unfold translate_list. revert mid.
  induction month_mapping_no_digit as [| [tr en] ms [Hne Hd] Hms IH]; intros mid; [done |].
  cbn [fold_left]. rewrite replace_list_app_l, replace_list_app_r; [apply IH | done | | done |];
    (eapply Forall_impl; [done |]); intros c Hc; by apply digit_not_in.
Qed.

Lemma translate_month_name m :
  1 <= m <= 12 ->
  translate_list (" "%char :: bytes (tr_month_name m) ++ [" "%char]) =
  " "%char :: bytes (en_month_name m) ++ [" "%char].
Proof.
  intros Hm. pattern m. apply (Z_enum _ 1 12); [| lia]. repeat constructor; vm_compute; reflexivity.
Qed.

(** ** Lemmas on [strptime] *)

Lemma year_digits_facts y :
  0 <= y <= 9999 ->
  Forall (fun c => is_digit c = true) (year_digits y) /\
  skip_ws (year_digits y) = year_digits y /\ match_year (year_digits y) = Some y.
Proof.
  intros Hy. unfold year_digits.
  assert (0 <= y / 1000 < 10 /\ 0 <= y / 100 mod 10 < 10 /\ 0 <= y / 10 mod 10 < 10 /\
          0 <= y mod 10 < 10 /\
          1000 * (y / 1000) + 100 * (y / 100 mod 10) + 10 * (y / 10 mod 10) + y mod 10 = y)
    as (B1 & B2 & B3 & B4 & E) by (Z.div_mod_to_equations; lia).
  destruct (digit_char_digit (Z.to_nat (y / 1000))) as (D1 & S1 & V1); [lia |].
  destruct (digit_char_digit (Z.to_nat (y / 100 mod 10))) as (D2 & _ & V2); [lia |].
  destruct (digit_char_digit (Z.to_nat (y / 10 mod 10))) as (D3 & _ & V3); [lia |].
  destruct (digit_char_digit (Z.to_nat (y mod 10))) as (D4 & _ & V4); [lia |].
  split; [by repeat constructor |]. split; [by cbn [skip_ws]; rewrite S1 |].
  unfold match_year. rewrite D1, D2, D3, D4, V1, V2, V3, V4. cbn [andb]. f_equal. rewrite !Z2Nat.id by lia. exact E.
Qed.

Lemma day_digits_digits d : 1 <= d <= 31 -> Forall (fun c => is_digit c = true) (day_digits d).
Proof.
  intros Hd. unfold day_digits.
  destruct (Z.ltb_spec d 10); repeat constructor; (eapply proj1, digit_char_digit);
    [lia | Z.div_mod_to_equations; lia ..].
Qed.

(** After the day: the month and the year, whatever follows the second
    space. *)
Lemma parse_month_year_name m r :
  1 <= m <= 12 ->
  parse_month_year (" "%char :: bytes (en_month_name m) ++ " "%char :: r) =
  (fun y => (m, y)) <$> match_year (skip_ws r).
Proof. intros Hm. pattern m. apply (Z_enum _ 1 12); [| lia]. repeat constructor; reflexivity. Qed.

(** Every alternative of [%d] that does not take the whole day fails on
    the byte after it. *)
Lemma strptime_day d rest :
  1 <= d <= 31 ->
  strptime_dBY (day_digits d ++ " "%char :: rest) =
  (fun '(m, y) => (y, m, d)) <$> parse_month_year (" "%char :: rest).
Proof.
  intros Hd. pattern d. apply (Z_enum _ 1 31); [| lia]. repeat constructor;
    unfold strptime_dBY; cbv -[parse_month_year];
    destruct (parse_month_year (" "%char :: rest)) as [[? ?] |]; reflexivity.
Qed.

(** A rendered date parses to its day number, when the calendar and the
    [Timestamp] range accept it. *)
Lemma convert_date_render d m y :
  1 <= d <= 31 -> 1 <= m <= 12 -> 0 <= y <= 9999 ->
  convert_date (Some (render_tr_date d m y)) =
  if valid_date y m d && (ts_min <=? day_number y m d) && (day_number y m d <=? ts_max)
  then Some (day_number y m d) else None.
Proof.
  intros Hd Hm Hy. destruct (year_digits_facts y Hy) as (Yd & Ys & Yv).
  unfold convert_date, to_datetime_dBY. rewrite bytes_translate_months.
  unfold render_tr_date. rewrite bytes_of_list.
  replace (" "%char :: bytes (tr_month_name m) ++ " "%char :: year_digits y)
    with ((" "%char :: bytes (tr_month_name m) ++ [" "%char]) ++ year_digits y)
    by (by rewrite <- app_comm_cons, <- app_assoc).
  rewrite translate_list_digits, translate_month_name by auto using day_digits_digits.
  rewrite <- app_comm_cons, <- app_assoc. cbn [app].
  by rewrite strptime_day, parse_month_year_name, Ys, Yv.
Qed.

(** ** Lemmas on the calendar *)

Lemma days_before_year_succ y :
  days_before_year (y + 1) = days_before_year y + year_length y.
Proof.
  unfold days_before_year, year_length, is_leap. replace (y + 1 - 1) with y by lia.
  destruct (Z.eqb_spec (y mod 4) 0), (Z.eqb_spec (y mod 100) 0), (Z.eqb_spec (y mod 400) 0);
    cbn [andb orb negb]; Z.div_mod_to_equations; lia.
Qed.

Lemma days_before_year_le y y' : y <= y' -> days_before_year y <= days_before_year y'.
Proof. unfold days_before_year. intros. Z.div_mod_to_equations. lia. Qed.

Lemma days_before_month_succ y m :
  1 <= m < 12 -> days_before_month y (m + 1) = days_before_month y m + days_in_month y m.
Proof.
  intros Hm. pattern m. apply (Z_enum _ 1 11); [| lia].
  repeat constructor; unfold days_before_month, days_in_month; destruct (is_leap y); reflexivity.
Qed.

Lemma days_before_month_year y m :
  1 <= m <= 12 -> days_before_month y m + days_in_month y m <= year_length y.
Proof.
  intros Hm. pattern m. apply (Z_enum _ 1 12); [| lia].
  repeat constructor; unfold days_before_month, days_in_month, year_length;
    destruct (is_leap y); cbn; discriminate.
Qed.

Lemma days_before_month_le y m k :
  1 <= m -> m + Z.of_nat k <= 12 -> days_before_month y m <= days_before_month y (m + Z.of_nat k).
Proof.
  intros Hm. induction k as [| k IH]; intros Hk; [rewrite Z.add_0_r; lia |].
  rewrite Nat2Z.inj_succ, Z.add_succ_r, <- Z.add_1_r, days_before_month_succ by lia.
  assert (0 <= days_in_month y (m + Z.of_nat k)).
  { unfold days_in_month. destruct (m + Z.of_nat k); try destruct p; try destruct p;
      try destruct p; try destruct p; try destruct (is_leap y); lia. }
  lia.
Qed.

Lemma valid_date_spec y m d :
  valid_date y m d = true <-> 1 <= y <= 9999 /\ 1 <= m <= 12 /\ 1 <= d <= days_in_month y m.
Proof. unfold valid_date. rewrite !andb_true_iff, !Z.leb_le. tauto. Qed.

Lemma convert_date_bounds s z :
  convert_date s = Some z -> ts_min <= z <= ts_max.
Proof.
  destruct s as [s |]; [| done]. cbn [convert_date]. unfold to_datetime_dBY.
  destruct (strptime_dBY _) as [[[y m] d] |]; [| done].
  destruct (valid_date y m d && _ && _) eqn:E; [| done]. intros [= <-].
  apply andb_true_iff in E as [E H2]. apply andb_true_iff in E as [_ H1].
  apply Z.leb_le in H1, H2. lia.
Qed.

Lemma valid_date_ranges y m d :
  valid_date y m d = true -> 1 <= d <= 31 /\ 1 <= m <= 12 /\ 1 <= y <= 9999.
Proof.
  intros Hv. apply valid_date_spec in Hv as (Hy & Hm & Hd).
  assert (days_in_month y m <= 31) by (unfold days_in_month; repeat case_match; lia). lia.
Qed.

Lemma convert_date_valid d m y :
  valid_date y m d = true -> ts_min <= day_number y m d <= ts_max ->
  convert_date (Some (render_tr_date d m y)) = Some (day_number y m d).
Proof.
  intros Hv [H1 H2]. destruct (valid_date_ranges y m d Hv) as (Hd & Hm & Hy).
  rewrite convert_date_render by lia. apply Z.leb_le in H1, H2. by rewrite Hv, H1, H2.
Qed.

(** ** Theorems *)



(** C17: A review date as the page renders it (the day without a leading
    zero, the Turkish month name and the four digits of the year, as in
    [5 Mayıs 2024]) is parsed by [convert_date] to the day number of that
    date, whenever the date exists in the calendar and lies in the range of
    a nanosecond [Timestamp]. *)
Theorem convert_date_roundtrip d m y :
  valid_date y m d = true -> ts_min <= day_number y m d <= ts_max ->
  convert_date (Some (render_tr_date d m y)) = Some (day_number y m d).
Proof. apply convert_date_valid. Qed.

Lemma convert_date_roundtrip_witness :
  convert_date (Some "5 Mayıs 2024") = Some 19848.
Proof.
  change (Some "5 Mayıs 2024") with (Some (render_tr_date 5 5 2024)).
  apply (convert_date_roundtrip 5 5 2024); [reflexivity | split; apply Z.leb_le; reflexivity].
Defined.

(** C33: A review whose rendered date does not exist in the calendar (as
    [31 Şubat 2024]) or lies outside the range of a nanosecond [Timestamp]
    (a year after 2262) is dropped by [parse_turkish_dates] without a
    trace: the parsed table is that of the other reviews. *)
Theorem parse_turkish_dates_drops_invalid r d m y df :
  raw_tarih r = Some (render_tr_date d m y) ->
  1 <= d <= 31 -> 1 <= m <= 12 -> 0 <= y <= 9999 ->
  (valid_date y m d = false \/ day_number y m d < ts_min \/ ts_max < day_number y m d) ->
  parse_turkish_dates (r :: df) = parse_turkish_dates df.
Proof.
  intros Hr Hd Hm Hy Hbad. unfold parse_turkish_dates. cbn [omap list_omap].
  rewrite Hr, convert_date_render by done.
  destruct Hbad as [-> | [H | H]]; [done | apply Z.leb_gt in H | apply Z.leb_gt in H];
    rewrite H; [by rewrite andb_false_r | by rewrite andb_false_r].
Qed.

Definition demo_raw_review (tarih : option string) : RawReview :=
  {| raw_marka := PStr "Koton"; raw_urun := Some "kazak"; raw_genel_puan := PNum 4;
     raw_puan := Some 5; raw_yorum := Some "güzel"; raw_tarih := tarih |}.

Lemma parse_turkish_dates_drops_invalid_witness :
  parse_turkish_dates [demo_raw_review (Some (render_tr_date 31 2 2024))] = [].
Proof.
  apply (parse_turkish_dates_drops_invalid _ 31 2 2024 []);
    [reflexivity | lia | lia | lia | left; reflexivity].
Defined.

(** Day numbers order dates chronologically: of two valid dates, the
    earlier one in (year, month, day) order has the smaller day number, so
    sorting reviews on 'parsed_date' sorts them by date. *)
Theorem day_number_chronological y m d y' m' d' :
  valid_date y m d = true -> valid_date y' m' d' = true ->
  (y < y' \/ (y = y' /\ m < m') \/ (y = y' /\ m = m' /\ d < d')) ->
  day_number y m d < day_number y' m' d'.
Proof.
  intros Hv Hv' Hlt.
  apply valid_date_spec in Hv as (Hy & Hm & Hd). apply valid_date_spec in Hv' as (Hy' & Hm' & Hd').
  pose proof (days_before_month_year y m Hm).
  pose proof (days_before_month_le y' 1 (Z.to_nat (m' - 1)) ltac:(lia) ltac:(lia)).
  rewrite Z2Nat.id in * by lia. replace (1 + (m' - 1)) with m' in * by lia.
  unfold day_number. destruct Hlt as [Hlt | [[<- Hlt] | (<- & <- & Hlt)]]; [| | lia].
  - pose proof (days_before_year_succ y). pose proof (days_before_year_le (y + 1) y' ltac:(lia)).
    assert (days_before_month y' 1 = 0) by reflexivity. lia.
  - pose proof (days_before_month_succ y m ltac:(lia)).
    pose proof (days_before_month_le y (m + 1) (Z.to_nat (m' - m - 1)) ltac:(lia) ltac:(lia)).
    rewrite Z2Nat.id in * by lia. replace (m + 1 + (m' - m - 1)) with m' in * by lia. lia.
Qed.

Lemma day_number_chronological_witness :
  day_number 2023 12 31 < day_number 2024 1 1.
Proof. apply day_number_chronological; [reflexivity | reflexivity | lia]. Defined.

(** Every review left by [parse_turkish_dates] carries a day number
    within the range of a nanosecond [Timestamp] (1677-09-22 to
    2262-04-11), so the day differences of the feature builder are
    bounded. *)
Theorem parse_turkish_dates_bounded df :
  Forall (fun rv => ts_min <= rv_date rv <= ts_max) (parse_turkish_dates df).
Proof.
  induction df as [| r df IH]; [constructor |]. unfold parse_turkish_dates in *.
  cbn [omap list_omap]. destruct (convert_date (raw_tarih r)) eqn:E; [| done].
  constructor; [by apply convert_date_bounds in E | done].
Qed.

End DateParse.
