(* ===== verification/RiskClassifier.v ===== *)
(** * The risk classifier (rule engine)

    [src/scripts/llm_extraction.py] computes the label twice:
    - incrementally, in [_calculate_risk_class] (lines 72-118), on the dict
      the language model returned, right before the dict is saved; missing
      keys take the defaults of [dict.get];
    - in batch, in [classify_product] inside [create_risk_class]
      (lines 341-373), on every row of the merged table, where a missing
      value is NaN and a missing column raises [KeyError].
    Both are modelled as written, over dynamic values ([PyVal]), with the
    exceptions Python raises. [classify] is the abstract classifier of the
    specification, over a typed sentiment summary; the theorems show that
    both call sites refine it and agree with each other on every answer
    that survives the CSV round trip. *)

From S2P Require Import Prelude PyValue BaseMetrics.
Import BaseMetrics.

Module RiskClassifier.

(** ** The classes *)

Inductive RiskClass : Type := Healthy | QualityChurn | EngagementChurn.

#[export] Instance RiskClass_eq_dec : EqDecision RiskClass.
Proof. solve_decision. Defined.

(** The integer the code stores in 'Risk_Class'. *)
Definition risk_class_code (c : RiskClass) : Z :=
  match c with Healthy => 0 | QualityChurn => 1 | EngagementChurn => 2 end.

(** ** Incremental call site: [_calculate_risk_class] *)

(** Lines 90-112: the score of a dict, with [dict.get]'s defaults. *)
Definition quality_risk_of_dict (row_dict : gmap string PyVal) : pyres Z :=
  let fitment_problem := py_eq_true (dict_get row_dict "fitment_problem" PNone) in
  severe <- (if fitment_problem
             then py_ge (dict_get row_dict "fitment_severity" (PInt 0)) 7
             else Ok false) ;;
  let r1 := (if fitment_problem && severe then 3
             else if fitment_problem then 1 else 0)%Z in
  let r2 := (r1 + if py_eq_true (dict_get row_dict "fabric_quality_issue" PNone)
                  then 2 else 0)%Z in
  let quality_sentiment := dict_get row_dict "quality_sentiment" (PInt 5) in
  low <- py_le quality_sentiment 2 ;;
  let r3 := (r2 + if low then 3
                  else if py_eq_int quality_sentiment 3 then 1 else 0)%Z in
  Ok (r3 + if py_eq_true (dict_get row_dict "delivery_issue" PNone) then 1 else 0)%Z.

(** Line 79: [self.df_products[self.df_products['Ürün'] == product_name]]. *)
Definition product_info_of (df_products : list ProductFeatures) (product_name : PyVal)
    : list ProductFeatures :=
  filter (fun p => py_eq (PStr (pf_urun p)) product_name = true) df_products.

(** Lines 72-118: the product's review count is looked up in the product
    table; an unknown product is labelled [(0, 0)]. *)
Definition calculate_risk_class (df_products : list ProductFeatures)
    (row_dict : gmap string PyVal) : pyres (Z * Z) :=
  let product_name := dict_get row_dict "Ürün" PNone in
  match product_info_of df_products product_name with
  | [] => Ok (0, 0)%Z
  | product_info :: _ =>
      if (pf_toplam product_info <? 5)%Z then Ok (2, 0)%Z
      else
        quality_risk <- quality_risk_of_dict row_dict ;;
        Ok (if (4 <=? quality_risk)%Z then 1 else 0, quality_risk)%Z
  end.

(** ** Batch call site: [classify_product] of [create_risk_class] *)

(** Lines 341-373, on a row of a frame with columns [cols]. *)
Definition classify_product (cols : list string) (row : gmap string PyVal)
    : pyres (Z * Z) :=
  toplam <- df_get cols row "Toplam_Yorum_Sayisi" ;;
  few <- py_lt toplam 5 ;;
  if few then Ok (2, 0)%Z
  else
    fp <- df_get cols row "fitment_problem" ;;
    let fitment_problem := py_eq_true fp in
    severe <- (if fitment_problem
               then sev <- df_get cols row "fitment_severity" ;; py_ge sev 7
               else Ok false) ;;
    let r1 := (if fitment_problem && severe then 3
               else if fitment_problem then 1 else 0)%Z in
    fab <- df_get cols row "fabric_quality_issue" ;;
    let r2 := (r1 + if py_eq_true fab then 2 else 0)%Z in
    qs <- df_get cols row "quality_sentiment" ;;
    low <- py_le qs 2 ;;
    let r3 := (r2 + if low then 3 else if py_eq_int qs 3 then 1 else 0)%Z in
    del <- df_get cols row "delivery_issue" ;;
    let quality_risk := (r3 + if py_eq_true del then 1 else 0)%Z in
    Ok (if (4 <=? quality_risk)%Z then 1 else 0, quality_risk)%Z.

(** ** The abstract classifier of the specification *)

(** The sentiment summary the language model is asked for. *)
Record Sentiment : Type := {
  s_fitment_problem : bool;
  s_fitment_severity : Z;
  s_quality_sentiment : Z;
  s_delivery_issue : bool;
  s_color_mismatch : bool;
  s_main_complaint : string;
  s_fabric_quality_issue : bool;
  s_price_value_perception : Z
}.

(** The JSON object of a summary, as [json.loads] returns it. *)
Definition sentiment_dict (s : Sentiment) : gmap string PyVal :=
  <["fitment_problem" := PBool (s_fitment_problem s)]> $
  <["fitment_severity" := PInt (s_fitment_severity s)]> $
  <["quality_sentiment" := PInt (s_quality_sentiment s)]> $
  <["delivery_issue" := PBool (s_delivery_issue s)]> $
  <["color_mismatch" := PBool (s_color_mismatch s)]> $
  <["main_complaint" := PStr (s_main_complaint s)]> $
  <["fabric_quality_issue" := PBool (s_fabric_quality_issue s)]> $
  <["price_value_perception" := PInt (s_price_value_perception s)]> ∅.

(** The score of the specification: fitment 3 (severe) or 1, fabric 2,
    quality 3 (at most 2) or 1 (exactly 3), delivery 1. *)
Definition spec_quality_risk (s : Sentiment) : Z :=
  ((if s_fitment_problem s && (7 <=? s_fitment_severity s) then 3
    else if s_fitment_problem s then 1 else 0)
   + (if s_fabric_quality_issue s then 2 else 0)
   + (if s_quality_sentiment s <=? 2 then 3
      else if s_quality_sentiment s =? 3 then 1 else 0)
   + (if s_delivery_issue s then 1 else 0))%Z.

Definition classify (review_count : Z) (s : Sentiment) : RiskClass * Z :=
  if (review_count <? 5)%Z then (EngagementChurn, 0%Z)
  else
    let q := spec_quality_risk s in
    if (4 <=? q)%Z then (QualityChurn, q) else (Healthy, q).

Definition classify_code (review_count : Z) (s : Sentiment) : Z * Z :=
  let '(c, q) := classify review_count s in (risk_class_code c, q).

(** ** Shared lemmas *)

(** The fields the score reads. *)
Definition risk_keys : list string :=
  ["fitment_problem"; "fitment_severity"; "fabric_quality_issue";
   "quality_sentiment"; "delivery_issue"].

(** A dict carries the summary [s] when its five scored fields hold the
    JSON values of [s]. *)
Definition carries (d : gmap string PyVal) (s : Sentiment) : Prop :=
  d !! "fitment_problem" = Some (PBool (s_fitment_problem s)) /\
  d !! "fitment_severity" = Some (PInt (s_fitment_severity s)) /\
  d !! "fabric_quality_issue" = Some (PBool (s_fabric_quality_issue s)) /\
  d !! "quality_sentiment" = Some (PInt (s_quality_sentiment s)) /\
  d !! "delivery_issue" = Some (PBool (s_delivery_issue s)).

(** The product-table lookup of [_calculate_risk_class] on a table with
    distinct names finds the one row of the product. *)
Lemma product_info_unique (P : list ProductFeatures) (p : ProductFeatures) :
  p ∈ P -> NoDup (map pf_urun P) -> product_info_of P (PStr (pf_urun p)) = [p].
Proof.
  intros Hp Hnd. apply (filter_key_unique pf_urun); [| done | done].
  intros q. rewrite py_eq_str. apply bool_decide_eq_true.
Qed.

Lemma quality_risk_of_dict_carries d s :
  carries d s -> quality_risk_of_dict d = Ok (spec_quality_risk s).
Proof.
  intros (H1 & H2 & H3 & H4 & H5).
  unfold quality_risk_of_dict, dict_get, spec_quality_risk.
  rewrite H1, H2, H3, H4, H5. autorewrite with churn_rw.
  by destruct (s_fitment_problem s); autorewrite with churn_rw.
Qed.

Lemma quality_risk_of_dict_range d q :
  quality_risk_of_dict d = Ok q -> (0 <= q <= 9)%Z.
Proof.
  unfold quality_risk_of_dict. intros H. pyres_inv H. pyres_inv Hk.
  injection Hk0 as <-. repeat case_match; lia.
Qed.

Lemma sentiment_dict_carries s : carries (sentiment_dict s) s.
Proof. repeat split. Qed.

Lemma carries_insert_other d s k v :
  k ∉ risk_keys -> carries d s -> carries (<[k := v]> d) s.
Proof.
  intros Hk (H1 & H2 & H3 & H4 & H5). unfold risk_keys in Hk.
  rewrite !not_elem_of_cons in Hk. destruct_and! Hk.
  repeat split; by rewrite lookup_insert_ne.
Qed.

#[export] Hint Resolve sentiment_dict_carries carries_insert_other : churn.

(** ** Properties *)

(** C1: the incremental labelling of a product whose answer carries the
    summary [s] is the specification's classification of [s] at the
    product's review count (refinement of [classify]). *)
Theorem calculate_risk_class_refines (P : list ProductFeatures) (p : ProductFeatures)
    (d : gmap string PyVal) (s : Sentiment) :
  p ∈ P -> NoDup (map pf_urun P) ->
  d !! "Ürün" = Some (PStr (pf_urun p)) -> carries d s ->
  calculate_risk_class P d = Ok (classify_code (pf_toplam p) s).
Proof.
  intros Hp Hnd Hname Hs. unfold calculate_risk_class, classify_code, classify.
  unfold dict_get at 1. rewrite Hname, product_info_unique by done. cbv zeta.
  destruct (pf_toplam p <? 5)%Z; [done |].
  rewrite (quality_risk_of_dict_carries d s Hs). simpl.
  by destruct (4 <=? spec_quality_risk s)%Z.
Qed.

(** The dict [process_all_products] saves for an answer [s]. *)
Example calculate_risk_class_refines_witness :
  let p := {| pf_urun := "kazak"; pf_marka := PStr "m"; pf_genel_puan := PInt 4;
              pf_toplam := 10; pf_std_sq := None; pf_min := Some 1%Z;
              pf_max := Some 5%Z; pf_oran5 := 0; pf_oran4 := 0; pf_oran3 := 0;
              pf_oran2 := 0; pf_oran1 := 0; pf_negatif := 0; pf_pozitif := 0;
              pf_hiz := 1 |} in
  let s := {| s_fitment_problem := true; s_fitment_severity := 7;
              s_quality_sentiment := 1; s_delivery_issue := true;
              s_color_mismatch := false; s_main_complaint := "";
              s_fabric_quality_issue := true; s_price_value_perception := 2 |} in
  calculate_risk_class [p]
    (<["Yorum_Sayisi" := PInt 10]> (<["Ürün" := PStr "kazak"]> (sentiment_dict s)))
  = Ok (1, 9)%Z.
Proof.
  intros p s. change (1, 9)%Z with (classify_code (pf_toplam p) s).
  apply (calculate_risk_class_refines [p] p _ s).
  - apply list_elem_of_here.
  - apply NoDup_singleton.
  - reflexivity.
  - apply carries_insert_other; [vm_compute; set_solver |].
    apply carries_insert_other; [vm_compute; set_solver |].
    apply sentiment_dict_carries.
Defined.

(** ** Classes, scores and errors *)

(** The last lines of both call sites turn a score into a class. *)
Lemma calculate_risk_class_known (P : list ProductFeatures) (p : ProductFeatures)
    (d : gmap string PyVal) :
  p ∈ P -> NoDup (map pf_urun P) -> d !! "Ürün" = Some (PStr (pf_urun p)) ->
  calculate_risk_class P d =
    if (pf_toplam p <? 5)%Z then Ok (2, 0)%Z
    else q <- quality_risk_of_dict d ;; Ok (if (4 <=? q)%Z then 1 else 0, q)%Z.
Proof.
  intros Hp Hnd Hname. unfold calculate_risk_class, dict_get at 1.
  by rewrite Hname, product_info_unique.
Qed.

(** C28: a product with fewer than five reviews is labelled Engagement
    Churn with score 0 whatever the answer holds, at both call sites. *)
Theorem few_reviews_engagement_churn (P : list ProductFeatures) (p : ProductFeatures)
    (d : gmap string PyVal) (cols : list string) (row : gmap string PyVal) :
  p ∈ P -> NoDup (map pf_urun P) -> d !! "Ürün" = Some (PStr (pf_urun p)) ->
  df_get cols row "Toplam_Yorum_Sayisi" = Ok (PInt (pf_toplam p)) ->
  (pf_toplam p < 5)%Z ->
  calculate_risk_class P d = Ok (2, 0)%Z /\ classify_product cols row = Ok (2, 0)%Z.
Proof.
  intros Hp Hnd Hname Ht Hfew. rewrite (calculate_risk_class_known P p d) by done.
  unfold classify_product. rewrite Ht. cbn [pybind]. rewrite py_lt_int.
  by rewrite (proj2 (Z.ltb_lt _ _) Hfew).
Qed.

Example few_reviews_engagement_churn_witness :
  let p := {| pf_urun := "bluz"; pf_marka := PNone; pf_genel_puan := PNone;
              pf_toplam := 4; pf_std_sq := None; pf_min := None; pf_max := None;
              pf_oran5 := 0; pf_oran4 := 0; pf_oran3 := 0; pf_oran2 := 0;
              pf_oran1 := 0; pf_negatif := 0; pf_pozitif := 0; pf_hiz := 4 |} in
  let d := <["Ürün" := PStr "bluz"]> $ <["quality_sentiment" := PNone]> $
           <["fitment_problem" := PStr "x"]> ∅ in
  calculate_risk_class [p] d = Ok (2, 0)%Z /\
  classify_product ["Toplam_Yorum_Sayisi"] (<["Toplam_Yorum_Sayisi" := PInt 4]> ∅)
    = Ok (2, 0)%Z.
Proof.
  intros p d. apply (few_reviews_engagement_churn [p] p d).
  - apply list_elem_of_here.
  - apply NoDup_singleton.
  - reflexivity.
  - reflexivity.
  - simpl. lia.
Defined.

(** C29: every label the incremental call site produces is Engagement with
    score 0, Quality Churn with a score in [4, 9], or Healthy with a score
    in [0, 3]. *)
Theorem calculate_risk_class_range (P : list ProductFeatures) (d : gmap string PyVal)
    (c q : Z) :
  calculate_risk_class P d = Ok (c, q) ->
  ((c = 2 /\ q = 0) \/ (c = 1 /\ 4 <= q <= 9) \/ (c = 0 /\ 0 <= q <= 3))%Z.
Proof.
  unfold calculate_risk_class. intros H.
  destruct (product_info_of P _) as [|info ?]; [injection H as <- <-; lia |].
  destruct (pf_toplam info <? 5)%Z; [injection H as <- <-; lia |].
  pyres_inv H. apply quality_risk_of_dict_range in Hm.
  injection Hk as <- <-. destruct (Z.leb_spec 4 a); lia.
Qed.

Example calculate_risk_class_range_witness :
  calculate_risk_class [] (<["Ürün" := PStr "yok"]> ∅) = Ok (0, 0)%Z /\
  ((0 = 2 /\ 0 = 0) \/ (0 = 1 /\ 4 <= 0 <= 9) \/ (0 = 0 /\ 0 <= 0 <= 3))%Z.
Proof.
  split; [reflexivity |].
  apply (calculate_risk_class_range [] (<["Ürün" := PStr "yok"]> ∅)). reflexivity.
Defined.

(** C30: an answer whose 'quality_sentiment' is JSON null makes the
    incremental labelling raise [TypeError] ([None <= 2]) for every
    product with at least five reviews: the classifier is not total. *)
Theorem calculate_risk_class_null_sentiment (P : list ProductFeatures)
    (p : ProductFeatures) (d : gmap string PyVal) :
  p ∈ P -> NoDup (map pf_urun P) -> d !! "Ürün" = Some (PStr (pf_urun p)) ->
  (5 <= pf_toplam p)%Z -> d !! "quality_sentiment" = Some PNone ->
  calculate_risk_class P d = Raise TypeError.
Proof.
  intros Hp Hnd Hname Ht Hq. rewrite (calculate_risk_class_known P p d) by done.
  rewrite (proj2 (Z.ltb_ge _ _) Ht). unfold quality_risk_of_dict.
  unfold dict_get at 3. rewrite Hq.
  destruct (if py_eq_true _ then _ else _) as [b|e] eqn:Hsev; [done |].
  cbn [pybind]. destruct (py_eq_true _); [| discriminate].
  unfold py_ge in Hsev. by rewrite (py_order_raise _ _ _ _ Hsev).
Qed.

Example calculate_risk_class_null_sentiment_witness :
  let p := {| pf_urun := "etek"; pf_marka := PNone; pf_genel_puan := PNone;
              pf_toplam := 12; pf_std_sq := None; pf_min := None; pf_max := None;
              pf_oran5 := 0; pf_oran4 := 0; pf_oran3 := 0; pf_oran2 := 0;
              pf_oran1 := 0; pf_negatif := 0; pf_pozitif := 0; pf_hiz := 1 |} in
  calculate_risk_class [p]
    (<["Ürün" := PStr "etek"]> $ <["quality_sentiment" := PNone]> $
     sentiment_dict {| s_fitment_problem := false; s_fitment_severity := 0;
                       s_quality_sentiment := 4; s_delivery_issue := false;
                       s_color_mismatch := false; s_main_complaint := "";
                       s_fabric_quality_issue := false;
                       s_price_value_perception := 4 |})
  = Raise TypeError.
Proof.
  intros p. apply (calculate_risk_class_null_sentiment [p] p).
  - apply list_elem_of_here.
  - apply NoDup_singleton.
  - reflexivity.
  - simpl. lia.
  - reflexivity.
Defined.

(** The batch labelling never raises on a row whose count is an
    integer and whose scored columns exist and hold a bool, a number or
    NaN, which is what the CSV round trip makes of every JSON bool, number
    or null (so the answer of C5 is labelled in batch). *)
Theorem classify_product_total (cols : list string) (row : gmap string PyVal) (t : Z) :
  df_get cols row "Toplam_Yorum_Sayisi" = Ok (PInt t) ->
  Forall (fun k => exists v, df_get cols row k = Ok v /\ is_plain v = true /\ v <> PNone)
    risk_keys ->
  exists r, classify_product cols row = Ok r.
Proof.
  intros Ht Hk. unfold risk_keys in Hk. decompose_Forall Hk.
  destruct Hk0 as (fp & Hfp & _), Hk1 as (sv & Hsv & Psv & Nsv),
    Hk2 as (fb & Hfb & _), Hk3 as (qs & Hqs & Pqs & Nqs), Hk4 as (dl & Hdl & _).
  unfold classify_product. rewrite Ht. cbn [pybind]. rewrite py_lt_int. cbn [pybind].
  destruct (t <? 5)%Z; [eauto |].
  rewrite Hfp. cbn [pybind].
  destruct (py_order_plain (fun q k => Qle_bool k q) sv 7 Psv Nsv) as [b1 Hb1].
  destruct (py_order_plain Qle_bool qs 2 Pqs Nqs) as [b2 Hb2].
  destruct (py_eq_true fp); [rewrite Hsv; cbn [pybind]; unfold py_ge; rewrite Hb1 |];
    cbn [pybind]; rewrite Hfb; cbn [pybind]; rewrite Hqs; cbn [pybind];
    unfold py_le; rewrite Hb2; cbn [pybind]; rewrite Hdl; cbn [pybind]; eauto.
Qed.

Example classify_product_total_witness :
  let cols := ["Toplam_Yorum_Sayisi"] ++ risk_keys in
  let row := <["Toplam_Yorum_Sayisi" := PInt 12]> $ <["fitment_problem" := PBool true]> $
             <["fitment_severity" := PNaN]> $ <["fabric_quality_issue" := PBool false]> $
             <["quality_sentiment" := PNaN]> $ <["delivery_issue" := PNaN]> ∅ in
  exists r, classify_product cols row = Ok r.
Proof.
  intros cols row. apply (classify_product_total cols row 12); [reflexivity |].
  unfold risk_keys.
  repeat (apply Forall_cons_2;
    [eexists; split; [reflexivity | split; [reflexivity | discriminate]] |]).
  constructor.
Defined.


(** The score treats a non-integral quality sentiment strictly between
    2 and 3 like an excellent one: it adds nothing, although 2 adds 3 and
    3 adds 1 (the code compares with [<= 2] and [== 3] only). *)
Theorem fractional_sentiment_scores_as_excellent (d : gmap string PyVal) (q : Q) :
  (2 < q < 3)%Q ->
  quality_risk_of_dict (<["quality_sentiment" := PNum q]> d) =
  quality_risk_of_dict (<["quality_sentiment" := PInt 5]> d).
Proof.
  intros [H2 H3]. unfold quality_risk_of_dict.
  simpl_dict_get. unfold py_le, py_order, py_eq_int. simpl.
  assert (Hle : Qle_bool q (inject_Z 2) = false).
  { apply not_true_iff_false. rewrite Qle_bool_iff. unfold inject_Z. intros Hc.
    apply (Qlt_not_le _ _ H2 Hc). }
  assert (Heq : Qeq_bool q (inject_Z 3) = false).
  { apply not_true_iff_false. rewrite Qeq_bool_iff. unfold inject_Z. intros Hc.
    rewrite Hc in H3. apply (Qlt_irrefl _ H3). }
  by rewrite Hle, Heq.
Qed.

Example fractional_sentiment_scores_as_excellent_witness :
  quality_risk_of_dict (<["quality_sentiment" := PNum (5 # 2)]> ∅) =
  quality_risk_of_dict (<["quality_sentiment" := PInt 5]> ∅).
Proof.
  apply fractional_sentiment_scores_as_excellent. split; vm_compute; reflexivity.
Defined.

(** The fields the specification calls informational (colour
    mismatch, price perception, main complaint) never change the label,
    whatever value they hold. *)
Theorem calculate_risk_class_ignores_informational (P : list ProductFeatures)
    (d : gmap string PyVal) (k : string) (v : PyVal) :
  k ∈ ["color_mismatch"; "price_value_perception"; "main_complaint"] ->
  calculate_risk_class P (<[k := v]> d) = calculate_risk_class P d.
Proof.
  intros Hk. unfold calculate_risk_class, quality_risk_of_dict.
  rewrite !elem_of_cons, elem_of_nil in Hk.
  destruct Hk as [-> | [-> | [-> | []]]];
    simpl_dict_get; reflexivity.
Qed.

Example calculate_risk_class_ignores_informational_witness :
  calculate_risk_class [] (<["main_complaint" := PContainer]> (<["Ürün" := PStr "x"]> ∅)) =
  calculate_risk_class [] (<["Ürün" := PStr "x"]> ∅).
Proof.
  apply calculate_risk_class_ignores_informational.
  apply list_elem_of_further, list_elem_of_further, list_elem_of_here.
Defined.

(** ** The two call sites *)

Section Agreement.
Context `{CsvCodec}.

(** A row of the merged table read back from the checkpoint CSV for the
    answer [d] of a product with [toplam] reviews: the review count, and
    each scored field as the CSV returns the answer's value (NaN where the
    answer has no such key). *)
Definition reads_back (cols : list string) (row : gmap string PyVal) (toplam : Z)
    (d : gmap string PyVal) : Prop :=
  df_get cols row "Toplam_Yorum_Sayisi" = Ok (PInt toplam) /\
  Forall (fun k => df_get cols row k = Ok (csv_cell (dict_get d k PNone))) risk_keys.

Lemma severe_agrees (d : gmap string PyVal) cols row (fp b : bool) :
  is_plain (dict_get d "fitment_severity" PNone) = true ->
  df_get cols row "fitment_severity" = Ok (csv_cell (dict_get d "fitment_severity" PNone)) ->
  (if fp then py_ge (dict_get d "fitment_severity" (PInt 0)) 7 else Ok false) = Ok b ->
  (if fp then sev <- df_get cols row "fitment_severity" ;; py_ge sev 7 else Ok false) = Ok b.
Proof.
  intros Hp Hrow Hb. destruct fp; [| done].
  rewrite Hrow. cbn [pybind]. unfold py_ge in *.
  eapply (py_order_default_csv _ d "fitment_severity" (PInt 0));
    [reflexivity | exact Hp | exact Hb].
Qed.

(** The batch labelling of a row that reads back an answer the
    incremental labelling accepted. *)
Lemma batch_label_of_answer (P : list ProductFeatures) (p : ProductFeatures)
    (d : gmap string PyVal) (cols : list string) (row : gmap string PyVal) (r : Z * Z) :
  p ∈ P -> NoDup (map pf_urun P) -> d !! "Ürün" = Some (PStr (pf_urun p)) ->
  Forall (fun k => is_plain (dict_get d k PNone) = true) risk_keys ->
  reads_back cols row (pf_toplam p) d ->
  calculate_risk_class P d = Ok r -> classify_product cols row = Ok r.
Proof.
  intros Hp Hnd Hname Hplain [Ht Hrows] Hr.
  unfold risk_keys in Hplain, Hrows. decompose_Forall Hplain. decompose_Forall Hrows.
  unfold calculate_risk_class, dict_get at 1 in Hr.
  rewrite Hname, product_info_unique in Hr by done. cbv zeta in Hr.
  unfold classify_product. rewrite Ht. cbn [pybind]. rewrite py_lt_int. cbn [pybind].
  destruct (pf_toplam p <? 5)%Z; [done |].
  pyres_inv Hr. injection Hk as <-.
  unfold quality_risk_of_dict in Hm. pyres_inv Hm. pyres_inv Hk. injection Hk0 as <-.
  rewrite Hrows0. cbn [pybind]. rewrite py_eq_true_csv by done.
  erewrite severe_agrees by eauto. cbn [pybind].
  rewrite Hrows2. cbn [pybind]. rewrite py_eq_true_csv by done.
  rewrite Hrows3. cbn [pybind]. unfold py_le in *.
  erewrite (py_order_default_csv _ d "quality_sentiment" (PInt 5)) by eauto. cbn [pybind].
  rewrite (py_eq_int_default_csv d "quality_sentiment" (PInt 5)) by done.
  rewrite Hrows4. cbn [pybind]. by rewrite py_eq_true_csv.
Qed.


End Agreement.


End RiskClassifier.
