(* ===== verification/BatchRunner.v ===== *)
(** * The checkpointed batch runner

    [src/scripts/llm_extraction.py], class [LLMFeatureExtractor]: the
    constructor reads the checkpoint file into the set of processed
    products ([_load_processed_products]); [process_all_products] walks
    the products that are not in it, and for each one selects the 100 most
    recent reviews ([extract_product_comments]), builds the prompt
    ([create_llm_prompt]: the review lines inside the instruction text),
    calls the language model and parses its answer
    ([call_llm_api]), and on success appends the answer with its risk
    label to the checkpoint file ([_save_single_result]) before it moves
    to the next product.

    The process state is the record [RunnerState]: the in-memory set
    [processed_products], the checkpoint file (the only state that
    outlives a process; [None] when it does not exist) and the trace of
    observable events (language-model calls, saves, sleeps, warnings). An
    operation takes a state and returns the next one, with the exception
    that escaped, if any: an exception ends the run, and the file keeps
    what was written before it. [run] is one execution of the script. *)

From S2P Require Import Prelude PyValue BaseMetrics RiskClassifier.
From stdpp Require Import sorting.
Import BaseMetrics RiskClassifier.

Module BatchRunner.

(** ** Selecting the reviews of a product *)

Definition date_desc (a b : Review) : Prop := (rv_date b <= rv_date a)%Z.

#[export] Instance date_desc_dec : RelDecision date_desc.
Proof. intros a b. unfold date_desc. apply _. Defined.

(** [sort_values('parsed_date', ascending=False)]: pandas' sort returns
    the rows as a permutation sorted by date, most recent first; the order
    of rows with equal dates is the sort's own, so it is an interface. *)
Class DateSort := {
  sort_by_date_desc : list Review -> list Review;
  sort_by_date_desc_perm l : sort_by_date_desc l ≡ₚ l;
  sort_by_date_desc_sorted l : Sorted date_desc (sort_by_date_desc l)
}.

#[export] Instance date_desc_total : Total date_desc.
Proof. intros a b. unfold date_desc. lia. Qed.

(** A merge sort is one such sort. *)
#[export] Instance merge_sort_dates : DateSort := {|
  sort_by_date_desc := merge_sort date_desc;
  sort_by_date_desc_perm := merge_sort_Permutation date_desc;
  sort_by_date_desc_sorted := Sorted_merge_sort date_desc
|}.

(** [extract_product_comments] (lines 144-153). *)
Definition extract_product_comments `{DateSort} (df_reviews : list Review)
    (product_name : string) (max_comments : nat) : list (option string) :=
  map rv_yorum
    (take max_comments (sort_by_date_desc (product_rows df_reviews (Some product_name)))).

(** ** The prompt and the answer *)

(** One line of [comments_text]: placeholders ['HATA'] and missing texts
    are left out (line 160). *)
Definition comment_line (comment : option string) : option string :=
  match comment with
  | Some s => if bool_decide (s = "HATA") then None else Some ("- " ++ s)%string
  | None => None
  end.

(** A double quote, which the prompt text contains. *)
Definition dq : string := String (Ascii.ascii_of_nat 34) EmptyString.

(** Lines 162-164: the prompt text before the review lines. *)
Definition prompt_head : string :=
  "Bir e-ticaret ürününe ait kullanıcı yorumlarını analiz ediyorsun. Görevin, GENEL eğilimi belirlemek (birkaç aykırı yorumu değil).

YORUMLAR:
".

(** Lines 164-224: the prompt text after the review lines: the JSON
    template, the rules and the two scenarios, with the f-string's [{{]
    and [}}] as single braces. *)
Definition prompt_tail : string :=
  ("

Aşağıdaki bilgileri JSON formatında çıkar. SADECE JSON çıktısı ver, başka açıklama ekleme:

{
  " ++ dq ++ "fitment_problem" ++ dq ++ ": true/false,
  " ++ dq ++ "fitment_severity" ++ dq ++ ": 0-10,
  " ++ dq ++ "quality_sentiment" ++ dq ++ ": 1-5,
  " ++ dq ++ "delivery_issue" ++ dq ++ ": true/false,
  " ++ dq ++ "color_mismatch" ++ dq ++ ": true/false,
  " ++ dq ++ "main_complaint" ++ dq ++ ": " ++ dq ++ "string" ++ dq ++ ",
  " ++ dq ++ "fabric_quality_issue" ++ dq ++ ": true/false,
  " ++ dq ++ "price_value_perception" ++ dq ++ ": 1-5
}

KRİTİK KURALLAR - ÇOK ÖNEMLİ:

1. fitment_problem: SADECE yorumların %20'sinden FAZLASI (5'te 1'i) beden/kalıp problemi belirtiyorsa TRUE. 
   Örnek: 100 yorumda 20'den fazlası " ++ dq ++ "büyük/küçük/bol/dar" ++ dq ++ " diyorsa TRUE, değilse FALSE.

2. fabric_quality_issue: SADECE yorumların %20'sinden FAZLASI kumaş kalitesinden şikayet ediyorsa TRUE.
   Örnek: 100 yorumda 20'den fazlası " ++ dq ++ "kumaş kötü/ince/kalitesiz" ++ dq ++ " diyorsa TRUE, değilse FALSE.

3. delivery_issue: SADECE yorumların %20'sinden FAZLASI teslimat sorunu belirtiyorsa TRUE.

4. color_mismatch: SADECE yorumların %20'sinden FAZLASI renk uyumsuzluğu belirtiyorsa TRUE.

5. quality_sentiment: ÇOĞUNLUĞUN genel kalite algısını yansıt.
   - Çoğunluk " ++ dq ++ "mükemmel/harika/kaliteli" ++ dq ++ " diyorsa → 5
   - Çoğunluk " ++ dq ++ "iyi/güzel" ++ dq ++ " diyorsa → 4
   - Çoğunluk " ++ dq ++ "orta" ++ dq ++ " diyorsa → 3
   - Çoğunluk " ++ dq ++ "kötü" ++ dq ++ " diyorsa → 2
   - Çoğunluk " ++ dq ++ "berbat" ++ dq ++ " diyorsa → 1

6. main_complaint: En sık tekrarlanan ciddi şikayeti yaz. Eğer ciddi şikayet yoksa " ++ dq ++ "Genel memnuniyet yüksek" ++ dq ++ " yaz.

7. fitment_severity & price_value_perception: 0-10 arası, GENEL eğilimi yansıt.

ÖRNEKLER:

Senaryo 1:
- 100 yorum
- 95 kişi: " ++ dq ++ "Mükemmel, harika, bayıldım" ++ dq ++ "
- 3 kişi: " ++ dq ++ "Beden büyük geldi" ++ dq ++ "
- 2 kişi: " ++ dq ++ "Kumaş ince" ++ dq ++ "
→ fitment_problem: FALSE (%3 < %20)
→ fabric_quality_issue: FALSE (%2 < %20)
→ quality_sentiment: 5
→ main_complaint: " ++ dq ++ "Genel memnuniyet yüksek" ++ dq ++ "

Senaryo 2:
- 100 yorum
- 30 kişi: " ++ dq ++ "Beden çok büyük, kalıp kötü" ++ dq ++ "
- 70 kişi: " ++ dq ++ "Güzel ürün" ++ dq ++ "
→ fitment_problem: TRUE (%30 > %20)
→ fitment_severity: 7 (ciddi problem)
→ quality_sentiment: 4 (çoğunluk memnun)
→ main_complaint: " ++ dq ++ "Beden büyük geliyor" ++ dq ++ "

SADECE YAYGIN SORUNLARI RAPORLA! Birkaç kişinin söylemesi SORUN DEĞİLDİR.")%string.

(** Line 160: [comments_text], the review lines joined by newlines. *)
Definition comments_text (comments_list : list (option string)) : string :=
  String.concat newline (omap comment_line comments_list).

(** [create_llm_prompt] (lines 155-226): the instruction text around
    [comments_text]. *)
Definition create_llm_prompt (comments_list : list (option string)) : string :=
  (prompt_head ++ comments_text comments_list ++ prompt_tail)%string.

Definition py_endswith (suffix s : string) : bool :=
  String.prefix (String.string_of_list_ascii (rev (String.list_ascii_of_string suffix)))
    (String.string_of_list_ascii (rev (String.list_ascii_of_string s))).

Definition fence : string := "```".

(** The clean-up of the answer text (lines 240-250): strip, drop a
    leading "```json", then a leading fence, then a trailing fence, strip. *)
Definition clean_response (response_text : string) : string :=
  let t0 := py_strip response_text in
  let t1 := if String.prefix (fence ++ "json") t0
            then String.substring 7 (String.length t0) t0 else t0 in
  let t2 := if String.prefix fence t1
            then String.substring 3 (String.length t1) t1 else t1 in
  let t3 := if py_endswith fence t2
            then String.substring 0 (String.length t2 - 3) t2 else t2 in
  py_strip t3.

(** The language-model client of one process: the answer text of a
    prompt, or [None] when the client or [response.content[0].text]
    raised. *)
Record LlmService : Type := { messages_create : string -> option string }.

(** ** Events and state *)

Inductive Event : Type :=
  | EvNoComments (p : string)   (** the warning of line 293 *)
  | EvLlmCall (p : string)      (** [self.call_llm_api(prompt)] *)
  | EvSaved (p : string)        (** [self._save_single_result(llm_result)] *)
  | EvSleep.                    (** [time.sleep(delay)] *)

#[export] Instance Event_eq_dec : EqDecision Event.
Proof. solve_decision. Defined.

Record RunnerState : Type := {
  processed_products : gset string;
  output_file : option frame;
  events : list Event
}.

Definition log (st : RunnerState) (evs : list Event) : RunnerState :=
  {| processed_products := processed_products st; output_file := output_file st;
     events := events st ++ evs |}.

(** ** The checkpoint file *)

Section Runner.
Context `{CsvCodec} `{DateSort}.
(** [json.loads]: [None] is [JSONDecodeError]. *)
Variable json_loads : string -> option JsonTop.
Variable df_reviews : list Review.
Variable df_products : list ProductFeatures.

(** [pd.read_csv] of a written frame. *)
Definition csv_read (f : frame) : frame :=
  {| fr_columns := fr_columns f; fr_rows := map (fmap csv_cell) (fr_rows f) |}.

(** [pd.concat([a, b], ignore_index=True)] *)
Definition concat_frames (a b : frame) : frame :=
  {| fr_columns := fr_columns a ++ filter (fun c => c ∉ fr_columns a) (fr_columns b);
     fr_rows := fr_rows a ++ fr_rows b |}.

(** [pd.DataFrame([result_dict])] *)
Definition row_frame (d : gmap string PyVal) : frame :=
  {| fr_columns := map fst (map_to_list d); fr_rows := [d] |}.

(** The product name a row of the file reads back as. *)
Definition row_name (row : gmap string PyVal) : option string :=
  match csv_cell (dict_get row "Ürün" PNaN) with PStr s => Some s | _ => None end.

Definition file_names (f : option frame) : list string :=
  match f with None => [] | Some fr => omap row_name (fr_rows fr) end.

(** [_load_processed_products] (lines 61-70). *)
Definition load_processed_products (f : option frame) : pyres (gset string) :=
  match f with
  | None => Ok ∅
  | Some fr =>
      if bool_decide ("Ürün" ∈ fr_columns fr) then Ok (list_to_set (file_names f))
      else Raise KeyError
  end.

(** [_save_single_result] (lines 120-142): label, then append by reading
    the whole file, concatenating and writing it back. *)
Definition save_single_result (output : option frame) (result_dict : gmap string PyVal)
    : pyres frame :=
  rc <- calculate_risk_class df_products result_dict ;;
  let d := <["Risk_Score" := PInt rc.2]> (<["Risk_Class" := PInt rc.1]> result_dict) in
  Ok (match output with
      | Some existing => concat_frames (csv_read existing) (row_frame d)
      | None => row_frame d
      end).

(** [call_llm_api] (lines 228-261): every exception is caught. *)
Definition call_llm_api (api : LlmService) (prompt : string) : option JsonTop :=
  match messages_create api prompt with
  | None => None
  | Some text => json_loads (clean_response text)
  end.

(** ** The loop *)

(** The body of the loop of [process_all_products] for one product
    (lines 289-313). Item assignment on an answer that is not a dict
    raises [TypeError]; so may the labelling. *)
Definition process_product (api : LlmService) (st : RunnerState) (product_name : string)
    : RunnerState * option exc :=
  let comments := extract_product_comments df_reviews product_name 100 in
  if bool_decide (length comments = 0) then (log st [EvNoComments product_name], None)
  else
    let st1 := log st [EvLlmCall product_name] in
    match call_llm_api api (create_llm_prompt comments) with
    | Some llm_result =>
        if json_truthy llm_result then
          match llm_result with
          | JDict d =>
              let d1 := <["Yorum_Sayisi" := PInt (Z.of_nat (length comments))]>
                          (<["Ürün" := PStr product_name]> d) in
              match save_single_result (output_file st1) d1 with
              | Ok f =>
                  ({| processed_products := {[product_name]} ∪ processed_products st1;
                      output_file := Some f;
                      events := events st1 ++ [EvSaved product_name; EvSleep] |}, None)
              | Raise e => (st1, Some e)
              end
          | _ => (st1, Some TypeError)
          end
        else (log st1 [EvSleep], None)
    | None => (log st1 [EvSleep], None)
    end.

Fixpoint process_loop (api : LlmService) (st : RunnerState) (ps : list string)
    : RunnerState * option exc :=
  match ps with
  | [] => (st, None)
  | p :: ps' =>
      match process_product api st p with
      | (st', None) => process_loop api st' ps'
      | (st', Some e) => (st', Some e)
      end
  end.

(** Lines 268-274: the products of the table not yet processed, in table
    order, cut to [max_products] when it is truthy. *)
Definition products_to_process (processed : gset string) (max_products : option Z)
    : list string :=
  let todo := filter (fun p => py_not_in processed p = true) (map pf_urun df_products) in
  match max_products with
  | Some n => if bool_decide (n <> 0%Z) then py_head n todo else todo
  | None => todo
  end.

(** [process_all_products] (lines 263-315). *)
Definition process_all_products (api : LlmService) (max_products : option Z)
    (st : RunnerState) : RunnerState * option exc :=
  let todo := products_to_process (processed_products st) max_products in
  if bool_decide (length todo = 0) then (st, None) else process_loop api st todo.

(** One execution of the script: [__init__] loads the checkpoint, then
    [process_all_products] runs. *)
Definition run (api : LlmService) (max_products : option Z) (f : option frame)
    : RunnerState * option exc :=
  match load_processed_products f with
  | Raise e => ({| processed_products := ∅; output_file := f; events := [] |}, Some e)
  | Ok processed =>
      process_all_products api max_products
        {| processed_products := processed; output_file := f; events := [] |}
  end.

(** ** How a step changes the state *)

Definition columns_ok (f : option frame) : Prop :=
  match f with None => True | Some fr => "Ürün" ∈ fr_columns fr end.

(** A file a run can start from: it has the name column and holds at most
    one row per product. *)
Definition file_ok (f : option frame) : Prop := columns_ok f /\ NoDup (file_names f).

#[export] Instance file_ok_dec f : Decision (file_ok f).
Proof. unfold file_ok, columns_ok. destruct f; apply _. Defined.

(** [st'] is [st] after the events [evs], with rows named [ns] appended to
    the file and [ns] added to the processed set. *)
Definition advance (st st' : RunnerState) (evs : list Event) (ns : list string) : Prop :=
  events st' = events st ++ evs /\
  file_names (output_file st') = file_names (output_file st) ++ ns /\
  processed_products st' = list_to_set ns ∪ processed_products st /\
  (columns_ok (output_file st) -> columns_ok (output_file st')).

Ltac solve_advance :=
  unfold advance; simpl; rewrite ?app_nil_r, ?app_assoc;
  repeat split; auto; set_solver.

Lemma advance_refl st : advance st st [] [].
Proof. solve_advance. Qed.

Lemma advance_log st evs : advance st (log st evs) evs [].
Proof. solve_advance. Qed.

Lemma advance_log_log st evs1 evs2 : advance st (log (log st evs1) evs2) (evs1 ++ evs2) [].
Proof. solve_advance. Qed.

Lemma advance_trans st1 st2 st3 evs1 ns1 evs2 ns2 :
  advance st1 st2 evs1 ns1 -> advance st2 st3 evs2 ns2 ->
  advance st1 st3 (evs1 ++ evs2) (ns1 ++ ns2).
Proof.
  intros (E1 & N1 & P1 & C1) (E2 & N2 & P2 & C2). repeat split.
  - by rewrite E2, E1, app_assoc.
  - by rewrite N2, N1, app_assoc.
  - rewrite P2, P1, list_to_set_app_L. set_solver.
  - auto.
Qed.

(** The shape of the events one product produces. *)
Inductive block (p : string) : list Event -> list string -> option exc -> Prop :=
  | block_skip : block p [EvNoComments p] [] None
  | block_fail : block p [EvLlmCall p; EvSleep] [] None
  | block_saved : block p [EvLlmCall p; EvSaved p; EvSleep] [p] None
  | block_abort e : block p [EvLlmCall p] [] (Some e).

(** The effect of [process_product] on a product, observed from the
    initial state of a process without a file. *)
Definition product_outcome (api : LlmService) (p : string)
    : list Event * list string * option exc :=
  let '(st', e) := process_product api
                     {| processed_products := ∅; output_file := None; events := [] |} p in
  (events st', file_names (output_file st'), e).

(** A run over a worklist: one outcome per product, in worklist order,
    stopping after the first product whose outcome is an exception. *)
Inductive run_trace (api : LlmService) : list string -> list Event -> list string -> option exc -> Prop :=
  | rt_nil : run_trace api [] [] [] None
  | rt_cons p ps evs ns tr ns' e :
      product_outcome api p = (evs, ns, None) -> run_trace api ps tr ns' e ->
      run_trace api (p :: ps) (evs ++ tr) (ns ++ ns') e
  | rt_stop p ps evs ns e :
      product_outcome api p = (evs, ns, Some e) -> run_trace api (p :: ps) evs ns (Some e).

(** ** Lemmas on the file *)

Lemma row_name_fmap_csv row : row_name (csv_cell <$> row) = row_name row.
Proof.
  unfold row_name, dict_get. rewrite lookup_fmap.
  destruct (row !! "Ürün"); simpl; [by rewrite csv_cell_idem | by rewrite csv_cell_nan].
Qed.

Lemma file_names_csv_read fr : file_names (Some (csv_read fr)) = file_names (Some fr).
Proof.
  destruct fr as [cols rows]. unfold file_names, csv_read. cbn [fr_rows].
  induction rows as [|r rows IH]; [done |].
  rewrite map_cons. cbn [omap list_omap]. rewrite row_name_fmap_csv.
  by destruct (row_name r); rewrite IH.
Qed.

Lemma file_names_concat a b :
  file_names (Some (concat_frames a b)) = file_names (Some a) ++ file_names (Some b).
Proof. apply omap_app. Qed.

(** Appending a row, as [_save_single_result] does, appends its name. *)
Lemma file_names_append f d :
  file_names (Some (match f with
                    | Some existing => concat_frames (csv_read existing) (row_frame d)
                    | None => row_frame d
                    end)) = file_names f ++ file_names (Some (row_frame d)).
Proof. destruct f; [by rewrite file_names_concat, file_names_csv_read | done]. Qed.

Lemma columns_ok_append f d v :
  d !! "Ürün" = Some v ->
  columns_ok (Some (match f with
                    | Some existing => concat_frames (csv_read existing) (row_frame d)
                    | None => row_frame d
                    end)).
Proof.
  intros Hd. assert (Hk : "Ürün" ∈ map fst (map_to_list d)).
  { apply (elem_of_map_2 fst _ ("Ürün", v)). by apply elem_of_map_to_list. }
  destruct f as [ex|]; simpl; [| done].
  rewrite elem_of_app, list_elem_of_filter.
  destruct (decide ("Ürün" ∈ fr_columns ex)); [by left | by right].
Qed.

(** The row [process_all_products] builds for a product reads back under
    the product's name. *)
Lemma row_name_result p (d : gmap string PyVal) n c q :
  csv_cell (PStr p) = PStr p ->
  row_name (<["Risk_Score" := q]> (<["Risk_Class" := c]>
              (<["Yorum_Sayisi" := n]> (<["Ürün" := PStr p]> d)))) = Some p.
Proof. intros Hp. unfold row_name. simpl_dict_get. by rewrite Hp. Qed.

(** ** One product *)

(** [process_product] has the same effect on every state: it appends the
    events and rows of [product_outcome], whatever the state holds. *)
Lemma process_product_outcome api st p :
  csv_cell (PStr p) = PStr p ->
  forall st' e evs ns e0,
  process_product api st p = (st', e) -> product_outcome api p = (evs, ns, e0) ->
  e = e0 /\ advance st st' evs ns.
Proof.
  intros Hp st' e evs ns e0. unfold product_outcome, process_product.
  case_bool_decide.
  { intros [= <- <-] [= <- <- <-]. split; [done | apply advance_log]. }
  destruct (call_llm_api api _) as [j|];
    [| intros [= <- <-] [= <- <- <-]; split; [done |];
       apply advance_log_log].
  destruct (json_truthy j);
    [| intros [= <- <-] [= <- <- <-]; split; [done |];
       apply advance_log_log].
  destruct j as [d| |];
    try (intros [= <- <-] [= <- <- <-]; split; [done | apply advance_log]).
  unfold save_single_result.
  destruct (calculate_risk_class _ _) as [[c q]|ex]; simpl;
    [| intros [= <- <-] [= <- <- <-]; split; [done | apply advance_log]].
  intros [= <- <-] [= <- <- <-]. split; [done |].
  unfold advance. cbn [events output_file processed_products log].
  rewrite !file_names_append. cbn [file_names omap list_omap fr_rows row_frame].
  rewrite !row_name_result by done.
  repeat split.
  - by rewrite <- app_assoc.
  - set_solver.
  - intros _. apply (columns_ok_append _ _ (PStr p)). by simplify_map_eq.
Qed.

Lemma product_outcome_block api p evs ns e :
  csv_cell (PStr p) = PStr p -> product_outcome api p = (evs, ns, e) -> block p evs ns e.
Proof.
  intros Hp. unfold product_outcome, process_product.
  case_bool_decide; [intros [= <- <- <-]; constructor |].
  destruct (call_llm_api api _) as [j|]; [| intros [= <- <- <-]; constructor].
  destruct (json_truthy j); [| intros [= <- <- <-]; constructor].
  destruct j as [d| |]; try (intros [= <- <- <-]; constructor).
  unfold save_single_result.
  destruct (calculate_risk_class _ _) as [[c q]|ex]; simpl;
    [| intros [= <- <- <-]; constructor].
  intros [= <- <- <-]. cbn [file_names omap list_omap fr_rows row_frame output_file].
  rewrite row_name_result by done. constructor.
Qed.

(** ** The loop *)

Lemma process_loop_trace api st ps :
  Forall (fun p => csv_cell (PStr p) = PStr p) ps ->
  forall st' e, process_loop api st ps = (st', e) ->
  exists tr ns, run_trace api ps tr ns e /\ advance st st' tr ns.
Proof.
  revert st. induction ps as [|p ps IH]; intros st Hps st' e Hrun; simpl in Hrun.
  - injection Hrun as <- <-. exists [], []. split; [constructor | apply advance_refl].
  - apply Forall_cons_1 in Hps as [Hp Hps].
    destruct (product_outcome api p) as [[evs ns] e0] eqn:Ho.
    destruct (process_product api st p) as [st1 e1] eqn:Hpp.
    destruct (process_product_outcome api st p Hp st1 e1 evs ns e0 Hpp Ho) as [<- Hadv].
    destruct e1 as [e1|].
    + injection Hrun as <- <-. exists evs, ns. split; [by eapply rt_stop | done].
    + destruct (IH st1 Hps st' e Hrun) as (tr & ns' & Htr & Hadv').
      exists (evs ++ tr), (ns ++ ns'). split; [by eapply rt_cons | by eapply advance_trans].
Qed.

(** Every row a run appends belongs to a product of its worklist whose
    outcome is a save. *)
Lemma run_trace_names api ps tr ns e q :
  Forall (fun p => csv_cell (PStr p) = PStr p) ps ->
  run_trace api ps tr ns e -> q ∈ ns ->
  q ∈ ps /\ exists evs, product_outcome api q = (evs, [q], None).
Proof.
  intros Hps Htr. revert Hps.
  induction Htr as [|p ps evs ns0 tr ns' e Ho Htr IH|p ps evs ns0 e Ho]; intros Hps Hq.
  - by apply not_elem_of_nil in Hq.
  - apply Forall_cons_1 in Hps as [Hp Hps]. apply elem_of_app in Hq as [Hq|Hq].
    + pose proof (product_outcome_block api p evs ns0 None Hp Ho) as Hb.
      inversion Hb; subst; try by apply not_elem_of_nil in Hq.
      apply list_elem_of_singleton in Hq as ->. split; [apply list_elem_of_here | eauto].
    + destruct (IH Hps Hq) as [Hin Hout]. split; [by apply list_elem_of_further | done].
  - apply Forall_cons_1 in Hps as [Hp _].
    pose proof (product_outcome_block api p evs ns0 (Some e) Hp Ho) as Hb.
    inversion Hb; subst. by apply not_elem_of_nil in Hq.
Qed.

Lemma run_trace_sublist api ps tr ns e :
  Forall (fun p => csv_cell (PStr p) = PStr p) ps ->
  run_trace api ps tr ns e -> ns `sublist_of` ps.
Proof.
  intros Hps Htr. revert Hps.
  induction Htr as [|p ps evs ns0 tr ns' e Ho Htr IH|p ps evs ns0 e Ho]; intros Hps.
  - constructor.
  - apply Forall_cons_1 in Hps as [Hp Hps]. specialize (IH Hps).
    pose proof (product_outcome_block api p evs ns0 None Hp Ho) as Hb.
    inversion Hb; subst; simpl; [by apply sublist_cons .. | by apply sublist_skip].
  - apply Forall_cons_1 in Hps as [Hp _].
    pose proof (product_outcome_block api p evs ns0 (Some e) Hp Ho) as Hb.
    inversion Hb; subst. apply sublist_nil_l.
Qed.

(** The product table has distinct names (as [create_product_features]
    produces it) that the CSV round trip keeps. *)
Hypothesis products_nodup : NoDup (map pf_urun df_products).
Hypothesis names_stable : Forall (fun p => csv_cell (PStr p) = PStr p) (map pf_urun df_products).

(** ** Outcomes of one product *)

Lemma product_outcome_skip api p :
  extract_product_comments df_reviews p 100 = [] ->
  product_outcome api p = ([EvNoComments p], [], None).
Proof.
  intros Hc. unfold product_outcome, process_product. rewrite Hc. reflexivity.
Qed.

Lemma product_outcome_no_answer api p :
  extract_product_comments df_reviews p 100 <> [] ->
  call_llm_api api (create_llm_prompt (extract_product_comments df_reviews p 100)) = None ->
  product_outcome api p = ([EvLlmCall p; EvSleep], [], None).
Proof.
  intros Hc Hcall. unfold product_outcome, process_product.
  rewrite bool_decide_eq_false_2 by (by rewrite length_zero_iff_nil). by rewrite Hcall.
Qed.

Lemma carries_nonempty d s : carries d s -> d <> ∅.
Proof. intros (H1 & _) ->. by rewrite lookup_empty in H1. Qed.

(** An answer that carries a summary is saved. *)
Lemma product_outcome_saved api (pr : ProductFeatures) d s :
  pr ∈ df_products -> csv_cell (PStr (pf_urun pr)) = PStr (pf_urun pr) ->
  extract_product_comments df_reviews (pf_urun pr) 100 <> [] ->
  call_llm_api api (create_llm_prompt (extract_product_comments df_reviews (pf_urun pr) 100))
    = Some (JDict d) ->
  carries d s ->
  product_outcome api (pf_urun pr) =
    ([EvLlmCall (pf_urun pr); EvSaved (pf_urun pr); EvSleep], [pf_urun pr], None).
Proof.
  intros Hpr Hst Hc Hcall Hs. unfold product_outcome, process_product.
  rewrite bool_decide_eq_false_2 by (by rewrite length_zero_iff_nil). rewrite Hcall.
  simpl. rewrite bool_decide_eq_true_2 by (by apply carries_nonempty with s).
  unfold save_single_result.
  rewrite (calculate_risk_class_refines _ pr _ s); [| done | done | | ].
  - simpl. cbn [file_names omap list_omap fr_rows row_frame]. by rewrite row_name_result.
  - by simplify_map_eq.
  - apply carries_insert_other; [vm_compute; set_solver |].
    apply carries_insert_other; [vm_compute; set_solver | done].
Qed.

(** ** Traces *)

(** The events of a run, product by product, in worklist order. *)
Inductive trace_shape : list string -> list Event -> option exc -> Prop :=
  | ts_nil : trace_shape [] [] None
  | ts_cons p ps evs ns tr e :
      block p evs ns None -> trace_shape ps tr e -> trace_shape (p :: ps) (evs ++ tr) e
  | ts_stop p ps e : trace_shape (p :: ps) [EvLlmCall p] (Some e).

(** The products whose rows were saved, in order. *)
Definition saved_names (evs : list Event) : list string :=
  omap (fun ev => match ev with EvSaved p => Some p | _ => None end) evs.

Lemma block_saved_names p evs ns e : block p evs ns e -> saved_names evs = ns.
Proof. by inversion 1. Qed.

Lemma run_trace_shape api ps tr ns e :
  Forall (fun p => csv_cell (PStr p) = PStr p) ps ->
  run_trace api ps tr ns e -> trace_shape ps tr e /\ saved_names tr = ns.
Proof.
  intros Hps Htr. revert Hps.
  induction Htr as [|p ps evs ns0 tr ns' e Ho Htr IH|p ps evs ns0 e Ho]; intros Hps.
  - split; [constructor | done].
  - apply Forall_cons_1 in Hps as [Hp Hps]. destruct (IH Hps) as [Hsh Hsv].
    pose proof (product_outcome_block api p evs ns0 None Hp Ho) as Hb.
    split; [by eapply ts_cons |].
    unfold saved_names in *. rewrite omap_app, Hsv. f_equal. by eapply block_saved_names.
  - apply Forall_cons_1 in Hps as [Hp _].
    pose proof (product_outcome_block api p evs ns0 (Some e) Hp Ho) as Hb.
    inversion Hb; subst. split; [constructor | done].
Qed.

(** A run that did not raise went through its whole worklist. *)
Lemma run_trace_complete api ps tr ns e q :
  run_trace api ps tr ns e -> e = None -> q ∈ ps ->
  exists evs nsq, product_outcome api q = (evs, nsq, None) /\ forall x, x ∈ nsq -> x ∈ ns.
Proof.
  induction 1 as [|p ps evs ns0 tr ns' e Ho Htr IH|]; intros He Hq.
  - by apply not_elem_of_nil in Hq.
  - apply elem_of_cons in Hq as [-> | Hq].
    + exists evs, ns0. split; [done |]. intros x Hx. apply elem_of_app. by left.
    + destruct (IH He Hq) as (evs' & nsq & Ho' & Hsub). exists evs', nsq.
      split; [done |]. intros x Hx. apply elem_of_app. right. auto.
  - discriminate.
Qed.

Lemma run_trace_no_raise api ps tr ns e :
  run_trace api ps tr ns e ->
  (forall q, q ∈ ps -> exists evs nsq, product_outcome api q = (evs, nsq, None)) -> e = None.
Proof.
  induction 1 as [|p ps evs ns0 tr ns' e Ho Htr IH|p ps evs ns0 e Ho]; intros Hall; [done | |].
  - apply IH. intros q Hq. apply Hall. by apply list_elem_of_further.
  - destruct (Hall p (list_elem_of_here _ _)) as (evs' & nsq & Ho'). congruence.
Qed.

(** ** A run *)


Lemma worklist_sublist processed m :
  products_to_process processed m `sublist_of`
    filter (fun p => py_not_in processed p = true) (map pf_urun df_products).
Proof.
  unfold products_to_process. destruct m as [n|]; [| done].
  case_bool_decide; [apply py_head_sublist_of | done].
Qed.

Lemma worklist_stable processed m :
  Forall (fun p => csv_cell (PStr p) = PStr p) (products_to_process processed m).
Proof.
  eapply Forall_sublist_of; [apply worklist_sublist |].
  eapply Forall_sublist_of; [apply sublist_filter | apply names_stable].
Qed.

Lemma worklist_nodup processed m : NoDup (products_to_process processed m).
Proof.
  eapply sublist_NoDup; [| apply worklist_sublist]. by apply NoDup_filter.
Qed.

Lemma worklist_fresh processed m p :
  p ∈ products_to_process processed m -> p ∉ processed.
Proof.
  intros Hp. eapply elem_of_sublist_of in Hp; [| apply worklist_sublist].
  apply list_elem_of_filter in Hp as [Hp _]. by apply py_not_in_spec.
Qed.

Lemma worklist_all_processed processed m :
  Forall (fun p => p ∈ processed) (map pf_urun df_products) ->
  products_to_process processed m = [].
Proof.
  intros Hall.
  assert (Hf : filter (fun p => py_not_in processed p = true) (map pf_urun df_products) = []).
  { apply filter_none. intros y Hy. rewrite py_not_in_spec. rewrite Forall_forall in Hall.
    intros Hn. apply Hn, Hall, Hy. }
  unfold products_to_process. rewrite Hf. destruct m as [n|]; [| done].
  case_bool_decide; [| done]. unfold py_head. by case_match; rewrite take_nil.
Qed.

Lemma worklist_none_elem processed p :
  p ∈ map pf_urun df_products -> p ∉ processed -> p ∈ products_to_process processed None.
Proof.
  intros Hp Hn. unfold products_to_process. apply list_elem_of_filter.
  split; [by apply py_not_in_spec | done].
Qed.

Lemma product_name_stable (pr : ProductFeatures) :
  pr ∈ df_products -> csv_cell (PStr (pf_urun pr)) = PStr (pf_urun pr).
Proof.
  intros Hpr. pose proof names_stable as Hs. rewrite Forall_forall in Hs.
  by apply Hs, elem_of_map_2.
Qed.

(** The state of a process right after [__init__]. *)
Definition init_state (f : option frame) : RunnerState :=
  {| processed_products := list_to_set (file_names f); output_file := f; events := [] |}.

Lemma run_trace_of_run api m f st e :
  columns_ok f -> run api m f = (st, e) ->
  exists tr ns, run_trace api (products_to_process (list_to_set (file_names f)) m) tr ns e
                /\ advance (init_state f) st tr ns.
Proof.
  intros Hc Hrun. unfold run in Hrun.
  assert (Hl : load_processed_products f = Ok (list_to_set (file_names f))).
  { destruct f as [fr|]; simpl; [by rewrite bool_decide_eq_true_2 | done]. }
  rewrite Hl in Hrun. unfold process_all_products in Hrun. cbn [processed_products] in Hrun.
  case_bool_decide as Hlen.
  - injection Hrun as <- <-. apply nil_length_inv in Hlen. rewrite Hlen.
    exists [], []. split; [constructor | apply advance_refl].
  - eapply process_loop_trace; [apply worklist_stable | exact Hrun].
Qed.

Lemma run_file_ok api m f st e : file_ok f -> run api m f = (st, e) -> file_ok (output_file st).
Proof.
  intros [Hc Hnd] Hrun.
  destruct (run_trace_of_run api m f st e Hc Hrun) as (tr & ns & Htr & (_ & Hn & _ & Hcol)).
  split; [by apply Hcol |]. cbn [init_state output_file] in Hn. rewrite Hn.
  apply NoDup_app. split; [done | split].
  - intros x Hx Hxn. destruct (run_trace_names _ _ _ _ _ x (worklist_stable _ _) Htr Hxn) as [Hxp _].
    apply worklist_fresh in Hxp. apply Hxp. by apply elem_of_list_to_set.
  - eapply sublist_NoDup; [apply worklist_nodup |].
    eapply run_trace_sublist; [apply worklist_stable | exact Htr].
Qed.

(** Executions of the script one after the other, each with its own
    language-model behaviour and [max_products]; only the file carries
    over from one to the next. *)
Fixpoint run_sequence (runs : list (LlmService * option Z)) (f : option frame) : option frame :=
  match runs with
  | [] => f
  | (api, m) :: rest => run_sequence rest (output_file (run api m f).1)
  end.

(** C4: whatever the language model answers and wherever a run stops on
    an exception, repeated runs never write two rows for one product:
    the checkpoint file keeps at most one row per product name. *)
Theorem checkpoint_one_row_per_product (runs : list (LlmService * option Z))
    (f : option frame) :
  file_ok f -> file_ok (run_sequence runs f).
Proof.
  revert f. induction runs as [|[api m] runs IH]; intros f Hf; [done |].
  simpl. apply IH. destruct (run api m f) as [st e] eqn:Hrun. by eapply run_file_ok.
Qed.


(** C6: write before advance. The events of a run are, for each product
    of its worklist in order, a warning (no reviews), or a call followed
    by a sleep (no usable answer), or a call, the save of that product and
    a sleep; a run that raises stops right after the call of the product
    it raised on. Whether or not it raised, the file then holds the rows
    it had followed by one row per save, in order: a crash loses at most
    the product in flight. *)
Theorem run_write_before_advance (api : LlmService) (m : option Z) (f : option frame)
    (st : RunnerState) (e : option exc) :
  file_ok f -> run api m f = (st, e) ->
  trace_shape (products_to_process (list_to_set (file_names f)) m) (events st) e /\
  file_names (output_file st) = file_names f ++ saved_names (events st).
Proof.
  intros [Hc _] Hrun.
  destruct (run_trace_of_run api m f st e Hc Hrun) as (tr & ns & Htr & (He & Hn & _)).
  destruct (run_trace_shape _ _ _ _ _ (worklist_stable _ _) Htr) as [Hsh Hsv].
  cbn [init_state events output_file] in He, Hn. rewrite He. split; [done |].
  rewrite Hn. simpl. by rewrite Hsv.
Qed.

(** C7: a run on a file that already has a row for every product of the
    table calls nothing and changes nothing: it ends in the state
    [__init__] built, without an exception. *)
Theorem rerun_after_completion_is_noop (api : LlmService) (m : option Z) (f : option frame) :
  file_ok f -> Forall (fun p => p ∈ file_names f) (map pf_urun df_products) ->
  run api m f = (init_state f, None).
Proof.
  intros [Hc _] Hall. unfold run.
  assert (Hl : load_processed_products f = Ok (list_to_set (file_names f))).
  { destruct f as [fr|]; simpl; [by rewrite bool_decide_eq_true_2 | done]. }
  rewrite Hl. unfold process_all_products. cbn [processed_products].
  rewrite worklist_all_processed; [done |].
  eapply Forall_impl; [exact Hall |]. intros p Hp. by apply elem_of_list_to_set.
Qed.

(** C8: a product whose call failed in an earlier run (it has no row)
    and whose answer in this run carries a summary ends with exactly one
    row once this run completes: a retry never duplicates. *)
Theorem retry_gives_exactly_one_row (api : LlmService) (f : option frame) (st : RunnerState)
    (pr : ProductFeatures) (d : gmap string PyVal) (s : Sentiment) :
  file_ok f -> pr ∈ df_products -> pf_urun pr ∉ file_names f ->
  extract_product_comments df_reviews (pf_urun pr) 100 <> [] ->
  call_llm_api api (create_llm_prompt (extract_product_comments df_reviews (pf_urun pr) 100))
    = Some (JDict d) ->
  carries d s -> run api None f = (st, None) ->
  exists l1 l2, file_names (output_file st) = l1 ++ pf_urun pr :: l2 /\ pf_urun pr ∉ l1 ++ l2.
Proof.
  intros Hf Hpr Hnot Hc Hcall Hs Hrun.
  pose proof (run_file_ok _ _ _ _ _ Hf Hrun) as [_ Hnd]. destruct Hf as [Hcol _].
  destruct (run_trace_of_run _ _ _ _ _ Hcol Hrun) as (tr & ns & Htr & (_ & Hn & _)).
  assert (Hin : pf_urun pr ∈ products_to_process (list_to_set (file_names f)) None).
  { apply worklist_none_elem; [by apply elem_of_map_2 | by rewrite elem_of_list_to_set]. }
  destruct (run_trace_complete _ _ _ _ _ _ Htr eq_refl Hin) as (evs & nsq & Ho & Hsub).
  rewrite (product_outcome_saved api pr d s Hpr (product_name_stable pr Hpr) Hc Hcall Hs) in Ho.
  injection Ho as <- <-.
  assert (Hp : pf_urun pr ∈ file_names (output_file st)).
  { cbn [init_state output_file] in Hn. rewrite Hn. apply elem_of_app. right.
    apply Hsub, list_elem_of_here. }
  apply list_elem_of_split in Hp as (l1 & l2 & Heq). exists l1, l2.
  split; [done |]. rewrite Heq in Hnd. by apply NoDup_middle_not_in.
Qed.

(** C9: a product whose call fails (the client raised or the answer did
    not parse) gets no row and is in the worklist of the next run. *)
Theorem failed_call_not_checkpointed (api : LlmService) (m : option Z) (f : option frame)
    (st : RunnerState) (e : option exc) (p : string) :
  file_ok f -> p ∉ file_names f -> p ∈ map pf_urun df_products ->
  call_llm_api api (create_llm_prompt (extract_product_comments df_reviews p 100)) = None ->
  run api m f = (st, e) ->
  (p ∉ file_names (output_file st)) /\
  p ∈ products_to_process (list_to_set (file_names (output_file st))) None.
Proof.
  intros [Hcol _] Hnot Hp Hcall Hrun.
  destruct (run_trace_of_run _ _ _ _ _ Hcol Hrun) as (tr & ns & Htr & (_ & Hn & _)).
  assert (Hnp : p ∉ file_names (output_file st)).
  { cbn [init_state output_file] in Hn. rewrite Hn, elem_of_app. intros [H1 | H2]; [done |].
    destruct (run_trace_names _ _ _ _ _ p (worklist_stable _ _) Htr H2) as [_ (evs & Ho)].
    destruct (decide (extract_product_comments df_reviews p 100 = [])) as [Hc | Hc].
    - rewrite product_outcome_skip in Ho by done. discriminate.
    - rewrite product_outcome_no_answer in Ho by done. discriminate. }
  split; [done |]. apply worklist_none_elem; [done | by rewrite elem_of_list_to_set].
Qed.

(** C10: when the language model answers every product that has reviews
    with a summary, one run completes without an exception and leaves a
    row for exactly the products that had one before or have reviews. *)
Theorem run_checkpoints_every_reviewed_product (api : LlmService) (f : option frame)
    (st : RunnerState) (e : option exc) :
  file_ok f ->
  (forall pr, pr ∈ df_products -> extract_product_comments df_reviews (pf_urun pr) 100 <> [] ->
     exists d s, call_llm_api api
                   (create_llm_prompt (extract_product_comments df_reviews (pf_urun pr) 100))
                 = Some (JDict d) /\ carries d s) ->
  run api None f = (st, e) ->
  e = None /\
  forall pr, pr ∈ df_products ->
    (pf_urun pr ∈ file_names (output_file st) <->
     pf_urun pr ∈ file_names f \/ extract_product_comments df_reviews (pf_urun pr) 100 <> []).
Proof.
  intros [Hcol _] Hans Hrun.
  destruct (run_trace_of_run _ _ _ _ _ Hcol Hrun) as (tr & ns & Htr & (_ & Hn & _)).
  cbn [init_state output_file] in Hn.
  assert (Hout : forall pr, pr ∈ df_products ->
            exists evs nsq, product_outcome api (pf_urun pr) = (evs, nsq, None) /\
            (nsq = [pf_urun pr] <-> extract_product_comments df_reviews (pf_urun pr) 100 <> [])).
  { intros pr Hpr. destruct (decide (extract_product_comments df_reviews (pf_urun pr) 100 = []))
      as [Hc | Hc].
    - rewrite product_outcome_skip by done. do 2 eexists. split; [done |]. naive_solver.
    - destruct (Hans pr Hpr Hc) as (d & s & Hcall & Hs).
      rewrite (product_outcome_saved api pr d s Hpr (product_name_stable pr Hpr) Hc Hcall Hs).
      do 2 eexists. split; [done |]. naive_solver. }
  assert (He : e = None).
  { eapply run_trace_no_raise; [exact Htr |]. intros q Hq.
    eapply elem_of_sublist_of in Hq; [| apply worklist_sublist].
    apply list_elem_of_filter in Hq as [_ Hq]. apply elem_of_map_inv in Hq as (pr & -> & Hpr).
    destruct (Hout pr Hpr) as (evs & nsq & Ho & _). eauto. }
  split; [done |]. intros pr Hpr. destruct (Hout pr Hpr) as (evs & nsq & Ho & Hiff).
  rewrite Hn, elem_of_app. split.
  - intros [H1 | H2]; [by left | right].
    destruct (run_trace_names _ _ _ _ _ _ (worklist_stable _ _) Htr H2) as [_ (evs' & Ho')].
    apply Hiff. congruence.
  - intros [H1 | H2]; [by left |].
    destruct (decide (pf_urun pr ∈ file_names f)) as [Hin | Hnin]; [by left | right].
    assert (Hw : pf_urun pr ∈ products_to_process (list_to_set (file_names f)) None).
    { apply worklist_none_elem; [by apply elem_of_map_2 | by rewrite elem_of_list_to_set]. }
    destruct (run_trace_complete _ _ _ _ _ _ Htr He Hw) as (evs' & nsq' & Ho' & Hsub).
    rewrite Ho in Ho'. injection Ho' as <- <-. apply Hsub.
    rewrite (proj2 Hiff H2). apply list_elem_of_here.
Qed.

(** C37: an answer that parses to a non-empty JSON list (or to a truthy
    string or number) is not a dict: [llm_result['Ürün'] = ...] raises
    [TypeError], which nothing catches, so the product gets no row and the
    whole run stops there. *)
Theorem non_dict_answer_aborts (api : LlmService) (st : RunnerState) (p : string) (j : JsonTop) :
  extract_product_comments df_reviews p 100 <> [] ->
  call_llm_api api (create_llm_prompt (extract_product_comments df_reviews p 100)) = Some j ->
  json_truthy j = true -> (forall d, j <> JDict d) ->
  process_product api st p = (log st [EvLlmCall p], Some TypeError).
Proof.
  intros Hc Hcall Ht Hnd. unfold process_product.
  rewrite bool_decide_eq_false_2 by (by rewrite length_zero_iff_nil).
  rewrite Hcall, Ht. destruct j as [d| |]; [by destruct (Hnd d) | done | done].
Qed.

(** With [max_products = n] the worklist is the first [n] products
    not yet processed when [n > 0], all of them when [n = 0] (0 is falsy),
    and all but the last [-n] when [n < 0] (Python's slice). *)
Theorem worklist_max_products (processed : gset string) (n : Z) :
  let todo := filter (fun p => py_not_in processed p = true) (map pf_urun df_products) in
  products_to_process processed (Some n) =
    if (0 <? n)%Z then take (Z.to_nat n) todo
    else if (n =? 0)%Z then todo
    else take (length todo - Z.to_nat (- n)) todo.
Proof.
  intros todo. unfold products_to_process. fold todo.
  destruct (Z.ltb_spec 0 n), (Z.eqb_spec n 0); try lia.
  - rewrite bool_decide_eq_true_2 by lia. apply py_head_nonneg. lia.
  - subst n. by rewrite bool_decide_eq_false_2 by lia.
  - rewrite bool_decide_eq_true_2 by lia. apply py_head_neg. lia.
Qed.

End Runner.

(** ** A concrete pipeline for the witnesses *)

Definition demo_review (p y : string) (day : Z) : Review :=
  {| rv_marka := PStr "marka"; rv_urun := Some p; rv_genel_puan := PInt 4;
     rv_puan := Some 4%Z; rv_yorum := Some y; rv_date := day |}.

Definition demo_reviews : list Review :=
  [demo_review "kazak" "harika" 3; demo_review "kazak" "HATA" 5;
   demo_review "bluz" "dar" 1].

Definition demo_product (p : string) : ProductFeatures :=
  {| pf_urun := p; pf_marka := PStr "marka"; pf_genel_puan := PInt 4; pf_toplam := 6;
     pf_std_sq := None; pf_min := Some 4%Z; pf_max := Some 4%Z; pf_oran5 := 0;
     pf_oran4 := 1; pf_oran3 := 0; pf_oran2 := 0; pf_oran1 := 0; pf_negatif := 0;
     pf_pozitif := 1; pf_hiz := 1 |}.

Definition demo_products : list ProductFeatures :=
  [demo_product "kazak"; demo_product "bluz"; demo_product "etek"].

Definition demo_sentiment : Sentiment :=
  {| s_fitment_problem := true; s_fitment_severity := 8; s_quality_sentiment := 3;
     s_delivery_issue := false; s_color_mismatch := false; s_main_complaint := "dar";
     s_fabric_quality_issue := false; s_price_value_perception := 3 |}.

(** [json.loads] on the two texts the demo model produces. *)
Definition demo_json (t : string) : option JsonTop :=
  if bool_decide (t = "{ok}") then Some (JDict (sentiment_dict demo_sentiment)) else None.

(** A model that answers with a fenced JSON block. *)
Definition demo_api : LlmService := {| messages_create := fun _ => Some "```json {ok} ```" |}.

(** A model whose client raises on the prompt of "bluz". *)
Definition demo_api_flaky : LlmService :=
  {| messages_create := fun prompt =>
       if bool_decide (prompt = create_llm_prompt [Some "dar"]) then None else Some "{ok}" |}.

Definition demo_run (api : LlmService) (m : option Z) (f : option frame) :=
  run demo_json demo_reviews demo_products api m f.


Example checkpoint_one_row_per_product_witness :
  file_ok (run_sequence demo_json demo_reviews demo_products
             [(demo_api_flaky, None); (demo_api, Some 0%Z); (demo_api, Some 1%Z)] None).
Proof.
  apply checkpoint_one_row_per_product; [decide_prop | decide_prop | split; [done | constructor]].
Defined.

Example run_write_before_advance_witness :
  trace_shape (products_to_process demo_products (list_to_set (file_names None)) None)
    (events (demo_run demo_api_flaky None None).1) (demo_run demo_api_flaky None None).2 /\
  file_names (output_file (demo_run demo_api_flaky None None).1)
  = file_names None ++ saved_names (events (demo_run demo_api_flaky None None).1).
Proof.
  refine (run_write_before_advance demo_json demo_reviews demo_products _
            demo_api_flaky None None _ _ _ _);
    first [decide_prop | split; [done | constructor] | vm_compute; reflexivity].
Defined.

(** The products that have reviews. *)
Definition demo_reviewed : list ProductFeatures := [demo_product "kazak"; demo_product "bluz"].

Example rerun_after_completion_is_noop_witness :
  let f := output_file (run demo_json demo_reviews demo_reviewed demo_api None None).1 in
  run demo_json demo_reviews demo_reviewed demo_api_flaky (Some 2%Z) f = (init_state f, None).
Proof.
  apply rerun_after_completion_is_noop; decide_prop.
Defined.

(** The first run: the client raises on the prompt of "bluz". *)
Definition demo_file1 : option frame := output_file (demo_run demo_api_flaky None None).1.

Example retry_gives_exactly_one_row_witness :
  exists l1 l2,
    file_names (output_file (demo_run demo_api None demo_file1).1) = l1 ++ "bluz" :: l2 /\
    "bluz" ∉ l1 ++ l2.
Proof.
  refine (retry_gives_exactly_one_row demo_json demo_reviews demo_products _ _ demo_api
            demo_file1 _ (demo_product "bluz") (sentiment_dict demo_sentiment) demo_sentiment
            _ _ _ _ _ _ _).
  - decide_prop.
  - decide_prop.
  - decide_prop.
  - apply list_elem_of_further, list_elem_of_here.
  - decide_prop.
  - vm_compute. discriminate.
  - vm_compute. reflexivity.
  - apply sentiment_dict_carries.
  - vm_compute. reflexivity.
Defined.

Example failed_call_not_checkpointed_witness :
  ("bluz" ∉ file_names demo_file1) /\
  "bluz" ∈ products_to_process demo_products (list_to_set (file_names demo_file1)) None.
Proof.
  refine (failed_call_not_checkpointed demo_json demo_reviews demo_products _
            demo_api_flaky None None _ _ "bluz" _ _ _ _ _).
  - decide_prop.
  - decide_prop.
  - decide_prop.
  - decide_prop.
  - vm_compute. reflexivity.
  - vm_compute. reflexivity.
Defined.

Example run_checkpoints_every_reviewed_product_witness :
  (demo_run demo_api None None).2 = None /\
  forall pr, pr ∈ demo_products ->
    (pf_urun pr ∈ file_names (output_file (demo_run demo_api None None).1) <->
     pf_urun pr ∈ file_names None \/ extract_product_comments demo_reviews (pf_urun pr) 100 <> []).
Proof.
  refine (run_checkpoints_every_reviewed_product demo_json demo_reviews demo_products _ _
            demo_api None _ _ _ _ _).
  - decide_prop.
  - decide_prop.
  - decide_prop.
  - intros pr Hpr _. exists (sentiment_dict demo_sentiment), demo_sentiment.
    split; [| apply sentiment_dict_carries].
    repeat (apply elem_of_cons in Hpr as [-> | Hpr]; [vm_compute; reflexivity |]).
    by apply not_elem_of_nil in Hpr.
  - vm_compute. reflexivity.
Defined.

(** The sample size saved with an answer counts the reviews the
    prompt left out: "kazak" has two reviews, one of them the placeholder
    'HATA', so the model sees one review line while the saved row says
    'Yorum_Sayisi' 2. *)
Theorem sample_size_counts_placeholders :
  comments_text (extract_product_comments demo_reviews "kazak" 100) = "- harika" /\
  option_map (fun fr => map (fun row => dict_get row "Yorum_Sayisi" PNaN) (fr_rows fr))
    (output_file (demo_run demo_api None None).1) = Some [PInt 2; PInt 1].
Proof. split; vm_compute; reflexivity. Qed.

Example non_dict_answer_aborts_witness :
  process_product (fun _ => Some (JList 1)) demo_reviews demo_products demo_api
    (init_state None) "kazak" = (log (init_state None) [EvLlmCall "kazak"], Some TypeError).
Proof.
  apply (non_dict_answer_aborts _ _ _ demo_api (init_state None) "kazak" (JList 1)).
  - vm_compute. discriminate.
  - reflexivity.
  - reflexivity.
  - discriminate.
Defined.

End BatchRunner.
