(* ===== verification/ReportMerge.v ===== *)
(** * The final report: merge and batch labelling

    [src/scripts/llm_extraction.py], [merge_with_product_features]
    (lines 317-335), [create_risk_class] (lines 337-392) and
    [finalize_and_save] (lines 394-419): the product table written by
    [src/scripts/base_metrics.py] ([create_product_features], lines 64-92)
    is read back, left-merged on 'Ürün' with the checkpoint file, and every
    row of the merged table is labelled by the batch classifier
    [classify_product]. A frame is the record [frame] of [PyValue]; pandas'
    suffixes [_x]/[_y] for columns both tables hold are modelled, as is the
    NaN a left row without a partner holds in the right table's columns. *)

From S2P Require Import Prelude PyValue BaseMetrics RiskClassifier BatchRunner.
Import BaseMetrics RiskClassifier BatchRunner.

Module ReportMerge.

(** ** The product table as a frame *)

(** The keys of the [stats] dict, in the order of lines 65-87. *)
Definition product_columns : list string :=
  ["Ürün"; "Marka"; "Genel_Puan"; "Toplam_Yorum_Sayisi"; "Puan_Standart_Sapma";
   "Min_Puan"; "Max_Puan"; "Puan_5_Oran"; "Puan_4_Oran"; "Puan_3_Oran";
   "Puan_2_Oran"; "Puan_1_Oran"; "Negatif_Yorum_Oran"; "Pozitif_Yorum_Oran";
   "Yorum_Hizi"].

(** A missing minimum or maximum is NaN. *)
Definition opt_cell (o : option Z) : PyVal :=
  match o with Some z => PInt z | None => PNaN end.

Section Report.
Context `{CsvCodec}.
(** [np.sqrt] on floats: the standard deviation is the square root of the
    sample variance the feature row holds. *)
Variable py_sqrt : Q -> Q.

Definition std_cell (o : option Q) : PyVal :=
  match o with Some v => PNum (py_sqrt v) | None => PNaN end.

(** The values of the [stats] dict of a product, in column order. *)
Definition product_values (p : ProductFeatures) : list PyVal :=
  [PStr (pf_urun p); pf_marka p; pf_genel_puan p; PInt (pf_toplam p);
   std_cell (pf_std_sq p); opt_cell (pf_min p); opt_cell (pf_max p);
   PNum (pf_oran5 p); PNum (pf_oran4 p); PNum (pf_oran3 p); PNum (pf_oran2 p);
   PNum (pf_oran1 p); PNum (pf_negatif p); PNum (pf_pozitif p); PNum (pf_hiz p)].

(** One row of [pd.DataFrame(product_stats)] (line 92). *)
Definition product_row (p : ProductFeatures) : gmap string PyVal :=
  list_to_map (zip product_columns (product_values p)).

(** base_metrics.csv as [save_processed_data] writes it (line 104). *)
Definition base_metrics_frame (P : list ProductFeatures) : frame :=
  {| fr_columns := product_columns; fr_rows := map product_row P |}.

(** ** [pd.merge(left, right, on=key, how='left')] *)

(** Key equality of a merge: NaN keys match each other. *)
Definition merge_key_eq (a b : PyVal) : bool :=
  match a, b with PNaN, PNaN => true | _, _ => py_eq a b end.

(** A column both tables hold, other than the key, is suffixed. *)
Definition overlap (on : string) (L R : frame) (k : string) : bool :=
  bool_decide (k <> on /\ k ∈ fr_columns L /\ k ∈ fr_columns R).

Definition suffixed (on : string) (L R : frame) (sfx k : string) : string :=
  if overlap on L R k then (k +:+ sfx)%string else k.

Definition rename_row (f : string -> string) (row : gmap string PyVal)
    : gmap string PyVal :=
  list_to_map ((fun kv => (f kv.1, kv.2)) <$> map_to_list row).

(** The rows of the right table whose key matches [key], in their order. *)
Definition merge_matches (on : string) (R : frame) (key : PyVal)
    : list (gmap string PyVal) :=
  filter (fun r => merge_key_eq key (dict_get r on PNaN) = true) (fr_rows R).

(** The rows a left row becomes: one per partner, or itself alone. *)
Definition merge_one (on : string) (L R : frame) (l : gmap string PyVal)
    : list (gmap string PyVal) :=
  let fl := suffixed on L R "_x" in
  let fr := suffixed on L R "_y" in
  match merge_matches on R (dict_get l on PNaN) with
  | [] => [rename_row fl l]
  | ms => map (fun r => rename_row fl l ∪ rename_row fr (delete on r)) ms
  end.

Definition merge_left (on : string) (L R : frame) : pyres frame :=
  if bool_decide (on ∈ fr_columns L /\ on ∈ fr_columns R) then
    Ok {| fr_columns := map (suffixed on L R "_x") (fr_columns L)
                        ++ map (suffixed on L R "_y") (filter (fun c => c <> on) (fr_columns R));
          fr_rows := concat (map (merge_one on L R) (fr_rows L)) |}
  else Raise KeyError.

(** [merge_with_product_features] (lines 317-335): [None] when the
    checkpoint file does not exist. *)
Definition merge_with_product_features (df_products : frame) (output : option frame)
    : option (pyres frame) :=
  match output with
  | None => None
  | Some f => Some (merge_left "Ürün" df_products (csv_read f))
  end.

(** ** [create_risk_class] (lines 337-392) *)

(** [df[c] = ...]: a new column goes last. *)
Definition add_column (c : string) (cols : list string) : list string :=
  if bool_decide (c ∈ cols) then cols else cols ++ [c].

Definition set_label (row : gmap string PyVal) (rc : Z * Z) : gmap string PyVal :=
  <["Risk_Score" := PInt rc.2]> (<["Risk_Class" := PInt rc.1]> row).

(** [df.apply(classify_product, axis=1)], the two column assignments, and
    the distribution printout, whose percentages divide by [len(df)]
    (line 382): an empty table raises there. *)
Definition create_risk_class (df : frame) : pyres frame :=
  results <- py_mapM (classify_product (fr_columns df)) (fr_rows df) ;;
  if bool_decide (length (fr_rows df) = 0) then Raise ZeroDivisionError
  else Ok {| fr_columns := add_column "Risk_Score" (add_column "Risk_Class" (fr_columns df));
             fr_rows := zip_with set_label (fr_rows df) results |}.

(** [finalize_and_save] (lines 394-419): the returned table ([None] when
    nothing was ever checkpointed). *)
Definition finalize_and_save (df_products : frame) (output : option frame)
    : pyres (option frame) :=
  match merge_with_product_features df_products output with
  | None => Ok None
  | Some m => df <- m ;; df' <- create_risk_class df ;; Ok (Some df')
  end.

(** ** Lemmas on the merge *)

(** The checkpoint columns do not clash with the product table's, except
    for the key: what the saved answers hold when the language model
    answers with the requested keys. *)
Definition columns_disjoint (F : frame) : Prop :=
  Forall (fun k => k = "Ürün" \/ k ∉ fr_columns F) product_columns.

#[export] Instance columns_disjoint_dec F : Decision (columns_disjoint F).
Proof. unfold columns_disjoint. apply _. Defined.

Lemma urun_product_column : "Ürün" ∈ product_columns.
Proof. apply list_elem_of_here. Qed.

Lemma product_row_lookup_none p k : k ∉ product_columns -> product_row p !! k = None.
Proof.
  intros Hk. apply not_elem_of_list_to_map_1. by rewrite fst_zip.
Qed.

Lemma product_row_urun p : product_row p !! "Ürün" = Some (PStr (pf_urun p)).
Proof. reflexivity. Qed.

Lemma product_row_toplam p : product_row p !! "Toplam_Yorum_Sayisi" = Some (PInt (pf_toplam p)).
Proof. reflexivity. Qed.

Lemma rename_row_id (f : string -> string) row : (forall k, f k = k) -> rename_row f row = row.
Proof.
  intros Hf. unfold rename_row.
  rewrite (list_fmap_ext _ id); [by rewrite list_fmap_id, list_to_map_to_list |].
  intros _ [k v] _. simpl. by rewrite Hf.
Qed.

Lemma suffixed_id L F sfx k :
  fr_columns L = product_columns -> columns_disjoint F ->
  suffixed "Ürün" L (csv_read F) sfx k = k.
Proof.
  intros HL HF. unfold suffixed, overlap. rewrite HL. simpl.
  case_bool_decide as Ho; [| done]. destruct Ho as (Hne & Hin & HinF).
  eapply Forall_forall in HF as [Hk | Hk]; [| | exact Hin]; by exfalso.
Qed.

(** With disjoint columns a left row and its partner are joined as they
    are. *)
Lemma merge_one_disjoint L F l :
  fr_columns L = product_columns -> columns_disjoint F ->
  merge_one "Ürün" L (csv_read F) l =
    match merge_matches "Ürün" (csv_read F) (dict_get l "Ürün" PNaN) with
    | [] => [l]
    | ms => map (fun r => l ∪ delete "Ürün" r) ms
    end.
Proof.
  intros HL HF. unfold merge_one.
  rewrite !(rename_row_id (suffixed _ _ _ _)) by (intros; by apply suffixed_id).
  destruct (merge_matches _ _ _); [done |].
  apply map_ext. intros r. by rewrite rename_row_id by (intros; by apply suffixed_id).
Qed.

Lemma merge_key_eq_str s v : merge_key_eq (PStr s) v = bool_decide (v = PStr s).
Proof.
  destruct v; simpl; try done.
  unfold py_eq. case_bool_decide; case_bool_decide; congruence.
Qed.

(** A row read back from the file has the name [s] exactly when its
    name cell holds the string [s]. *)
Lemma row_name_csv_iff r0 s :
  row_name (csv_cell <$> r0) = Some s <-> dict_get (csv_cell <$> r0) "Ürün" PNaN = PStr s.
Proof.
  unfold row_name, dict_get. rewrite lookup_fmap.
  destruct (r0 !! "Ürün"); simpl; rewrite ?csv_cell_idem, ?csv_cell_nan;
    [destruct (csv_cell p) |]; split; congruence.
Qed.

(** The partners of a product in the file read back are its rows. *)
Lemma merge_matches_name F s :
  merge_matches "Ürün" (csv_read F) (PStr s) =
    filter (fun r => row_name r = Some s) (fr_rows (csv_read F)).
Proof.
  unfold merge_matches, csv_read. cbn [fr_rows].
  induction (fr_rows F) as [| r0 rs IH]; [done |].
  cbn [map]. rewrite !filter_cons, merge_key_eq_str, IH.
  pose proof (row_name_csv_iff r0 s).
  repeat case_decide; rewrite ?bool_decide_eq_true in *; naive_solver.
Qed.

(** The cells of the product side of a merged row. *)
Lemma merged_lookup_product p x k v :
  product_row p !! k = Some v -> ((csv_cell <$> product_row p) ∪ x) !! k = Some (csv_cell v).
Proof. intros Hk. apply lookup_union_Some_l. by rewrite lookup_fmap, Hk. Qed.

(** The cells of the answer side of a merged row. *)
Lemma merged_get_answer p r k dflt :
  k ∉ product_columns ->
  dict_get ((csv_cell <$> product_row p) ∪ delete "Ürün" r) k dflt = dict_get r k dflt.
Proof.
  intros Hk. unfold dict_get.
  rewrite lookup_union_r by (by rewrite lookup_fmap, product_row_lookup_none).
  rewrite lookup_delete_ne; [done |]. intros <-. exact (Hk urun_product_column).
Qed.

Lemma merged_row_name p x :
  csv_cell (PStr (pf_urun p)) = PStr (pf_urun p) ->
  row_name ((csv_cell <$> product_row p) ∪ x) = Some (pf_urun p).
Proof.
  intros Hs. unfold row_name, dict_get.
  rewrite (merged_lookup_product _ _ _ _ (product_row_urun p)), Hs. by rewrite Hs.
Qed.

(** A product row of the table read back becomes exactly one merged row:
    itself when the file has no row of the product, joined with that row
    otherwise (the file has at most one). *)
Lemma merge_one_product L F p :
  fr_columns L = product_columns -> columns_disjoint F -> NoDup (file_names (Some F)) ->
  csv_cell (PStr (pf_urun p)) = PStr (pf_urun p) ->
  let l := csv_cell <$> product_row p in
  let ms := filter (fun r => row_name r = Some (pf_urun p)) (fr_rows (csv_read F)) in
  (ms = [] /\ merge_one "Ürün" L (csv_read F) l = [l ∪ ∅]) \/
  (exists r, ms = [r] /\ merge_one "Ürün" L (csv_read F) l = [l ∪ delete "Ürün" r]).
Proof.
  intros HL HF Hnd Hs l ms. rewrite merge_one_disjoint by done.
  assert (Hk : dict_get l "Ürün" PNaN = PStr (pf_urun p)).
  { unfold dict_get, l. rewrite lookup_fmap, product_row_urun. exact Hs. }
  rewrite Hk, merge_matches_name, (right_id_L ∅ union).
  rewrite <- file_names_csv_read in Hnd.
  pose proof (NoDup_omap_filter_length row_name _ (pf_urun p) Hnd) as Hlen.
  fold ms in Hlen |- *.
  destruct ms as [| r [| r' ms']]; simpl in Hlen; [left | right | lia]; eauto.
Qed.

Lemma merge_product_table P F :
  file_ok (Some F) -> columns_disjoint F ->
  merge_with_product_features (csv_read (base_metrics_frame P)) (Some F) =
    Some (Ok {| fr_columns := product_columns ++ filter (fun c => c <> "Ürün") (fr_columns F);
                fr_rows := concat (map (merge_one "Ürün" (csv_read (base_metrics_frame P)) (csv_read F))
                                       (map (fmap csv_cell) (map product_row P))) |}).
Proof.
  intros [Hcol _] HF. unfold merge_with_product_features, merge_left.
  rewrite bool_decide_eq_true_2 by (split; [exact urun_product_column | exact Hcol]).
  do 3 f_equal.
  rewrite !(map_ext (suffixed "Ürün" _ _ _) id) by (intros; by apply suffixed_id).
  by rewrite !map_id.
Qed.

(** ** The merged table *)

(** The names of the merged rows: one per product, in table order. *)
Lemma merged_rows_names (P : list ProductFeatures) (F : frame) (L : frame) :
  Forall (fun n => csv_cell (PStr n) = PStr n) (map pf_urun P) ->
  NoDup (file_names (Some F)) -> columns_disjoint F -> fr_columns L = product_columns ->
  map row_name (concat (map (merge_one "Ürün" L (csv_read F)) (map (fmap csv_cell) (map product_row P)))) =
  map (fun p => Some (pf_urun p)) P.
Proof.
  intros Hst Hnd HF HL. induction P as [| p P IH]; [done |].
  simpl in Hst. apply Forall_cons in Hst as [Hp Hst].
  cbn [map concat]. rewrite map_app.
  destruct (merge_one_product L F p HL HF Hnd Hp) as [[_ ->] | (r & _ & ->)];
    simpl; rewrite merged_row_name, IH by done; done.
Qed.

(** C5: when the checkpoint file holds at most one row per product (what
    the runner guarantees) and its columns do not clash with the product
    table's, the merged table has exactly one row per product of the
    product table, in its order: no product is dropped or duplicated by
    [merge_with_product_features]. *)
Theorem final_table_one_row_per_product (P : list ProductFeatures) (F : frame) :
  Forall (fun n => csv_cell (PStr n) = PStr n) (map pf_urun P) ->
  file_ok (Some F) -> columns_disjoint F ->
  exists M, merge_with_product_features (csv_read (base_metrics_frame P)) (Some F) = Some (Ok M) /\
    map row_name (fr_rows M) = map (fun p => Some (pf_urun p)) P.
Proof.
  intros Hst Hok HF. eexists. split; [by apply merge_product_table |]. cbn [fr_rows].
  destruct Hok as [_ Hnd]. by apply merged_rows_names.
Qed.

(** ** The labelled table *)

Lemma set_label_name row rc : row_name (set_label row rc) = row_name row.
Proof. unfold row_name, dict_get, set_label. by rewrite !lookup_insert_ne by discriminate. Qed.

Lemma set_label_class row rc : set_label row rc !! "Risk_Class" = Some (PInt rc.1).
Proof. unfold set_label. rewrite lookup_insert_ne by discriminate. apply lookup_insert_eq. Qed.

Lemma set_label_score row rc : set_label row rc !! "Risk_Score" = Some (PInt rc.2).
Proof. apply lookup_insert_eq. Qed.

Lemma create_risk_class_rows df T :
  create_risk_class df = Ok T ->
  fr_rows df <> [] /\
  Forall2 (fun row row' => exists rc, classify_product (fr_columns df) row = Ok rc /\
                                      row' = set_label row rc)
    (fr_rows df) (fr_rows T).
Proof.
  unfold create_risk_class. intros HT. pyres_inv HT.
  case_bool_decide as E; [discriminate |]. injection Hk as <-. split.
  - intros Hn. apply E. by rewrite Hn.
  - cbn [fr_rows]. apply py_mapM_Forall2 in Hm. clear E.
    induction Hm; simpl; constructor; eauto.
Qed.

(** A cell of a saved answer, read back from the file. *)
Lemma csv_label_get d rc k :
  k <> "Risk_Score" -> k <> "Risk_Class" ->
  dict_get (csv_cell <$> set_label d rc) k PNaN = csv_cell (dict_get d k PNone).
Proof.
  intros H1 H2. unfold dict_get, set_label.
  rewrite lookup_fmap, !lookup_insert_ne by congruence.
  destruct (d !! k); simpl; [done | by rewrite csv_cell_none].
Qed.

Lemma csv_label_name d rc s :
  d !! "Ürün" = Some (PStr s) -> csv_cell (PStr s) = PStr s ->
  row_name (csv_cell <$> set_label d rc) = Some s.
Proof.
  intros Hd Hs. unfold row_name. rewrite csv_label_get by discriminate.
  unfold dict_get. rewrite Hd, !Hs. reflexivity.
Qed.

Lemma risk_key_not_product k : k ∈ risk_keys -> k ∉ product_columns.
Proof. intros Hk. unfold risk_keys in Hk. repeat (apply elem_of_cons in Hk as [-> | Hk]; [decide_prop |]). by apply not_elem_of_nil in Hk. Qed.

Lemma toplam_product_column : "Toplam_Yorum_Sayisi" ∈ product_columns.
Proof. decide_prop. Qed.

Lemma merged_toplam p x X :
  df_get (product_columns ++ X) ((csv_cell <$> product_row p) ∪ x) "Toplam_Yorum_Sayisi"
  = Ok (PInt (pf_toplam p)).
Proof.
  unfold df_get. rewrite bool_decide_eq_true_2 by (apply elem_of_app; left; exact toplam_product_column).
  unfold dict_get. rewrite (merged_lookup_product _ _ _ _ (product_row_toplam p)).
  unfold PInt. by rewrite csv_cell_num.
Qed.

Lemma risk_key_merged_column k F :
  k ∈ risk_keys -> k ∈ fr_columns F ->
  k ∈ product_columns ++ filter (fun c => c <> "Ürün") (fr_columns F).
Proof.
  intros Hk HkF. apply elem_of_app; right. apply list_elem_of_filter. split; [| done].
  intros ->. exact (risk_key_not_product _ Hk urun_product_column).
Qed.

(** The merged row of a product and its saved answer is read by the batch
    classifier as the answer itself. *)
Lemma merged_reads_back p d rc F :
  Forall (fun k => k ∈ fr_columns F) risk_keys ->
  reads_back (product_columns ++ filter (fun c => c <> "Ürün") (fr_columns F))
    ((csv_cell <$> product_row p) ∪ delete "Ürün" (csv_cell <$> set_label d rc)) (pf_toplam p) d.
Proof.
  intros Hcols. split; [apply merged_toplam |].
  apply Forall_forall. intros k Hk. unfold df_get.
    rewrite bool_decide_eq_true_2 by (apply risk_key_merged_column; [done | exact (proj1 (Forall_forall _ _) Hcols k Hk)]).
    rewrite merged_get_answer by (by apply risk_key_not_product).
    unfold risk_keys in Hk. f_equal. apply csv_label_get;
      intros ->; repeat (apply elem_of_cons in Hk as [Hk | Hk]; [discriminate |]);
      by apply not_elem_of_nil in Hk.
Qed.

(** Every merged row the batch classifier labels [rc] appears in the
    returned table with [Risk_Class] and [Risk_Score] [rc]. *)
Lemma finalize_row_label P F m rc :
  file_ok (Some F) -> columns_disjoint F ->
  m ∈ concat (map (merge_one "Ürün" (csv_read (base_metrics_frame P)) (csv_read F))
                  (map (fmap csv_cell) (map product_row P))) ->
  classify_product (product_columns ++ filter (fun c => c <> "Ürün") (fr_columns F)) m = Ok rc ->
  forall T, finalize_and_save (csv_read (base_metrics_frame P)) (Some F) = Ok (Some T) ->
  exists t, t ∈ fr_rows T /\ row_name t = row_name m /\
    t !! "Risk_Class" = Some (PInt rc.1) /\ t !! "Risk_Score" = Some (PInt rc.2).
Proof.
  intros Hok HF Hm Hc T HT. unfold finalize_and_save in HT.
  rewrite merge_product_table in HT by done.
  cbn [pybind] in HT. pyres_inv HT. injection Hk as <-.
  apply create_risk_class_rows in Hm0 as [_ HR].
  destruct (Forall2_elem_of_l _ _ _ _ HR Hm) as (t & Ht & rc' & Hc' & ->).
  cbn [fr_columns] in Hc'. rewrite Hc in Hc'. injection Hc' as <-.
  eexists. split; [exact Ht |].
  rewrite set_label_name, set_label_class, set_label_score. auto.
Qed.

(** The merged row of a product whose answer the file holds. *)
Lemma merged_row_of_answer P F p d rc :
  p ∈ P -> csv_cell (PStr (pf_urun p)) = PStr (pf_urun p) ->
  file_ok (Some F) -> columns_disjoint F ->
  d !! "Ürün" = Some (PStr (pf_urun p)) ->
  csv_cell <$> set_label d rc ∈ fr_rows (csv_read F) ->
  (csv_cell <$> product_row p) ∪ delete "Ürün" (csv_cell <$> set_label d rc)
    ∈ concat (map (merge_one "Ürün" (csv_read (base_metrics_frame P)) (csv_read F))
                  (map (fmap csv_cell) (map product_row P))).
Proof.
  intros Hp Hs [_ Hnd] HF Hd Hrow.
  assert (Hin : csv_cell <$> set_label d rc ∈
                filter (fun r => row_name r = Some (pf_urun p)) (fr_rows (csv_read F))).
  { apply list_elem_of_filter. split; [by apply csv_label_name | done]. }
  apply (elem_of_concat_map _ _ (csv_cell <$> product_row p)).
  { by apply elem_of_map_2, elem_of_map_2. }
  destruct (merge_one_product (csv_read (base_metrics_frame P)) F p eq_refl HF Hnd Hs)
    as [[Hms _] | (r & Hms & ->)]; rewrite Hms in Hin.
  - by apply not_elem_of_nil in Hin.
  - apply list_elem_of_singleton in Hin as ->. apply list_elem_of_here.
Qed.


Lemma merged_nan p k F :
  k ∈ risk_keys -> k ∈ fr_columns F ->
  df_get (product_columns ++ filter (fun c => c <> "Ürün") (fr_columns F))
    ((csv_cell <$> product_row p) ∪ ∅) k = Ok PNaN.
Proof.
  intros Hk HkF. unfold df_get.
  rewrite bool_decide_eq_true_2 by (by apply risk_key_merged_column).
  rewrite <- (delete_empty "Ürün"), merged_get_answer by (by apply risk_key_not_product).
  unfold dict_get. by rewrite lookup_empty.
Qed.

(** C14: a product of the table that has no row in the checkpoint file (its
    language-model call failed, its answer was falsy, or [max_products]
    cut the run before it) and has at least five reviews is labelled
    Healthy with score 0 in the final table, exactly as a product whose
    reviews raised no issue: its answer columns are NaN, and NaN passes
    none of the tests. *)
Theorem unprocessed_product_labelled_healthy (P : list ProductFeatures) (p : ProductFeatures)
    (F : frame) :
  p ∈ P -> csv_cell (PStr (pf_urun p)) = PStr (pf_urun p) -> (5 <= pf_toplam p)%Z ->
  file_ok (Some F) -> columns_disjoint F -> Forall (fun k => k ∈ fr_columns F) risk_keys ->
  pf_urun p ∉ file_names (Some F) ->
  (exists M m, merge_with_product_features (csv_read (base_metrics_frame P)) (Some F) = Some (Ok M) /\
     m ∈ fr_rows M /\ row_name m = Some (pf_urun p) /\ classify_product (fr_columns M) m = Ok (0, 0)%Z) /\
  (forall T, finalize_and_save (csv_read (base_metrics_frame P)) (Some F) = Ok (Some T) ->
     exists t, t ∈ fr_rows T /\ row_name t = Some (pf_urun p) /\
       t !! "Risk_Class" = Some (PInt 0) /\ t !! "Risk_Score" = Some (PInt 0)).
Proof.
  intros Hp Hs Ht Hok HF Hcols Hnot.
  pose proof Hok as [_ Hnd].
  set (m := (csv_cell <$> product_row p) ∪ ∅).
  assert (Hm : m ∈ concat (map (merge_one "Ürün" (csv_read (base_metrics_frame P)) (csv_read F))
                              (map (fmap csv_cell) (map product_row P)))).
  { apply (elem_of_concat_map _ _ (csv_cell <$> product_row p)).
    { by apply elem_of_map_2, elem_of_map_2. }
    destruct (merge_one_product (csv_read (base_metrics_frame P)) F p eq_refl HF Hnd Hs)
      as [[_ ->] | (r & Hms & _)]; [apply list_elem_of_here |].
    exfalso. apply Hnot. rewrite <- file_names_csv_read.
    assert (Hr : r ∈ filter (fun r => row_name r = Some (pf_urun p)) (fr_rows (csv_read F)))
      by (rewrite Hms; apply list_elem_of_here).
    apply list_elem_of_filter in Hr as [Hr Hin].
    apply list_elem_of_omap. eauto. }
  pose proof (merged_row_name p ∅ Hs) as Hname. fold m in Hname.
  unfold risk_keys in Hcols. decompose_Forall Hcols.
  assert (Hc : classify_product (product_columns ++ filter (fun c => c <> "Ürün") (fr_columns F)) m
               = Ok (0, 0)%Z).
  { unfold classify_product, m. rewrite merged_toplam. cbn [pybind]. rewrite py_lt_int.
    replace (pf_toplam p <? 5)%Z with false by lia.
    rewrite !merged_nan by (done || decide_prop). reflexivity. }
  split.
  - do 2 eexists. split; [by apply merge_product_table |]. eauto.
  - intros T HT. rewrite <- Hname. exact (finalize_row_label P F m (0, 0)%Z Hok HF Hm Hc T HT).
Qed.

(** The answer fields [classify_product] reads on every row of a product
    with at least five reviews. *)
Definition always_read : list string :=
  ["fitment_problem"; "fabric_quality_issue"; "quality_sentiment"; "delivery_issue"].

Lemma classify_missing_column cols row k t :
  k ∈ always_read -> k ∉ cols ->
  df_get cols row "Toplam_Yorum_Sayisi" = Ok (PInt t) -> (5 <= t)%Z ->
  exists e, classify_product cols row = Raise e.
Proof.
  intros Hk Hkc Ht H5.
  assert (HK : df_get cols row k = Raise KeyError)
    by (unfold df_get; by rewrite bool_decide_eq_false_2).
  unfold classify_product. rewrite Ht. cbn [pybind]. rewrite py_lt_int.
  replace (t <? 5)%Z with false by lia.
  unfold always_read in Hk.
  repeat (apply elem_of_cons in Hk as [-> | Hk]);
    [.. | by apply not_elem_of_nil in Hk];
    repeat (match goal with
            | |- context [pybind ?m _] =>
                lazymatch m with Ok _ => fail | Raise _ => fail | _ => idtac end;
                destruct m eqn:?; cbn [pybind]; [| eauto]
            end); congruence.
Qed.

(** Each product row of the table read back becomes at least one merged
    row, and each of them extends it. *)
Lemma merge_one_extends L F l :
  fr_columns L = product_columns -> columns_disjoint F ->
  (exists m, m ∈ merge_one "Ürün" L (csv_read F) l) /\
  (forall m, m ∈ merge_one "Ürün" L (csv_read F) l -> exists x, m = l ∪ x).
Proof.
  intros HL HF. rewrite merge_one_disjoint by done.
  destruct (merge_matches _ _ _) as [| r ms]; split.
  - exists l. apply list_elem_of_here.
  - intros m Hm. apply list_elem_of_singleton in Hm as ->. exists ∅. by rewrite (right_id_L ∅ union).
  - exists (l ∪ delete "Ürün" r). apply list_elem_of_here.
  - intros m Hm. apply elem_of_map_inv in Hm as (r' & -> & _). eauto.
Qed.

(** C31: when no saved answer has one of the fields the batch classifier
    reads on every product with at least five reviews (say
    'quality_sentiment', which the incremental labelling defaults to 5),
    the checkpoint file has no such column, the batch labelling raises
    [KeyError] on that product's row, and [finalize_and_save] produces no
    table at all. *)
Theorem missing_answer_column_aborts_report (P : list ProductFeatures) (p : ProductFeatures)
    (F : frame) (k : string) :
  p ∈ P -> (5 <= pf_toplam p)%Z -> file_ok (Some F) -> columns_disjoint F ->
  k ∈ always_read -> k ∉ fr_columns F ->
  exists e, finalize_and_save (csv_read (base_metrics_frame P)) (Some F) = Raise e.
Proof.
  intros Hp H5 Hok HF Hk HkF.
  destruct (merge_one_extends (csv_read (base_metrics_frame P)) F (csv_cell <$> product_row p)
              eq_refl HF) as [[m Hm] Hext].
  destruct (Hext m Hm) as [x ->].
  assert (Hrow : (csv_cell <$> product_row p) ∪ x
                 ∈ concat (map (merge_one "Ürün" (csv_read (base_metrics_frame P)) (csv_read F))
                               (map (fmap csv_cell) (map product_row P))))
    by (eapply elem_of_concat_map; [by apply elem_of_map_2, elem_of_map_2 | exact Hm]).
  assert (Hkc : k ∉ product_columns ++ filter (fun c => c <> "Ürün") (fr_columns F)).
  { rewrite elem_of_app, list_elem_of_filter. intros [Hc | [_ Hc]]; [| done].
    revert Hc. unfold always_read in Hk.
    repeat (apply elem_of_cons in Hk as [-> | Hk]; [decide_prop |]).
    by apply not_elem_of_nil in Hk. }
  destruct (classify_missing_column _ _ k _ Hk Hkc (merged_toplam p x _) H5) as [e He].
  unfold finalize_and_save. rewrite merge_product_table by done. cbn [pybind].
  unfold create_risk_class. cbn [fr_rows fr_columns].
  destruct (py_mapM_raise _ _ _ _ Hrow He) as [e' ->]. eauto.
Qed.

End Report.

(** ** A concrete report for the witnesses *)

(** The square root only matters for products with two ratings or more;
    the demo products have none. *)
Definition demo_sqrt (q : Q) : Q := q.

(** The checkpoint file of the run whose model client raises on "bluz":
    "kazak" is saved, "bluz" is not, "etek" has no reviews. *)
Definition demo_checkpoint : frame :=
  match demo_file1 with Some f => f | None => {| fr_columns := []; fr_rows := [] |} end.

Definition demo_table : frame := csv_read (base_metrics_frame demo_sqrt demo_products).

(** The answer saved for "kazak": the model's dict with the name and the
    sample size added. *)
Definition demo_answer : gmap string PyVal :=
  <["Yorum_Sayisi" := PInt 2]> (<["Ürün" := PStr "kazak"]> (sentiment_dict demo_sentiment)).

(** A model whose answers never carry 'quality_sentiment'. *)
Definition demo_json_no_quality (t : string) : option JsonTop :=
  option_map (fun j => match j with
                       | JDict d => JDict (delete "quality_sentiment" d)
                       | j => j
                       end) (demo_json t).

Definition demo_checkpoint_no_quality : frame :=
  match output_file (run demo_json_no_quality demo_reviews demo_products demo_api None None).1 with
  | Some f => f
  | None => {| fr_columns := []; fr_rows := [] |}
  end.

Example final_table_one_row_per_product_witness :
  exists M, merge_with_product_features demo_table (Some demo_checkpoint) = Some (Ok M) /\
    map row_name (fr_rows M) = [Some "kazak"; Some "bluz"; Some "etek"].
Proof.
  apply (final_table_one_row_per_product demo_sqrt demo_products demo_checkpoint);
    decide_prop.
Defined.


Example unprocessed_product_labelled_healthy_witness :
  (exists M m, merge_with_product_features demo_table (Some demo_checkpoint) = Some (Ok M) /\
     m ∈ fr_rows M /\ row_name m = Some "bluz" /\ classify_product (fr_columns M) m = Ok (0, 0)%Z) /\
  (forall T, finalize_and_save demo_table (Some demo_checkpoint) = Ok (Some T) ->
     exists t, t ∈ fr_rows T /\ row_name t = Some "bluz" /\
       t !! "Risk_Class" = Some (PInt 0) /\ t !! "Risk_Score" = Some (PInt 0)).
Proof.
  apply (unprocessed_product_labelled_healthy demo_sqrt demo_products (demo_product "bluz")
           demo_checkpoint);
    first [apply list_elem_of_further, list_elem_of_here | reflexivity | decide_prop | vm_compute; discriminate].
Defined.

Example missing_answer_column_aborts_report_witness :
  exists e, finalize_and_save (csv_read (base_metrics_frame demo_sqrt demo_products))
              (Some demo_checkpoint_no_quality) = Raise e.
Proof.
  apply (missing_answer_column_aborts_report demo_sqrt demo_products (demo_product "kazak")
           demo_checkpoint_no_quality "quality_sentiment");
    first [apply list_elem_of_here | vm_compute; discriminate | decide_prop].
Defined.

End ReportMerge.
