(* ===== verification/Train.v ===== *)
(** * Feature preparation of the training script

    [src/scripts/train_model.py], lines 35-61: the seven answer columns
    of the labelled table ([llm_features]) are turned into numbers (a
    column of dtype [object] through the dict
    [{'True': 1, 'False': 0, True: 1, False: 0}], a column of dtype [bool]
    by [astype(int)], with a fallback to [0] when either raises), their
    missing values are filled with [0], and the feature matrix [X] and the
    label vector [y] are taken from the table.

    A table is modelled as pandas holds it after [read_csv]: each column
    has a dtype and its cells; [df[col]] raises a [KeyError] on a column
    the table lacks. The rest of the script (the split, SMOTE, the
    weights, the scores) is in [Evaluate]. *)

From S2P Require Import Prelude PyValue.

Module Train.

(** The dtype of a column of a frame as read: [bool], [object], or a
    numeric dtype ([int64], [float64]). *)
Inductive dtype : Type := DBool | DObject | DNumeric.

#[export] Instance dtype_eq_dec : EqDecision dtype.
Proof. solve_decision. Defined.

Record tcolumn : Type := {
  col_dtype : dtype;
  col_values : list PyVal
}.

(** A frame by column name. *)
Abbreviation tframe := (gmap string tcolumn).

(** [df[col]] *)
Definition get_column (df : tframe) (col : string) : pyres tcolumn :=
  match df !! col with
  | Some c => Ok c
  | None => Raise KeyError
  end.

(** Lines 35-43. *)
Definition llm_features : list string :=
  ["fitment_problem"; "fitment_severity"; "quality_sentiment"; "delivery_issue";
   "color_mismatch"; "fabric_quality_issue"; "price_value_perception"].

(** The dict literal of line 50, in insertion order. *)
Definition bool_dict : list (PyVal * PyVal) :=
  [(PStr "True", PInt 1); (PStr "False", PInt 0); (PBool true, PInt 1); (PBool false, PInt 0)].

(** [d.get(v)]: a key equal to [v]; [True == 1] and [False == 0], so the
    numbers 1 and 0 find the boolean keys. *)
Fixpoint py_dict_get (d : list (PyVal * PyVal)) (v : PyVal) : option PyVal :=
  match d with
  | [] => None
  | (k, x) :: d' => if py_eq k v then Some x else py_dict_get d' v
  end.

(** Only a container is unhashable. *)
Definition py_hashable (v : PyVal) : bool :=
  match v with
  | PContainer => false
  | _ => true
  end.

(** [Series.map(dict)] on one cell: [NaN] for a value the dict lacks, a
    [TypeError] for an unhashable one. *)
Definition map_dict_cell (d : list (PyVal * PyVal)) (v : PyVal) : pyres PyVal :=
  if py_hashable v then Ok (default PNaN (py_dict_get d v)) else Raise TypeError.

(** [astype(int)] on a cell of a [bool] column. *)
Definition astype_int (v : PyVal) : PyVal :=
  match v with
  | PBool b => PInt (if b then 1 else 0)
  | _ => v
  end.

(** The body of the loop (lines 47-54) on one column. *)
Definition convert_column (c : tcolumn) : tcolumn :=
  match col_dtype c with
  | DObject =>
      match py_mapM (map_dict_cell bool_dict) (col_values c) with
      | Ok vs => {| col_dtype := DNumeric; col_values := vs |}
      | Raise _ => {| col_dtype := DNumeric; col_values := map (fun _ => PInt 0) (col_values c) |}
      end
  | DBool => {| col_dtype := DNumeric; col_values := map astype_int (col_values c) |}
  | DNumeric => c
  end.

Definition convert_feature (df : tframe) (col : string) : pyres tframe :=
  c <- get_column df col ;; Ok (<[col := convert_column c]> df).

(** [for col in llm_features: ...] (lines 46-54). *)
Fixpoint convert_features (df : tframe) (cols : list string) : pyres tframe :=
  match cols with
  | [] => Ok df
  | col :: cols' => df' <- convert_feature df col ;; convert_features df' cols'
  end.

(** [fillna(0)] on a cell. *)
Definition fillna0 (v : PyVal) : PyVal :=
  match v with
  | PNone | PNaN => PInt 0
  | _ => v
  end.

Definition fillna_column (c : tcolumn) : tcolumn :=
  {| col_dtype := col_dtype c; col_values := map fillna0 (col_values c) |}.

(** [df[llm_features] = df[llm_features].fillna(0)] (line 57). *)
Definition fillna_features (df : tframe) (cols : list string) : pyres tframe :=
  cs <- py_mapM (get_column df) cols ;;
  Ok (foldr (fun '(col, c) acc => <[col := fillna_column c]> acc) df (zip cols cs)).

(** Lines 46-61: the columns of [X], in the order of [llm_features], and
    [y]. *)
Definition prepare_training_data (df : tframe) : pyres (list (list PyVal) * list PyVal) :=
  df1 <- convert_features df llm_features ;;
  df2 <- fillna_features df1 llm_features ;;
  X <- py_mapM (get_column df2) llm_features ;;
  y <- get_column df2 "Risk_Class" ;;
  Ok (map col_values X, col_values y).

(** ** The columns the script expects *)

(** The cells a CSV file reads as: no [None], no container. *)
Definition csv_readable (v : PyVal) : bool :=
  match v with
  | PNone | PContainer => false
  | _ => true
  end.

(** A column as [read_csv] builds it: a [bool] column holds only
    booleans, a numeric one numbers and [NaN]. *)
Definition wf_column (c : tcolumn) : bool :=
  match col_dtype c with
  | DBool => forallb (fun v => match v with PBool _ => true | _ => false end) (col_values c)
  | DNumeric => forallb (fun v => match v with PNaN | PNum _ => true | _ => false end) (col_values c)
  | DObject => forallb csv_readable (col_values c)
  end.

Definition is_number (v : PyVal) : bool :=
  match v with
  | PNum _ => true
  | _ => false
  end.

(** The cells the dict of line 50 maps to 1: [True], ['True'] and the
    number 1. *)
Definition maps_to_one (v : PyVal) : bool :=
  match v with
  | PStr s => bool_decide (s = "True")
  | _ => py_eq_true v
  end.

(** The column of [X] the script builds from a column of the table. *)
Definition prepared_column (c : tcolumn) : list PyVal :=
  map fillna0 (col_values (convert_column c)).

(** ** A labelled table *)

(** Two products: the first answered ([fitment_problem] true, severity
    8), the second unprocessed ([NaN] answers); one severity answer is not
    a number, so the column is read as [object]. *)
Definition demo_training_frame : tframe :=
  list_to_map
    [("fitment_problem", {| col_dtype := DObject; col_values := [PBool true; PNaN] |});
     ("fitment_severity", {| col_dtype := DObject; col_values := [PInt 8; PStr "high"] |});
     ("quality_sentiment", {| col_dtype := DNumeric; col_values := [PInt 4; PNaN] |});
     ("delivery_issue", {| col_dtype := DBool; col_values := [PBool false; PBool true] |});
     ("color_mismatch", {| col_dtype := DObject; col_values := [PBool false; PNaN] |});
     ("fabric_quality_issue", {| col_dtype := DObject; col_values := [PBool true; PNaN] |});
     ("price_value_perception", {| col_dtype := DObject; col_values := [PStr "good"; PNaN] |});
     ("Risk_Class", {| col_dtype := DNumeric; col_values := [PInt 1; PInt 0] |})].

(** ** Lemmas *)

Lemma get_column_ok df col c : get_column df col = Ok c <-> df !! col = Some c.
Proof. unfold get_column. destruct (df !! col); split; congruence. Qed.

Lemma get_columns_ok df cols cs :
  py_mapM (get_column df) cols = Ok cs <-> Forall2 (fun col c => df !! col = Some c) cols cs.
Proof.
  split.
  - intros H. apply py_mapM_Forall2 in H. eapply Forall2_impl; [exact H |].
    intros. by apply get_column_ok.
  - induction 1 as [| col c cols cs Hc _ IH]; [done |]. cbn [py_mapM].
    by rewrite (proj2 (get_column_ok _ _ _) Hc), IH.
Qed.

Lemma get_columns_raise df cols e :
  py_mapM (get_column df) cols = Raise e <-> e = KeyError /\ Exists (fun col => df !! col = None) cols.
Proof.
  induction cols as [| col cols IH]; cbn [py_mapM].
  - split; [discriminate | intros [_ H]; inversion H].
  - unfold get_column at 1. destruct (df !! col) eqn:E; cbn [pybind]; rewrite Exists_cons.
    + destruct (py_mapM (get_column df) cols) eqn:E'; cbn [pybind].
      * split; [discriminate |]. intros [-> [? | Hex]]; [congruence |].
        discriminate (proj2 IH (conj eq_refl Hex)).
      * split.
        -- intros [= He]. subst. destruct (proj1 IH eq_refl) as [-> Hex]. auto.
        -- intros [-> [? | Hex]]; [congruence |]. exact (proj2 IH (conj eq_refl Hex)).
    + split; [intros [= <-]; auto | by intros [-> _]].
Qed.

(** Columns looked up in a frame that agrees with another on them. *)
Lemma Forall2_lookup_map (df df' : tframe) (f : tcolumn -> tcolumn) cols cs :
  (forall k, k ∈ cols -> df' !! k = f <$> df !! k) ->
  Forall2 (fun col c => df !! col = Some c) cols cs ->
  Forall2 (fun col c => df' !! col = Some c) cols (map f cs).
Proof.
  intros Hk HF. induction HF as [| col c cols cs Hc _ IH]; constructor.
  - rewrite Hk, Hc; [done | apply list_elem_of_here].
  - apply IH. intros k Hin. apply Hk. by apply list_elem_of_further.
Qed.

Lemma bool_decide_elem_of_cons_ne (k col : string) cols :
  k <> col -> bool_decide (k ∈ col :: cols) = bool_decide (k ∈ cols).
Proof. intros Hne. apply bool_decide_ext. rewrite elem_of_cons. naive_solver. Qed.

Lemma convert_features_ok df cols cs :
  NoDup cols -> Forall2 (fun col c => df !! col = Some c) cols cs ->
  exists df', convert_features df cols = Ok df' /\
    forall k, df' !! k = if bool_decide (k ∈ cols) then convert_column <$> df !! k else df !! k.
Proof.
  intros Hnd HF. revert df cs Hnd HF. induction cols as [| col cols IH]; intros df cs Hnd HF.
  - exists df. split; [done |]. intros k. by rewrite bool_decide_false by set_solver.
  - inversion HF as [| ? c ? cs' Hc HF']; subst. apply NoDup_cons in Hnd as [Hcol Hnd].
    destruct (IH (<[col := convert_column c]> df) cs' Hnd) as (df' & E & L).
    { rewrite <- (list_fmap_id cs'). apply (Forall2_lookup_map df); [| done].
      intros k Hk. rewrite option_fmap_id, lookup_insert_ne; [done |]. by intros ->. }
    exists df'. split.
    { cbn [convert_features]. unfold convert_feature, get_column. rewrite Hc. exact E. }
    intros k. rewrite L. destruct (decide (k = col)) as [-> | Hne].
    + rewrite bool_decide_false by done. rewrite bool_decide_true by set_solver.
      by rewrite lookup_insert_eq, Hc.
    + rewrite bool_decide_elem_of_cons_ne, lookup_insert_ne by done. done.
Qed.

Lemma convert_features_raise df cols :
  Exists (fun col => df !! col = None) cols -> convert_features df cols = Raise KeyError.
Proof.
  revert df. induction cols as [| col cols IH]; intros df Hex; [inversion Hex |].
  cbn [convert_features]. unfold convert_feature, get_column at 1.
  destruct (df !! col) as [c |] eqn:Hc; [| done]. cbn [pybind]. apply IH.
  apply Exists_cons in Hex as [? | Hex]; [congruence |].
  eapply Exists_impl; [exact Hex |]. intros k Hk. simpl.
  rewrite lookup_insert_ne; [done |]. intros ->. congruence.
Qed.

Lemma foldr_fillna_lookup (df : tframe) (cols : list string) (cs : list tcolumn) (k : string) :
  NoDup cols -> Forall2 (fun col c => df !! col = Some c) cols cs ->
  foldr (fun '(col, c) acc => <[col := fillna_column c]> acc) df (zip cols cs) !! k =
  if bool_decide (k ∈ cols) then fillna_column <$> df !! k else df !! k.
Proof.
  intros Hnd HF. induction HF as [| col c cols cs Hc HF IH]; cbn [zip foldr].
  - by rewrite bool_decide_false by set_solver.
  - apply NoDup_cons in Hnd as [Hcol Hnd]. destruct (decide (k = col)) as [-> | Hne].
    + rewrite bool_decide_true by set_solver. by rewrite lookup_insert_eq, Hc.
    + rewrite lookup_insert_ne, bool_decide_elem_of_cons_ne by done. by apply IH.
Qed.

Lemma fillna_features_ok df cols cs :
  NoDup cols -> Forall2 (fun col c => df !! col = Some c) cols cs ->
  exists df', fillna_features df cols = Ok df' /\
    forall k, df' !! k = if bool_decide (k ∈ cols) then fillna_column <$> df !! k else df !! k.
Proof.
  intros Hnd HF. unfold fillna_features. rewrite (proj2 (get_columns_ok _ _ _) HF).
  eexists. split; [reflexivity |]. intros k. by apply foldr_fillna_lookup.
Qed.

Lemma llm_features_nodup : NoDup llm_features.
Proof. decide_prop. Qed.

Lemma risk_class_not_feature : "Risk_Class" ∉ llm_features.
Proof. decide_prop. Qed.

(** The loop over the shared frame, the [fillna] and the selections
    compute the column-wise map [prepared_column]. *)
Lemma prepare_training_data_eq df :
  prepare_training_data df =
  (cs <- py_mapM (get_column df) llm_features ;;
   cy <- get_column df "Risk_Class" ;;
   Ok (map prepared_column cs, col_values cy)).
Proof.
  pose proof llm_features_nodup as Hnd. unfold prepare_training_data.
  destruct (py_mapM (get_column df) llm_features) as [cs | e] eqn:Ecs; cbn [pybind].
  - apply get_columns_ok in Ecs.
    destruct (convert_features_ok df llm_features cs Hnd Ecs) as (df1 & -> & L1). cbn [pybind].
    assert (Forall2 (fun col c => df1 !! col = Some c) llm_features (map convert_column cs)) as F1.
    { apply (Forall2_lookup_map df); [| done]. intros k Hk. by rewrite L1, bool_decide_true. }
    destruct (fillna_features_ok df1 llm_features _ Hnd F1) as (df2 & -> & L2). cbn [pybind].
    assert (Forall2 (fun col c => df2 !! col = Some c) llm_features
              (map fillna_column (map convert_column cs))) as F2.
    { apply (Forall2_lookup_map df1); [| done]. intros k Hk. by rewrite L2, bool_decide_true. }
    rewrite (proj2 (get_columns_ok _ _ _) F2). cbn [pybind].
    unfold get_column. rewrite L2, L1, !bool_decide_false by apply risk_class_not_feature.
    destruct (df !! "Risk_Class"); [| done]. cbn [pybind].
    by rewrite !map_map.
  - apply get_columns_raise in Ecs as [-> Hex]. by rewrite convert_features_raise.
Qed.

Lemma map_dict_cell_readable v :
  csv_readable v = true ->
  map_dict_cell bool_dict v = Ok (if maps_to_one v then PInt 1
                                   else default PNaN (py_dict_get bool_dict v)).
Proof.
  destruct v as [| | [] | q | s |]; intros Hv; try discriminate; try reflexivity.
  - unfold map_dict_cell, maps_to_one, py_eq_true. cbn.
    destruct (Qeq_bool q 1) eqn:E; [| done]. apply Qeq_bool_iff in E.
    cbn. rewrite (proj2 (Qeq_bool_iff _ _)); [done |]. by rewrite E.
  - unfold map_dict_cell, maps_to_one. cbn.
    destruct (bool_decide_reflect (s = "True")) as [-> | Hs]; [done |].
    rewrite bool_decide_false by congruence. done.
Qed.

Lemma fillna_dict_value v :
  fillna0 (default PNaN (py_dict_get bool_dict v)) = PInt 1 \/
  fillna0 (default PNaN (py_dict_get bool_dict v)) = PInt 0.
Proof. cbn. repeat case_match; auto. Qed.

Lemma dict_value_not_one v :
  maps_to_one v = false -> fillna0 (default PNaN (py_dict_get bool_dict v)) = PInt 0.
Proof.
  destruct v as [| | [] | q | s |]; intros Hv; try reflexivity; try discriminate.
  - unfold maps_to_one, py_eq_true in Hv. cbn in Hv |- *.
    destruct (Qeq_bool 1 q) eqn:E; [| by case_match].
    apply Qeq_bool_iff in E. rewrite (proj2 (Qeq_bool_iff q 1)) in Hv; [discriminate | by rewrite E].
  - cbn in Hv |- *. rewrite bool_decide_false by (intros <-; by rewrite bool_decide_true in Hv).
    by destruct (bool_decide ("False" = s)).
Qed.

Lemma map_dict_cell_value v y :
  map_dict_cell bool_dict v = Ok y -> y = PInt 1 \/ y = PInt 0 \/ y = PNaN.
Proof. unfold map_dict_cell. cbn. repeat case_match; intros; simplify_eq; auto. Qed.

Lemma fillna0_number v :
  v = PNaN \/ v = PNone \/ is_number v = true -> is_number (fillna0 v) = true.
Proof. intros [-> | [-> | Hv]]; [done | done |]. by destruct v. Qed.

Lemma prepared_column_numeric c :
  wf_column c = true -> Forall (fun v => is_number v = true) (prepared_column c).
Proof.
  unfold prepared_column, convert_column, wf_column. destruct c as [[] vs]; cbn; intros Hwf;
    apply Forall_fmap, Forall_forall; intros v Hv; apply fillna0_number.
  - apply list_elem_of_fmap in Hv as (x & -> & Hx).
    apply forallb_forall with (x := x) in Hwf; [| by apply list_elem_of_In]. destruct x; try discriminate; auto.
  - destruct (py_mapM _ vs) as [vs' |] eqn:E; cbn in Hv.
    + apply py_mapM_Forall2, Forall2_flip in E.
      destruct (Forall2_elem_of_l _ _ _ _ E Hv) as (x & _ & Hx).
      destruct (map_dict_cell_value _ _ Hx) as [-> | [-> | ->]]; auto.
    + apply list_elem_of_fmap in Hv as (x & -> & _). by right; right.
  - apply forallb_forall with (x := v) in Hwf; [| by apply list_elem_of_In].
    destruct v; try discriminate; auto.
Qed.

(** ** Theorems *)

(** C19: Type of the feature matrix: on a table as [read_csv] builds it,
    when the preparation succeeds, [X] has one column per name of
    [llm_features] and every one of its cells is a number, whatever the
    dtype of the column and whether the language model answered. *)
Theorem prepared_features_numeric df X y :
  map_Forall (fun _ c => wf_column c = true) df ->
  prepare_training_data df = Ok (X, y) ->
  length X = length llm_features /\ Forall (Forall (fun v => is_number v = true)) X.
Proof.
  intros Hwf. rewrite prepare_training_data_eq.
  destruct (py_mapM (get_column df) llm_features) as [cs |] eqn:E; [| discriminate].
  apply get_columns_ok in E. unfold get_column. destruct (df !! "Risk_Class"); [| discriminate].
  intros [= <- _]. split; [rewrite length_map; symmetry; by eapply Forall2_length |].
  apply Forall_fmap, Forall_forall. intros c Hc. apply prepared_column_numeric.
  apply Forall2_flip in E. destruct (Forall2_elem_of_l _ _ _ _ E Hc) as (col & _ & Hcol).
  exact (map_Forall_lookup_1 _ _ _ _ Hwf Hcol).
Qed.

Lemma prepared_features_numeric_witness :
  match prepare_training_data demo_training_frame with
  | Ok (X, y) => length X = length llm_features /\ Forall (Forall (fun v => is_number v = true)) X
  | Raise _ => False
  end.
Proof.
  destruct (prepare_training_data demo_training_frame) as [[X y] |] eqn:E;
    [| vm_compute in E; discriminate].
  apply (prepared_features_numeric demo_training_frame X y); [decide_prop | exact E].
Defined.

(** C20: A feature column that [read_csv] types as [object] (booleans with
    missing answers, or a column where one answer is not a number) becomes
    an indicator: a cell is 1 exactly when it is [True], ['True'] or the
    number 1, and 0 otherwise, so a severity of 8 in such a column is
    turned into 0. *)
Theorem object_feature_column_indicator df X y i col c :
  prepare_training_data df = Ok (X, y) ->
  llm_features !! i = Some col -> df !! col = Some c ->
  col_dtype c = DObject -> forallb csv_readable (col_values c) = true ->
  X !! i = Some (map (fun v => if maps_to_one v then PInt 1 else PInt 0) (col_values c)).
Proof.
  intros Hp Hi Hc Hd Hr. rewrite prepare_training_data_eq in Hp.
  destruct (py_mapM (get_column df) llm_features) as [cs |] eqn:E; [| discriminate].
  apply get_columns_ok in E. unfold get_column in Hp.
  destruct (df !! "Risk_Class"); [| discriminate]. injection Hp as <- _.
  destruct (Forall2_lookup_l _ _ _ _ _ E Hi) as (c' & Hc' & Hcol). rewrite Hc in Hcol.
  injection Hcol as <-. rewrite list_lookup_fmap, Hc'. cbn [fmap option_fmap option_map]. f_equal.
  unfold prepared_column, convert_column. rewrite Hd.
  rewrite (py_mapM_map _ (fun v => if maps_to_one v then PInt 1
                                   else default PNaN (py_dict_get bool_dict v))).
  - cbn [col_values]. rewrite map_map. apply list_fmap_ext. intros _ v _.
    destruct (maps_to_one v) eqn:Ev; [done |]. by apply dict_value_not_one.
  - intros v Hv. apply map_dict_cell_readable.
    apply forallb_forall with (x := v) in Hr; [done | by apply list_elem_of_In].
Qed.

Lemma object_feature_column_indicator_witness :
  match prepare_training_data demo_training_frame with
  | Ok (X, y) => X !! 1%nat = Some [PInt 0; PInt 0]
  | Raise _ => False
  end.
Proof.
  destruct (prepare_training_data demo_training_frame) as [[X y] |] eqn:E;
    [| vm_compute in E; discriminate].
  apply (object_feature_column_indicator demo_training_frame X y 1 "fitment_severity"
           {| col_dtype := DObject; col_values := [PInt 8; PStr "high"] |});
    [exact E | reflexivity | vm_compute; reflexivity | reflexivity | reflexivity].
Defined.

(** C35: The preparation raises exactly when the table lacks one of the
    seven feature columns or 'Risk_Class', and then it raises a
    [KeyError]: the [except] of the loop catches the conversion errors,
    not a missing column. *)
Theorem prepare_training_data_keyerror df :
  (prepare_training_data df = Raise KeyError <->
   Exists (fun col => df !! col = None) (llm_features ++ ["Risk_Class"])) /\
  (forall e, prepare_training_data df = Raise e -> e = KeyError).
Proof.
  rewrite prepare_training_data_eq, Exists_app, Exists_cons.
  destruct (py_mapM (get_column df) llm_features) as [cs | e] eqn:E; cbn [pybind].
  - apply get_columns_ok in E. unfold get_column.
    destruct (df !! "Risk_Class") eqn:R; cbn [pybind].
    + split; [| discriminate]. split; [discriminate |].
      intros [Hex | [? | Hn]]; [| congruence | inversion Hn].
      apply Exists_exists in Hex as (col & Hcol & Hn).
      destruct (Forall2_elem_of_l _ _ _ _ E Hcol) as (c & _ & Hc). congruence.
    + split; [| by intros ? [= ->]]. split; [auto | done].
  - apply get_columns_raise in E as [-> Hex]. split; [| by intros ? [= ->]].
    split; [auto | done].
Qed.

Lemma prepare_training_data_keyerror_witness :
  prepare_training_data (delete "Risk_Class" demo_training_frame) = Raise KeyError.
Proof.
  apply (proj1 (prepare_training_data_keyerror _)). apply Exists_app. right.
  apply Exists_cons. left. vm_compute. reflexivity.
Defined.

End Train.
