(* ===== verification/ReviewPage.v ===== *)
(** * The review-page loop of the scraper

    [src/webscraping/ty_scrapping.py], lines 91-271: for every product
    link, the script opens the review page ([get_review_link]), skips the
    product when neither wait succeeds, reads the brand, the title, the
    price and the overall rating, scrolls until the page height is stable
    (at most 50 attempts), turns every review card into a row (name, date,
    the size attributes, comment, seller, the star read from the style of
    the star element) and appends the rows to the output CSV, writing the
    header only when the file does not exist yet.

    The browser is an interface: a page is what Selenium finds on it (the
    text of each element the code looks up, [None] where [find_element]
    raises), the successive values of [document.body.scrollHeight], and
    the review cards. [browse] gives the page of a URL, [py_float_str] is
    Python's [float] on a string ([None] where it raises); both are
    parameters of the section. The sleeps, prints and [driver.quit] are
    not modelled. [.lower()] is modelled on ASCII letters. *)

From S2P Require Import Prelude PyValue Scraper DateParse.
From Stdlib Require Import Ascii.
Import Scraper DateParse.

Module ReviewPage.

Local Open Scope Z_scope.

(** ** Strings *)

(** [s.lower()] *)
Definition py_lower (s : string) : string :=
  String.string_of_list_ascii (map ascii_lower (bytes s)).

Fixpoint contains_bytes (sub l : list Ascii.ascii) : bool :=
  match strip_prefix sub l with
  | Some _ => true
  | None => match l with [] => false | _ :: l' => contains_bytes sub l' end
  end.

(** [sub in s] *)
Definition py_in (sub s : string) : bool := contains_bytes (bytes sub) (bytes s).

(** ** The page as Selenium finds it *)

(** A review card ([div.review]): the text of each element the loop body
    looks up, and for the star element its [style] attribute. *)
Record ReviewCard : Type := {
  rc_name : option string;                              (** div.name *)
  rc_date : option string;                              (** div.date *)
  rc_variants : list (option string * option string);   (** label, value spans *)
  rc_comment : option string;                           (** span.review-comment *)
  rc_seller : option string;                            (** seller-name-wrapper strong *)
  rc_star : option (option string)                      (** star element, its style *)
}.

Record ProductPage : Type := {
  pg_loaded : bool;                          (** one of the waits of lines 101-110 succeeds *)
  pg_info : option (string * option string); (** span.info-title-text and its <b> *)
  pg_prices : list (option string);          (** the three price elements, in the order tried *)
  pg_rate : option string;                   (** div.summary-wrapper div.rate *)
  pg_heights : list Z;                       (** successive scrollHeight values *)
  pg_cards : list ReviewCard                 (** div.review after scrolling *)
}.

(** The [n]-th reading of [document.body.scrollHeight]: after the listed
    values the height stays at the last one. *)
Definition height_at (hs : list Z) (n : nat) : Z := nth n hs (default 0%Z (last hs)).

(** A row of the output CSV (the dict of lines 246-259). *)
Record ReviewRow : Type := {
  row_marka : string;
  row_urun : string;
  row_fiyat : string;
  row_genel_puan : option Q;
  row_ad : option string;
  row_yorum : string;
  row_tarih : option string;
  row_boy : option string;
  row_kilo : option string;
  row_beden : option string;
  row_satici : option string;
  row_puan : option Z
}.

(** ** The product fields (lines 121-149) *)

(** Brand and title: the brand is the text of the <b> inside the title;
    the title is the title text without it; both are [""] when an element
    is missing. *)
Definition title_fields (info : option (string * option string)) : string * string :=
  match info with
  | Some (text, Some b) => let marka := py_strip b in (marka, py_strip (py_replace text marka ""))
  | _ => ("", "")
  end.

(** The first price element found, or [""]. *)
Fixpoint first_price (ps : list (option string)) : string :=
  match ps with
  | [] => ""
  | Some t :: _ => py_strip t
  | None :: ps' => first_price ps'
  end.

(** Lines 43-48: the product pages the script visits. *)
Definition product_links : list string :=
  ["https://www.trendyol.com/genel-markalar/degaje-madonna-yaka-fitilli-triko-kazak-antrasit-p-792361992?boutiqueId=61&merchantId=390652";
   "https://www.trendyol.com/trend-alacati-stili/kadin-siyah-on-ve-arka-kruvaze-cizgili--kazak-alc-x7570-p-192327372?boutiqueId=678361&merchantId=968";
   "https://www.trendyol.com/modaspark/antrasit-bisiklet-yaka-oversize-kadin-triko-kazak-p-899638586?boutiqueId=61&merchantId=862923";
   "https://www.trendyol.com/juuri/kadin-siyah-asimetrik-kesim-onu-tki-parcali-aktilik-kumas-kazak-p-968604297?boutiqueId=61&merchantId=131266"].

Section Scrape.

Variable py_float_str : string -> option Q.

(** [float(rate_elem.text.strip().replace(",", "."))]; [None] when the
    element is missing or [float] raises. *)
Definition parse_rate (rate : option string) : option Q :=
  match rate with
  | None => None
  | Some t => py_float_str (py_replace (py_strip t) "," ".")
  end.

(** ** The scroll loop (lines 154-187) *)

Definition MAX_TOTAL_SCROLL_ATTEMPTS : Z := 50.

(** [while scroll_attempts < MAX_TOTAL_SCROLL_ATTEMPTS]: the number of
    attempts and of height readings when the loop ends. *)
Fixpoint scroll_loop (fuel : nat) (hs : list Z) (pos : nat) (last_height attempts : Z)
    : Z * nat :=
  match fuel with
  | O => (attempts, pos)
  | S fuel' =>
      if (attempts <? MAX_TOTAL_SCROLL_ATTEMPTS)%Z then
        let new_height := height_at hs pos in
        if (new_height =? last_height)%Z then
          let final_height := height_at hs (S pos) in
          if (final_height =? new_height)%Z then (attempts, S (S pos))
          else scroll_loop fuel' hs (S (S pos)) new_height (attempts + 1)
        else scroll_loop fuel' hs (S pos) new_height (attempts + 1)
      else (attempts, pos)
  end.

Definition scroll_reviews (hs : list Z) : Z * nat :=
  scroll_loop (Z.to_nat MAX_TOTAL_SCROLL_ATTEMPTS) hs 1 (height_at hs 0) 0.

(** ** A review card (lines 194-259) *)

(** The size attributes: a label containing "boy", "kilo" or "beden"
    sets that field (a later attribute wins); a missing label or value
    raises and the [except] keeps what was read before. *)
Fixpoint read_variants (vs : list (option string * option string))
    (bkb : option string * option string * option string)
    : option string * option string * option string :=
  match vs with
  | [] => bkb
  | (Some l, Some v) :: vs' =>
      let label := py_lower (py_strip l) in
      let value := py_strip v in
      let '(boy, kilo, beden) := bkb in
      read_variants vs'
        (if py_in "boy" label then (Some value, kilo, beden)
         else if py_in "kilo" label then (boy, Some value, beden)
         else if py_in "beden" label then (boy, kilo, Some value)
         else bkb)
  | _ :: _ => bkb
  end.

(** The star: [closest_star_from_padding(extract_padding_value(style))];
    [None] when the element is missing (or anything raises). *)
Definition card_puan (star : option (option string)) : option Z :=
  match star with
  | None => None
  | Some style =>
      match closest_star_from_padding (extract_padding_value style) with
      | Ok p => p
      | Raise _ => None
      end
  end.

(** [text.strip().replace("\n", " ")] of the date element. *)
Definition card_date (t : string) : string := py_replace (py_strip t) newline " ".

Definition card_row (marka aciklama fiyat : string) (genel_puan : option Q) (rev : ReviewCard)
    : ReviewRow :=
  let '(boy, kilo, beden) := read_variants (rc_variants rev) (None, None, None) in
  {| row_marka := marka; row_urun := aciklama; row_fiyat := fiyat;
     row_genel_puan := genel_puan;
     row_ad := py_strip <$> rc_name rev;
     row_yorum := default "" (py_strip <$> rc_comment rev);
     row_tarih := card_date <$> rc_date rev;
     row_boy := boy; row_kilo := kilo; row_beden := beden;
     row_satici := py_strip <$> rc_seller rev;
     row_puan := card_puan (rc_star rev) |}.

(** One product: [None] for the [continue] of line 111, else its rows. *)
Definition scrape_product (page : ProductPage) : option (list ReviewRow) :=
  if pg_loaded page then
    let '(marka, aciklama) := title_fields (pg_info page) in
    let fiyat := first_price (pg_prices page) in
    let genel_puan := parse_rate (pg_rate page) in
    Some (map (card_row marka aciklama fiyat genel_puan) (pg_cards page))
  else None.

(** ** The output CSV (lines 261-266) *)

(** The file as its lines of cells; [None] while it does not exist. *)
Definition csv_file : Type := option (list (list PyVal)).

Definition review_columns : list string :=
  ["Marka"; "Ürün"; "Fiyat"; "Genel Puan"; "Ad"; "Yorum"; "Tarih"; "Boy"; "Kilo";
   "Beden"; "Satıcı"; "Puan"].

Definition opt_str (o : option string) : PyVal := default PNaN (PStr <$> o).

Definition row_cells (r : ReviewRow) : list PyVal :=
  [PStr (row_marka r); PStr (row_urun r); PStr (row_fiyat r);
   default PNaN (PNum <$> row_genel_puan r); opt_str (row_ad r); PStr (row_yorum r);
   opt_str (row_tarih r); opt_str (row_boy r); opt_str (row_kilo r); opt_str (row_beden r);
   opt_str (row_satici r); default PNaN (PInt <$> row_puan r)].

(** [pd.DataFrame(data)] has the dict's keys as columns, and no column at
    all when [data] is empty. *)
Definition frame_header (data : list ReviewRow) : list PyVal :=
  match data with
  | [] => []
  | _ :: _ => map PStr review_columns
  end.

(** Append without a header to an existing file, else write the header
    and the rows. *)
Definition save_csv (file : csv_file) (data : list ReviewRow) : csv_file :=
  match file with
  | Some lines => Some (lines ++ map row_cells data)
  | None => Some (frame_header data :: map row_cells data)
  end.

(** ** The product loop (lines 91-267) *)

Variable browse : string -> ProductPage.

Fixpoint scrape_all (file : csv_file) (product_links : list string) : csv_file :=
  match product_links with
  | [] => file
  | link :: links =>
      match scrape_product (browse (get_review_link link)) with
      | None => scrape_all file links
      | Some data => scrape_all (save_csv file data) links
      end
  end.

(** The rows a product link contributes. *)
Definition page_rows (link : string) : list ReviewRow :=
  default [] (scrape_product (browse (get_review_link link))).

(** ** A page *)

Definition demo_card : ReviewCard :=
  {| rc_name := Some " Ayşe "; rc_date := Some "5 Mayıs 2024";
     rc_variants := [(Some "Boy", Some "165"); (Some "Kilo", Some "55")];
     rc_comment := Some "Çok güzel"; rc_seller := Some "Koton";
     rc_star := Some (Some "padding-inline-end: 0px;") |}.

Definition demo_page (cards : list ReviewCard) : ProductPage :=
  {| pg_loaded := true; pg_info := Some ("Koton Kazak", Some "Koton");
     pg_prices := [None; Some "499 TL"; None]; pg_rate := Some "4,5";
     pg_heights := [1000; 2000; 2000; 2000]%Z; pg_cards := cards |}.

(** The first link's page shows no review, the others one. *)
Definition demo_browse (url : string) : ProductPage :=
  if String.eqb url (get_review_link "https://www.trendyol.com/a/x-p-1") then demo_page []
  else demo_page [demo_card].

Definition demo_float (s : string) : option Q := py_float (bytes s).

(** ** Lemmas *)

(** The review pages of the four products: "/yorumlar" goes between the
    path and the query. *)
Lemma product_review_links :
  map get_review_link product_links =
  ["https://www.trendyol.com/genel-markalar/degaje-madonna-yaka-fitilli-triko-kazak-antrasit-p-792361992/yorumlar?boutiqueId=61&merchantId=390652";
   "https://www.trendyol.com/trend-alacati-stili/kadin-siyah-on-ve-arka-kruvaze-cizgili--kazak-alc-x7570-p-192327372/yorumlar?boutiqueId=678361&merchantId=968";
   "https://www.trendyol.com/modaspark/antrasit-bisiklet-yaka-oversize-kadin-triko-kazak-p-899638586/yorumlar?boutiqueId=61&merchantId=862923";
   "https://www.trendyol.com/juuri/kadin-siyah-asimetrik-kesim-onu-tki-parcali-aktilik-kumas-kazak-p-968604297/yorumlar?boutiqueId=61&merchantId=131266"].
Proof. vm_compute. reflexivity. Qed.

Lemma py_strip_id s c1 l1 c2 l2 :
  bytes s = c1 :: l1 -> py_isspace c1 = false ->
  bytes s = l2 ++ [c2] -> py_isspace c2 = false -> py_strip s = s.
Proof.
  intros E1 H1 E2 H2. unfold py_strip. fold (bytes s). rewrite E1. cbn [skip_ws]. rewrite H1.
  rewrite <- E1, E2, rev_unit. cbn [skip_ws]. rewrite H2. cbn [rev].
  rewrite rev_involutive, <- E2. apply String.string_of_list_ascii_of_string.
Qed.

Lemma month_name_no_newline m :
  1 <= m <= 12 -> Forall (fun c => c ∉ bytes newline) (bytes (tr_month_name m)).
Proof. intros Hm. pattern m. apply (Z_enum _ 1 12); [| lia]. repeat constructor; decide_prop. Qed.

Lemma card_date_render d m y :
  1 <= d <= 31 -> 1 <= m <= 12 -> 0 <= y <= 9999 ->
  card_date (render_tr_date d m y) = render_tr_date d m y.
Proof.
  intros Hd Hm Hy. destruct (year_digits_facts y Hy) as (Yd & _ & _).
  pose proof (day_digits_digits d Hd) as Dd.
  assert (forall c, is_digit c = true -> c ∉ bytes newline) as Hnl
    by (intros c; apply digit_not_in; reflexivity).
  assert (exists c l, bytes (render_tr_date d m y) = c :: l /\ py_isspace c = false)
    as (c1 & l1 & E1 & H1).
  { unfold render_tr_date. rewrite bytes_of_list. unfold day_digits.
    destruct (Z.ltb_spec d 10); (eexists _, _; split;
      [reflexivity | apply digit_char_digit; Z.div_mod_to_equations; lia]). }
  assert (exists c l, bytes (render_tr_date d m y) = l ++ [c] /\ py_isspace c = false)
    as (c2 & l2 & E2 & H2).
  { unfold render_tr_date, year_digits. rewrite bytes_of_list.
    exists (digit_char (Z.to_nat (y mod 10))),
      (day_digits d ++ " "%char :: bytes (tr_month_name m) ++
         [" "%char; digit_char (Z.to_nat (y / 1000)); digit_char (Z.to_nat (y / 100 mod 10));
          digit_char (Z.to_nat (y / 10 mod 10))]).
    split; [| apply digit_char_digit; Z.div_mod_to_equations; lia].
    rewrite <- app_assoc. cbn [app]. rewrite <- app_assoc. reflexivity. }
  unfold card_date. rewrite (py_strip_id _ c1 l1 c2 l2) by done.
  unfold py_replace. rewrite replace_list_id; [apply String.string_of_list_ascii_of_string | done |].
  unfold render_tr_date. rewrite bytes_of_list. apply Forall_app. split.
  - eapply Forall_impl; [exact Dd | exact Hnl].
  - constructor; [decide_prop |]. apply Forall_app. split; [by apply month_name_no_newline |].
    constructor; [decide_prop |]. eapply Forall_impl; [exact Yd | exact Hnl].
Qed.

Lemma scrape_all_some lines links :
  scrape_all (Some lines) links =
  Some (lines ++ concat (map (fun l => map row_cells (page_rows l)) links)).
Proof.
  revert lines. induction links as [| l links IH]; intros lines; cbn [scrape_all map concat].
  - by rewrite app_nil_r.
  - unfold page_rows at 1.
    destruct (scrape_product (browse (get_review_link l))) as [data |]; cbn [default save_csv].
    + by rewrite IH, app_assoc.
    + by rewrite IH.
Qed.

Lemma scrape_all_skip file pre links :
  Forall (fun l => scrape_product (browse (get_review_link l)) = None) pre ->
  scrape_all file (pre ++ links) = scrape_all file links.
Proof. induction 1 as [| l pre Hl _ IH]; [done |]. cbn [app scrape_all]. by rewrite Hl. Qed.

Lemma page_rows_skipped pre :
  Forall (fun l => scrape_product (browse (get_review_link l)) = None) pre ->
  concat (map (fun l => map row_cells (page_rows l)) pre) = [].
Proof. induction 1 as [| l pre Hl _ IH]; [done |]. cbn. by rewrite IH; unfold page_rows; rewrite Hl. Qed.

Lemma row_cells_not_header r : row_cells r <> map PStr review_columns.
Proof. unfold row_cells. destruct (row_genel_puan r); discriminate. Qed.

Lemma scroll_loop_spec fuel hs pos last_height attempts :
  (0 <= attempts)%Z -> (attempts + Z.of_nat fuel = MAX_TOTAL_SCROLL_ATTEMPTS)%Z ->
  (pos <= 2 * Z.to_nat attempts + 1)%nat ->
  let '(a, n) := scroll_loop fuel hs pos last_height attempts in
  (attempts <= a <= MAX_TOTAL_SCROLL_ATTEMPTS)%Z /\ (n <= 2 * Z.to_nat a + 3)%nat /\
  ((a < MAX_TOTAL_SCROLL_ATTEMPTS)%Z -> height_at hs (n - 1) = height_at hs (n - 2)).
Proof.
  unfold MAX_TOTAL_SCROLL_ATTEMPTS.
  revert pos last_height attempts. induction fuel as [| fuel IH]; intros pos last a Ha Hf Hp.
  - cbn [scroll_loop]. simpl in Hf. cbv iota beta. repeat split; lia.
  - cbn [scroll_loop]. unfold MAX_TOTAL_SCROLL_ATTEMPTS. rewrite Nat2Z.inj_succ in Hf.
    destruct (Z.ltb_spec a 50) as [Hlt |]; [| lia].
    destruct (Z.eqb_spec (height_at hs pos) last) as [Heq |].
    + destruct (Z.eqb_spec (height_at hs (S pos)) (height_at hs pos)) as [Hfin |].
      * cbv iota beta. repeat split; [lia | lia | lia |]. intros _.
        by replace (S (S pos) - 1)%nat with (S pos) by lia; replace (S (S pos) - 2)%nat with pos by lia.
      * pose proof (IH (S (S pos)) (height_at hs pos) (a + 1)%Z ltac:(lia) ltac:(lia) ltac:(lia)) as H.
        destruct (scroll_loop _ _ _ _ _) as [a' n']. destruct H as (? & ? & ?). repeat split; auto; lia.
    + pose proof (IH (S pos) (height_at hs pos) (a + 1)%Z ltac:(lia) ltac:(lia) ltac:(lia)) as H.
      destruct (scroll_loop _ _ _ _ _) as [a' n']. destruct H as (? & ? & ?). repeat split; auto; lia.
Qed.

(** ** Theorems *)

(** The output CSV, started by this run, holds the header of the
    twelve review columns followed by the rows of every scraped review, in
    the order of the links and of the cards, provided the first product
    whose page loads has at least one review. *)
Theorem scrape_all_writes_header pre link data post :
  Forall (fun l => scrape_product (browse (get_review_link l)) = None) pre ->
  scrape_product (browse (get_review_link link)) = Some data -> data <> [] ->
  scrape_all None (pre ++ link :: post) =
  Some (map PStr review_columns ::
        concat (map (fun l => map row_cells (page_rows l)) (pre ++ link :: post))).
Proof.
  intros Hpre Hl Hne. rewrite scrape_all_skip by done. cbn [scrape_all]. rewrite Hl.
  destruct data as [| r rs]; [done |]. cbn [save_csv frame_header]. rewrite scrape_all_some.
  rewrite map_app, concat_app, (page_rows_skipped pre Hpre). cbn [map concat app].
  replace (page_rows link) with (r :: rs) by (unfold page_rows; by rewrite Hl). done.
Qed.

(** C34: When the first product whose page loads shows no review, the
    output CSV is created with an empty first line, and the rows appended
    after it carry no header: the file never holds the column names, so
    [pd.read_csv] takes the first review as the header. *)
Theorem empty_first_page_drops_header link links :
  scrape_product (browse (get_review_link link)) = Some [] ->
  exists lines, scrape_all None (link :: links) = Some ([] :: lines) /\
                map PStr review_columns ∉ lines.
Proof.
  intros Hl. cbn [scrape_all]. rewrite Hl. cbn [save_csv frame_header map].
  rewrite scrape_all_some. eexists. split; [reflexivity |].
  rewrite list_elem_of_In, in_concat. intros (cells & Hcells & Hin).
  apply in_map_iff in Hcells as (l & <- & _). apply in_map_iff in Hin as (r & Hr & _).
  exact (row_cells_not_header r Hr).
Qed.

(** The scroll loop ends after at most [MAX_TOTAL_SCROLL_ATTEMPTS] (50)
    attempts and at most two height readings per attempt (plus three);
    when it ends before 50 attempts, its last two height readings are
    equal. *)
Theorem scroll_reviews_bounds hs :
  let '(attempts, reads) := scroll_reviews hs in
  (0 <= attempts <= MAX_TOTAL_SCROLL_ATTEMPTS) /\ (reads <= 2 * Z.to_nat attempts + 3)%nat /\
  (attempts < MAX_TOTAL_SCROLL_ATTEMPTS -> height_at hs (reads - 1) = height_at hs (reads - 2)).
Proof.
  unfold scroll_reviews.
  pose proof (scroll_loop_spec (Z.to_nat MAX_TOTAL_SCROLL_ATTEMPTS) hs 1 (height_at hs 0) 0)
    as H.
  destruct (scroll_loop _ _ _ _ _) as [a n].
  destruct H as (? & ? & ?); [lia | unfold MAX_TOTAL_SCROLL_ATTEMPTS; lia | lia |]. auto with lia.
Qed.


End Scrape.

(** ** Witnesses *)

Lemma scrape_all_writes_header_witness :
  scrape_all demo_float demo_browse None ([] ++ "https://www.trendyol.com/a/y-p-2" :: []) =
  Some (map PStr review_columns ::
        concat (map (fun l => map row_cells (page_rows demo_float demo_browse l))
                    ([] ++ "https://www.trendyol.com/a/y-p-2" :: []))).
Proof.
  eapply scrape_all_writes_header; [constructor | reflexivity | discriminate].
Defined.

Lemma empty_first_page_drops_header_witness :
  exists lines,
    scrape_all demo_float demo_browse None
      ["https://www.trendyol.com/a/x-p-1"; "https://www.trendyol.com/a/y-p-2"] = Some ([] :: lines) /\
    map PStr review_columns ∉ lines.
Proof. apply empty_first_page_drops_header. reflexivity. Defined.


End ReviewPage.
