(* ===== verification/Pipeline.v ===== *)
(** * The scripts composed

    The two entry points that build the labelled table, run one after the
    other on the same review CSV: [src/scripts/base_metrics.py]
    ([__main__], lines 118-133) parses the dates, builds one row per
    product and writes the product table; [src/scripts/llm_extraction.py]
    ([__main__], lines 447-462) parses the same reviews again
    ([_parse_dates]), runs the extractor over the product table
    ([process_all_products] with [max_products=None]) and writes the
    merged, labelled table ([finalize_and_save]). The theorem of this file
    follows a review CSV through both scripts. *)

From S2P Require Import Prelude PyValue BaseMetrics DateParse RiskClassifier BatchRunner ReportMerge.
Import BaseMetrics DateParse RiskClassifier BatchRunner ReportMerge.

Module Pipeline.

Section Pipeline.
Context `{CsvCodec} `{DateSort}.
Variable py_sqrt : Q -> Q.
Variable json_loads : string -> option JsonTop.

(** [base_metrics.py], lines 128-133: the product rows it writes. *)
Definition base_metrics_main (raw : list RawReview) : pyres (list ProductFeatures) :=
  create_product_features (parse_turkish_dates raw).

(** [llm_extraction.py], lines 447-462, on the review CSV and the product
    rows [base_metrics.py] wrote: the final state of the extractor and the
    table [finalize_and_save] returns; an exception of
    [process_all_products] ends the script before it. *)
Definition llm_main (raw : list RawReview) (fs : list ProductFeatures) (api : LlmService)
    (checkpoint : option frame) : RunnerState * pyres (option frame) :=
  match run json_loads (parse_dates raw) fs api None checkpoint with
  | (st, Some e) => (st, Raise e)
  | (st, None) => (st, finalize_and_save (csv_read (base_metrics_frame py_sqrt fs)) (output_file st))
  end.

End Pipeline.

(** ** A review CSV *)

Definition demo_row (urun tarih yorum : string) : RawReview :=
  {| raw_marka := PStr "Koton"; raw_urun := Some urun; raw_genel_puan := PNum (9 # 2);
     raw_puan := Some 4%Z; raw_yorum := Some yorum; raw_tarih := Some tarih |}.

(** The third review's date does not exist: "etek" gets no row. *)
Definition demo_raw : list RawReview :=
  [demo_row "kazak" "5 Mayıs 2024" "güzel"; demo_row "bluz" "12 Ocak 2024" "dar";
   demo_row "etek" "31 Şubat 2024" "kısa"; demo_row "kazak" "7 Mayıs 2024" "iyi"].

Definition demo_fs : list ProductFeatures :=
  match base_metrics_main demo_raw with Ok fs => fs | Raise _ => [] end.

Definition demo_main : RunnerState * pyres (option frame) :=
  llm_main demo_sqrt demo_json demo_raw demo_fs demo_api None.

Definition empty_frame : frame := {| fr_columns := []; fr_rows := [] |}.

Definition demo_final : frame :=
  match demo_main.2 with Ok (Some T) => T | _ => empty_frame end.

Definition demo_output : frame := default empty_frame (output_file demo_main.1).

Section Proofs.
Context `{CsvCodec} `{DateSort}.
Variable py_sqrt : Q -> Q.
Variable json_loads : string -> option JsonTop.

(** ** Lemmas *)

Lemma parse_turkish_dates_names raw :
  Forall (fun r => is_Some (raw_urun r)) raw ->
  Forall (fun r => is_Some (rv_urun r)) (parse_turkish_dates raw).
Proof.
  induction 1 as [| r raw Hr _ IH]; [constructor |]. unfold parse_turkish_dates in *.
  cbn [omap list_omap]. destruct (convert_date (raw_tarih r)); [| done]. by constructor.
Qed.

Lemma parse_turkish_dates_name_in raw n :
  Some n ∈ map rv_urun (parse_turkish_dates raw) -> Some n ∈ map raw_urun raw.
Proof.
  induction raw as [| r raw IH]; intros Hin; [cbn in Hin; by apply elem_of_nil in Hin |].
  unfold parse_turkish_dates in *. cbn [omap list_omap] in Hin. cbn [map]. apply elem_of_cons.
  destruct (convert_date (raw_tarih r)); cbn [fmap option_fmap option_map map] in Hin.
  - apply elem_of_cons in Hin as [-> | Hin]; [by left | right; by apply IH].
  - right. by apply IH.
Qed.

Lemma set_label_names rows rows' cols :
  Forall2 (fun row row' => exists rc, classify_product cols row = Ok rc /\ row' = set_label row rc)
    rows rows' ->
  map row_name rows' = map row_name rows.
Proof.
  induction 1 as [| row row' rows rows' (rc & _ & ->) _ IH]; [done |].
  cbn [map]. by rewrite IH, set_label_name.
Qed.

(** ** Theorems *)

(** C11: End to end: when every review of the CSV names its product with
    a name the CSV round trip keeps, and the extractor runs to the end and
    [finalize_and_save] returns a table, that table has exactly one row per
    product name among the reviews whose date parses, in order of first
    appearance: reviews with an unparsable date contribute no product, and
    no product is lost or repeated by the runs and the merge. *)
Theorem pipeline_one_row_per_product raw fs api checkpoint st F T :
  Forall (fun r => exists n, raw_urun r = Some n /\ csv_cell (PStr n) = PStr n) raw ->
  file_ok checkpoint ->
  base_metrics_main raw = Ok fs ->
  llm_main py_sqrt json_loads raw fs api checkpoint = (st, Ok (Some T)) ->
  output_file st = Some F -> columns_disjoint F ->
  map row_name (fr_rows T) = py_unique (map rv_urun (parse_turkish_dates raw)).
Proof.
  intros Hraw Hok Hfs Hllm HF Hdis.
  destruct (create_product_features_names (parse_turkish_dates raw)) as (fs' & Hfs' & Hmap).
  { apply parse_turkish_dates_names. eapply Forall_impl; [exact Hraw |]. naive_solver. }
  unfold base_metrics_main in Hfs. rewrite Hfs in Hfs'. injection Hfs' as <-.
  unfold llm_main in Hllm. destruct (run _ _ _ _ _ _) as [st' [e |]] eqn:Hrun; [discriminate |].
  injection Hllm as <- Hfin. rewrite HF in Hfin.
  assert (Forall (fun n => csv_cell (PStr n) = PStr n) (map pf_urun fs)) as Hst.
  { apply Forall_forall. intros n Hn. apply list_elem_of_fmap in Hn as (f & -> & Hf).
    assert (Some (pf_urun f) ∈ map rv_urun (parse_turkish_dates raw)) as Hin.
    { rewrite <- elem_of_py_unique, <- Hmap. by apply (elem_of_map_2 (fun f => Some (pf_urun f))). }
    apply parse_turkish_dates_name_in, elem_of_map_inv in Hin as (r & Hr & Hr').
    eapply Forall_forall in Hraw as (n & Hn & Hs); [| exact Hr']. rewrite Hn in Hr. by injection Hr as ->. }
  assert (file_ok (Some F)) as HokF.
  { rewrite <- HF. eapply run_file_ok; [by eapply unique_names_nodup | exact Hst | exact Hok | exact Hrun]. }
  unfold finalize_and_save in Hfin. rewrite merge_product_table in Hfin by done.
  cbn [pybind] in Hfin. destruct (create_risk_class _) as [T' |] eqn:Hc; [| discriminate].
  injection Hfin as <-. apply create_risk_class_rows in Hc as [_ Hc].
  rewrite (set_label_names _ _ _ Hc). cbn [fr_rows].
  destruct HokF as [_ Hnd]. by rewrite merged_rows_names.
Qed.

End Proofs.

Lemma pipeline_one_row_per_product_witness :
  map row_name (fr_rows demo_final) = [Some "kazak"; Some "bluz"].
Proof.
  rewrite (pipeline_one_row_per_product demo_sqrt demo_json demo_raw demo_fs demo_api None
             demo_main.1 demo_output demo_final).
  - vm_compute. reflexivity.
  - repeat constructor; eexists; split; reflexivity.
  - split; [done | constructor].
  - vm_compute. reflexivity.
  - vm_compute. reflexivity.
  - vm_compute. reflexivity.
  - decide_prop.
Defined.

End Pipeline.
