(* ===== verification/Evaluate.v ===== *)
(** * Training and evaluation in the training script

    [src/scripts/train_model.py], lines 71-226, after the feature
    preparation of [Train]: the stratified split ([train_test_split],
    lines 71-73), [SMOTE] (lines 83-84), the balanced sample weights
    (lines 94-97), the fit and the predictions (lines 113 and 122), the
    scores and the report (lines 124-137), the confusion-matrix cell
    texts (lines 142-147), the SHAP file names (line 204) and the wrong
    predictions (lines 225-226).

    The script only calls sklearn and imblearn here; what it computes is
    what those calls return on its arguments, so each call is modelled by
    the library's own computation at those arguments: the size arithmetic
    and argument checks of [train_test_split] and [StratifiedShuffleSplit],
    the class counts of [SMOTE]'s resampling with its neighbour check,
    [compute_sample_weight], [accuracy_score], [f1_score],
    [confusion_matrix] and the label check of [classification_report].
    What is random (which rows go to the test side, where [SMOTE] puts a
    new sample) and XGBoost itself are parameters. Labels are the integers
    of 'Risk_Class'; scores are exact rationals. *)

From Stdlib Require Import Qround.
From stdpp Require Import sorting.
From S2P Require Import Prelude PyValue BaseMetrics DateParse.
Import DateParse.

Module Evaluate.

(** ** Labels *)

(** [np.bincount] at a label: how many entries of [y] are [c]. *)
Definition class_count (y : list Z) (c : Z) : nat :=
  length (filter (fun x => x = c) y).

(** [np.unique(y)]: the labels of [y], each once, in increasing order. *)
Definition np_unique (y : list Z) : list Z :=
  merge_sort Z.le (remove_dups y).

(** ** [train_test_split(X, y, test_size=0.25, random_state=42, stratify=y)] *)

Definition test_size : Q := 1 # 4.

(** [_validate_shuffle_split(n_samples, 0.25, None)]: [n_test] is
    [ceil(test_size * n_samples)], [n_train] the rest; an empty train
    side is a [ValueError]. *)
Definition validate_shuffle_split (n_samples : nat) : pyres (nat * nat) :=
  let n_test := Z.to_nat (Qceiling (test_size * inject_Z (Z.of_nat n_samples))) in
  let n_train := (n_samples - n_test)%nat in
  if bool_decide (n_train = 0%nat) then Raise ValueError else Ok (n_train, n_test).

(** [StratifiedShuffleSplit._iter_indices], its checks before the draw:
    [np.min(class_counts) < 2], [n_train < n_classes] and
    [n_test < n_classes] raise [ValueError]. *)
Definition stratified_checks (y : list Z) (n_train n_test : nat) : pyres unit :=
  let classes := np_unique y in
  let n_classes := length classes in
  if existsb (fun c => bool_decide (class_count y c < 2)%nat) classes then Raise ValueError
  else if bool_decide (n_train < n_classes)%nat then Raise ValueError
  else if bool_decide (n_test < n_classes)%nat then Raise ValueError
  else Ok tt.

(** Lines 71-73 up to the draw: the sizes of the train and test sides, or
    the [ValueError] that ends the script. *)
Definition train_test_split_sizes (y : list Z) : pyres (nat * nat) :=
  sizes <- validate_shuffle_split (length y) ;;
  _ <- stratified_checks y sizes.1 sizes.2 ;;
  Ok sizes.

(** ** [SMOTE(random_state=42, k_neighbors=3).fit_resample(X_train, y_train)] *)

Definition k_neighbors : nat := 3.

(** [_sampling_strategy_not_majority]: the largest class count. *)
Definition majority_count (y : list Z) : nat :=
  list_max (map (class_count y) (np_unique y)).

(** [max(target_stats, key=target_stats.get)]: the first label, in the
    order of [np.unique], with the largest count. *)
Definition class_majority (y : list Z) : option Z :=
  find (fun c => bool_decide (class_count y c = majority_count y)) (np_unique y).

(** The samples to add per class, for every class but the majority one,
    in increasing label order ([OrderedDict(sorted(...))]). *)
Definition sampling_strategy (y : list Z) : list (Z * nat) :=
  map (fun c => (c, majority_count y - class_count y c)%nat)
    (filter (fun c => class_majority y ≠ Some c) (np_unique y)).

Section Smote.
Context {R : Type}.

(** [_make_samples]: [n] new rows, each between a row of the class and
    one of its [k_neighbors] nearest neighbours; where they fall is
    random and is not modelled. *)
Variable make_samples : list R -> nat -> list R.

(** The rows of [X] whose label is [c] ([X[y == c]]). *)
Definition rows_of_class (X : list R) (y : list Z) (c : Z) : list R :=
  omap (fun '(x, l) => if bool_decide (l = c) then Some x else None) (zip X y).

(** [SMOTE._fit_resample]'s loop: a class with nothing to add is skipped;
    for the others, [NearestNeighbors(n_neighbors=k_neighbors+1)]'s
    [kneighbors] raises [ValueError] when the class has fewer rows than
    that, else [n] rows of label [c] are generated. *)
Fixpoint smote_loop (X : list R) (y : list Z) (strategy : list (Z * nat))
    : pyres (list R * list Z) :=
  match strategy with
  | [] => Ok ([], [])
  | (c, n) :: rest =>
      if bool_decide (n = 0%nat) then smote_loop X y rest
      else
        let X_class := rows_of_class X y c in
        if bool_decide (length X_class < k_neighbors + 1)%nat then Raise ValueError
        else
          r <- smote_loop X y rest ;;
          Ok (make_samples X_class n ++ r.1, replicate n c ++ r.2)
  end.

(** [fit_resample]: [check_X_y] (consistent lengths), the one-class check
    of [check_sampling_strategy], then the original rows followed by the
    new ones ([np.vstack], [np.hstack]). *)
Definition smote_fit_resample (X : list R) (y : list Z) : pyres (list R * list Z) :=
  if bool_decide (length X ≠ length y) then Raise ValueError
  else if bool_decide (length (np_unique y) <= 1)%nat then Raise ValueError
  else
    r <- smote_loop X y (sampling_strategy y) ;;
    Ok (X ++ r.1, y ++ r.2).

End Smote.

(** ** [compute_sample_weight(class_weight='balanced', y=y_train_balanced)] *)

(** [compute_class_weight('balanced', ...)] at a label:
    [len(y) / (n_classes * np.bincount(y))]. *)
Definition balanced_weight (y : list Z) (c : Z) : Q :=
  inject_Z (Z.of_nat (length y)) /
    (inject_Z (Z.of_nat (length (np_unique y))) * inject_Z (Z.of_nat (class_count y c))).

(** Lines 94-97: every sample gets the weight of its class. *)
Definition compute_sample_weight (y : list Z) : list Q :=
  map (balanced_weight y) y.

(** ** The classifier *)

(** [XGBClassifier.fit]'s label check: the labels of [y], in order, must
    be [0, 1, ..., n_classes - 1], else [ValueError] ("Invalid classes
    inferred from unique values of y"). *)
Definition xgb_check_classes (y : list Z) : pyres unit :=
  let classes := np_unique y in
  if bool_decide (classes = map Z.of_nat (seq 0 (length classes))) then Ok tt
  else Raise ValueError.

(** ** Scores and report *)

(** [check_consistent_length] of the metrics: [ValueError] on two label
    vectors of different lengths. *)
Definition check_consistent_length (yt yp : list Z) : pyres unit :=
  if bool_decide (length yt = length yp) then Ok tt else Raise ValueError.

(** The samples whose true label is [a] and predicted label [b]. *)
Definition pair_count (yt yp : list Z) (a b : Z) : nat :=
  length (filter (fun '(t, p) => t = a /\ p = b) (zip yt yp)).

Definition n_correct (yt yp : list Z) : nat :=
  length (filter (fun '(t, p) => t = p) (zip yt yp)).

(** Line 124: [accuracy_score(y_test, y_pred)]. *)
Definition accuracy_score (yt yp : list Z) : Q :=
  inject_Z (Z.of_nat (n_correct yt yp)) / inject_Z (Z.of_nat (length yt)).

(** [unique_labels(y_true, y_pred)]: the labels of both, sorted. *)
Definition unique_labels (yt yp : list Z) : list Z := np_unique (yt ++ yp).

(** The F1 score of one label, [2 tp / (true_sum + pred_sum)], [0] when
    the label has neither (the [zero_division] default). *)
Definition f1_of_label (yt yp : list Z) (c : Z) : Q :=
  let denom := (class_count yt c + class_count yp c)%nat in
  if bool_decide (denom = 0%nat) then 0%Q
  else inject_Z (2 * Z.of_nat (pair_count yt yp c c)) / inject_Z (Z.of_nat denom).

(** Line 125: [f1_score(y_test, y_pred, average='weighted')], the mean of
    the labels' scores weighted by their support in [y_test]. *)
Definition f1_score_weighted (yt yp : list Z) : Q :=
  let labels := unique_labels yt yp in
  let w := sum_list (map (class_count yt) labels) in
  if bool_decide (w = 0%nat) then 0%Q
  else (fold_right Qplus 0
          (map (fun c => f1_of_label yt yp c * inject_Z (Z.of_nat (class_count yt c))) labels)
        / inject_Z (Z.of_nat w))%Q.

(** Line 130. *)
Definition class_names : list string := ["Healthy"; "Quality Churn"; "Engagement Churn"].

(** Line 132: [classification_report(y_test, y_pred,
    target_names=class_names)] without [labels] raises [ValueError] when
    the labels found are not as many as the names. *)
Definition classification_report_check (yt yp : list Z) : pyres unit :=
  if bool_decide (length (unique_labels yt yp) = length class_names) then Ok tt
  else Raise ValueError.

(** Line 135: [confusion_matrix(y_test, y_pred)]; row [i], column [j]
    counts the samples of true label [labels[i]] predicted [labels[j]]. *)
Definition confusion_matrix (yt yp : list Z) : list (list nat) :=
  let labels := unique_labels yt yp in
  map (fun a => map (fun b => pair_count yt yp a b) labels) labels.

(** The diagonal of a square matrix, summed. *)
Definition trace (cm : list (list nat)) : nat :=
  sum_list (imap (fun i row => default 0%nat (row !! i)) cm).

(** Line 137: [cm.astype('float') / cm.sum(axis=1)[:, np.newaxis]]; a row
    that sums to [0] (a label that is only predicted) divides [0] by [0],
    which numpy makes [NaN]. *)
Definition normalize_rows (cm : list (list nat)) : list (list PyVal) :=
  map (fun row =>
         let s := sum_list row in
         map (fun x => if bool_decide (s = 0%nat) then PNaN
                       else PNum (inject_Z (Z.of_nat x) / inject_Z (Z.of_nat s))%Q) row) cm.

(** [cm_normalized[i, j]]: [IndexError] out of the matrix. *)
Definition np_index2 (m : list (list PyVal)) (i j : nat) : pyres PyVal :=
  match m !! i with
  | Some row => match row !! j with Some v => Ok v | None => Raise IndexError end
  | None => Raise IndexError
  end.

(** Lines 142-147: the percentage written in every cell, [i] and [j] over
    [range(len(class_names))]. *)
Definition cm_text_cells (cmn : list (list PyVal)) : pyres (list PyVal) :=
  py_mapM (fun ij => np_index2 cmn ij.1 ij.2)
    (list_prod (seq 0 (length class_names)) (seq 0 (length class_names))).

(** Lines 225-226: the rows of [results_df] whose two classes differ. *)
Definition wrong_count (yt yp : list Z) : nat :=
  length (filter (fun '(t, p) => t ≠ p) (zip yt yp)).

(** Line 204: the file of the SHAP plot of class [class_idx]
    ([f'shap_{class_idx}_{class_name.replace(" ", "_")}.png'], in
    [output_dir]); [class_idx] is a single digit. *)
Definition shap_file_name (class_idx : nat) (class_name : string) : string :=
  "shap_" ++ String (digit_char class_idx) EmptyString ++ "_" ++
  py_replace class_name " " "_" ++ ".png".

(** The files the script writes into [output_dir], in order (lines 152,
    176, 204 and 221). *)
Definition output_files : list string :=
  ["confusion_matrix.png"; "feature_importance.png"] ++
  imap shap_file_name class_names ++ ["predictions.csv"].

(** ** Feature importance (lines 161-164) *)

(** [pd.DataFrame({'feature': llm_features, 'importance':
    model.feature_importances_})]: [ValueError] when the two columns have
    different lengths. *)
Definition importance_frame (features : list string) (importances : list Q)
    : pyres (list (string * Q)) :=
  if bool_decide (length features = length importances) then Ok (zip features importances)
  else Raise ValueError.

(** The order of [sort_values('importance', ascending=False)]: a row goes
    before another when its importance is at least the other's. *)
Definition importance_ge (a b : string * Q) : Prop := Qle_bool b.2 a.2 = true.

#[export] Instance importance_ge_dec : RelDecision importance_ge.
Proof. intros a b. unfold importance_ge. apply _. Defined.

(** [.sort_values('importance', ascending=False)] ([nargsort]: argsort of
    the reversed column, reversed back). With a stable argsort, numpy's
    quicksort on seven rows being its insertion sort, rows of equal
    importance keep their table order, as in this stable merge sort; a
    vectorised argsort may order such rows differently, and the theorems
    below use only that the result lists the rows by non-increasing
    importance. *)
Definition sort_by_importance (rows : list (string * Q)) : list (string * Q) :=
  merge_sort importance_ge rows.

(** ** SHAP values per class (lines 185-193) *)

(** What [explainer.shap_values(X_test.head(100))] returns: a list with
    one matrix per class, or one array of shape (samples, features,
    classes). *)
Inductive ShapValues : Type :=
  | ShapList (per_class : list (list (list Q)))
  | ShapArray (values : list (list (list Q))).

(** Lines 190-193: [shap_values[class_idx]] for a list,
    [shap_values[:, :, class_idx]] for an array; [IndexError] past the
    classes. *)
Definition shap_for_class (sv : ShapValues) (class_idx : nat) : pyres (list (list Q)) :=
  match sv with
  | ShapList l => match l !! class_idx with Some m => Ok m | None => Raise IndexError end
  | ShapArray a =>
      py_mapM (fun row => py_mapM (fun cell => match cell !! class_idx with
                                                | Some v => Ok v | None => Raise IndexError end) row) a
  end.

(** Lines 188-207: for each class, its matrix and the file its plot goes
    to. *)
Definition shap_plots (sv : ShapValues) : pyres (list (string * list (list Q))) :=
  py_mapM (fun '(class_idx, class_name) =>
             m <- shap_for_class sv class_idx ;; Ok (shap_file_name class_idx class_name, m))
    (imap pair class_names).

(** ** The script from the split to the last count *)

(** What the script computes and prints from line 71 on. *)
Record Evaluation (R : Type) : Type := {
  ev_train : list R * list Z;              (** [X_train_balanced, y_train_balanced] *)
  ev_sample_weights : list Q;
  ev_test : list Z * list Z;               (** [y_test, y_pred] *)
  ev_accuracy : Q;
  ev_f1 : Q;
  ev_confusion : list (list nat);
  ev_cm_cells : list PyVal;
  ev_results : list (PyVal * (Z * Z));      (** ['Ürün'], [True_Class], [Predicted_Class] *)
  ev_wrong : nat
}.
Arguments ev_train {R}. Arguments ev_sample_weights {R}. Arguments ev_test {R}. Arguments ev_accuracy {R}.
Arguments ev_f1 {R}. Arguments ev_confusion {R}. Arguments ev_cm_cells {R}.
Arguments ev_results {R}. Arguments ev_wrong {R}.

(** [X.iloc[idx]]: the rows at the drawn positions. *)
Definition select {A} (l : list A) (idx : list nat) : list A := omap (fun i => l !! i) idx.

Section Script.
Context {R M : Type}.

(** [StratifiedShuffleSplit]'s random draw: the train and the test row
    positions, given [y] and the two sizes. *)
Variable draw : list Z -> nat -> nat -> list nat * list nat.
Variable make_samples : list R -> nat -> list R.
(** [XGBClassifier(...).fit(X, y, sample_weight=w)] past its label check,
    and [model.predict]. *)
Variable fit : list R -> list Z -> list Q -> M.
Variable predict : M -> list R -> list Z.

(** Lines 71-226 on the products' names ['Ürün'], the feature rows [X]
    and the labels [y] that [Train.prepare_training_data] returned. *)
Definition train_evaluate (names : list PyVal) (X : list R) (y : list Z)
    : pyres (Evaluation R) :=
  sizes <- train_test_split_sizes y ;;
  let idx := draw y sizes.1 sizes.2 in
  let X_test := select X idx.2 in
  let y_test := select y idx.2 in
  bal <- smote_fit_resample make_samples (select X idx.1) (select y idx.1) ;;
  let w := compute_sample_weight bal.2 in
  _ <- xgb_check_classes bal.2 ;;
  let y_pred := predict (fit bal.1 bal.2 w) X_test in
  _ <- check_consistent_length y_test y_pred ;;
  _ <- classification_report_check y_test y_pred ;;
  let cm := confusion_matrix y_test y_pred in
  cells <- cm_text_cells (normalize_rows cm) ;;
  Ok {| ev_train := bal; ev_sample_weights := w; ev_test := (y_test, y_pred);
        ev_accuracy := accuracy_score y_test y_pred; ev_f1 := f1_score_weighted y_test y_pred;
        ev_confusion := cm; ev_cm_cells := cells;
        ev_results := zip (select names idx.2) (zip y_test y_pred);
        ev_wrong := wrong_count y_test y_pred |}.

End Script.

(** ** Fixtures *)

(** Twelve products, four per class; the feature of a row is its label. *)
Definition demo_labels : list Z := [0; 0; 0; 0; 1; 1; 1; 1; 2; 2; 2; 2]%Z.
Definition demo_names : list PyVal := map (fun _ => PStr "urun") demo_labels.

(** A stratified draw: three rows of each class for training, one for
    testing. *)
Definition demo_draw (y : list Z) (n_train n_test : nat) : list nat * list nat :=
  ([0; 1; 2; 4; 5; 6; 8; 9; 10], [3; 7; 11])%nat.

Definition demo_make_samples (Xc : list Z) (n : nat) : list Z := replicate n (default 0%Z (head Xc)).

(** A model that predicts class 1 for class 2. *)
Definition demo_predict (model : unit) (X_test : list Z) : list Z :=
  map (fun x => if bool_decide (x = 2%Z) then 1%Z else x) X_test.

Definition demo_evaluate : pyres (Evaluation Z) :=
  train_evaluate demo_draw demo_make_samples (fun _ _ _ => tt) demo_predict
    demo_names demo_labels demo_labels.

(** Training labels with a class of four and one of five. *)
Definition demo_train : list Z := [0; 0; 0; 0; 0; 1; 1; 1; 1]%Z.

(** ** Lemmas *)

(** *** Counts and labels *)

Lemma elem_of_np_unique y c : c ∈ np_unique y <-> c ∈ y.
Proof. unfold np_unique. by rewrite (merge_sort_Permutation _ _), elem_of_remove_dups. Qed.

Lemma NoDup_np_unique y : NoDup (np_unique y).
Proof. unfold np_unique. rewrite (merge_sort_Permutation _ _). apply NoDup_remove_dups. Qed.

Lemma class_count_app y z c : class_count (y ++ z) c = (class_count y c + class_count z c)%nat.
Proof. unfold class_count. by rewrite filter_app, length_app. Qed.

Lemma class_count_replicate n c d :
  class_count (replicate n c) d = if bool_decide (c = d) then n else 0%nat.
Proof.
  unfold class_count. destruct (decide (c = d)) as [<- | Hne].
  - rewrite bool_decide_true by done. induction n; cbn [replicate]; [done |].
    rewrite filter_cons_True by done. cbn [length]; lia.
  - rewrite bool_decide_false by done. induction n; cbn [replicate]; [done |].
    by rewrite filter_cons_False.
Qed.

#[export] Hint Rewrite class_count_app class_count_replicate : churn_rw.

Lemma sum_list_map_add {A} (f g : A -> nat) (L : list A) :
  sum_list (map (fun c => f c + g c)%nat L) = (sum_list (map f L) + sum_list (map g L))%nat.
Proof. induction L; cbn; lia. Qed.

Lemma sum_indicator_not_in (k : Z) (L : list Z) :
  k ∉ L -> sum_list (map (fun c => if decide (k = c) then 1 else 0)%nat L) = 0%nat.
Proof. induction L; intros Hk; cbn; [done |]. case_decide; [set_solver |]. rewrite IHL; set_solver. Qed.

Lemma sum_indicator (k : Z) (L : list Z) :
  NoDup L -> k ∈ L -> sum_list (map (fun c => if decide (k = c) then 1 else 0)%nat L) = 1%nat.
Proof.
  induction 1 as [| c L Hc HL IH]; intros Hk; [set_solver |]. cbn [map sum_list].
  case_decide; [subst; rewrite sum_indicator_not_in; [reflexivity | done] |]. rewrite IH; set_solver.
Qed.

(** Counting the entries of [l] that pass [P], label by label over a list
    [L] without duplicates that has the label of every such entry. *)
Lemma sum_count_by_label {A} (P : A -> Prop) `{forall x, Decision (P x)} (key : A -> Z)
    (L : list Z) (l : list A) :
  NoDup L -> (forall x, x ∈ l -> P x -> key x ∈ L) ->
  sum_list (map (fun c => length (filter (fun x => P x /\ key x = c) l)) L) = length (filter P l).
Proof.
  intros HL. induction l as [| x l IH]; intros Hin.
  - clear. induction L as [| c L IHL]; [done |]. cbn [map sum_list]. exact IHL.
  - transitivity (sum_list (map (fun c => (if decide (key x = c) then if decide (P x) then 1 else 0 else 0)
                     + length (filter (fun x => P x /\ key x = c) l))%nat L)).
    { f_equal. apply map_ext. intros c. rewrite filter_cons. by repeat case_decide; naive_solver. }
    rewrite sum_list_map_add, IH by (intros; apply Hin; [by right | done]).
    rewrite filter_cons. case_decide as HP; cbn [length].
    + replace (map _ L) with (map (fun c => if decide (key x = c) then 1 else 0)%nat L)
        by (apply map_ext; intros c; repeat case_decide; naive_solver).
      rewrite sum_indicator; [lia | done | by apply Hin; [left |]].
    + replace (map _ L) with (map (fun _ => 0%nat) L)
        by (apply map_ext; intros c; repeat case_decide; naive_solver).
      clear. induction L; cbn in *; lia.
Qed.

Lemma filter_True_id {A} (l : list A) : filter (fun _ => True) l = l.
Proof. induction l as [| x l IH]; [done |]. by rewrite filter_cons_True, IH. Qed.

(** The labels of [y], counted one by one, add up to its length. *)
Lemma sum_class_counts y : sum_list (map (class_count y) (np_unique y)) = length y.
Proof.
  transitivity (length (filter (fun _ => True) y)); [| by rewrite filter_True_id]. unfold class_count.
  rewrite <- (sum_count_by_label (fun _ => True) id (np_unique y) y);
    [| apply NoDup_np_unique | intros x Hx _; by apply elem_of_np_unique].
  f_equal. apply map_ext. intros c. f_equal. apply list_filter_iff. unfold id. naive_solver.
Qed.

(** *** The split *)

Lemma n_test_eq n : Z.to_nat (Qceiling (test_size * inject_Z (Z.of_nat n))) = ((n + 3) / 4)%nat.
Proof.
  apply Nat2Z.inj. rewrite Z2Nat.id, Nat2Z.inj_div, Nat2Z.inj_add.
  - unfold Qceiling, Qfloor, test_size. cbn. Z.div_mod_to_equations. lia.
  - unfold Qceiling, Qfloor, test_size. cbn. Z.div_mod_to_equations. lia.
Qed.

Lemma stratified_checks_exc y a b e : stratified_checks y a b = Raise e -> e = ValueError.
Proof. unfold stratified_checks. by repeat case_match; intros [= <-]. Qed.

Lemma train_test_split_sizes_exc y e : train_test_split_sizes y = Raise e -> e = ValueError.
Proof.
  unfold train_test_split_sizes, validate_shuffle_split.
  case_bool_decide; cbn [pybind]; [by intros [= <-] |].
  destruct (stratified_checks _ _ _) eqn:Hs; cbn [pybind]; [done |].
  intros [= <-]. by eapply stratified_checks_exc.
Qed.

(** The sizes in closed form, with the conditions under which sklearn
    accepts the labels. *)
Lemma train_test_split_sizes_ok y a b :
  train_test_split_sizes y = Ok (a, b) <->
  b = ((length y + 3) / 4)%nat /\ a = (length y - b)%nat /\ a ≠ 0%nat /\
  Forall (fun c => 2 <= class_count y c)%nat (np_unique y) /\
  (length (np_unique y) <= a)%nat /\ (length (np_unique y) <= b)%nat.
Proof.
  unfold train_test_split_sizes, validate_shuffle_split, stratified_checks. rewrite n_test_eq.
  case_bool_decide as H0; cbn [pybind]; [split; [done | lia] |].
  destruct (existsb _ _) eqn:He; cbn [pybind].
  { split; [done |]. intros (_ & _ & _ & Hf & _). apply existsb_exists in He as (c & Hc & Hlt).
    apply bool_decide_eq_true in Hlt. rewrite Forall_forall in Hf. apply list_elem_of_In in Hc.
    specialize (Hf c Hc). lia. }
  assert (Forall (fun c => 2 <= class_count y c)%nat (np_unique y)).
  { apply Forall_forall. intros c Hc. apply list_elem_of_In in Hc.
    destruct (existsb_exists (fun c => bool_decide (class_count y c < 2)%nat) (np_unique y)) as [_ Hx].
    destruct (decide (class_count y c < 2)%nat); [| lia]. rewrite Hx in He; [done |].
    exists c. split; [done | by apply bool_decide_eq_true]. }
  repeat case_bool_decide; cbn [pybind fst snd] in *; split; intros Hs; try discriminate.
  all: try (injection Hs as <- <-; naive_solver lia).
  all: destruct Hs as (-> & -> & _ & _ & ? & ?); first [reflexivity | exfalso; lia].
Qed.

(** *** SMOTE *)

Lemma class_count_le_majority y c : c ∈ y -> (class_count y c <= majority_count y)%nat.
Proof.
  intros Hc. unfold majority_count.
  assert (Forall (fun k => k <= list_max (map (class_count y) (np_unique y)))%nat
            (map (class_count y) (np_unique y))) as Hall by (by apply list_max_le).
  rewrite Forall_forall in Hall. apply Hall, elem_of_map_2, elem_of_np_unique, Hc.
Qed.

Lemma class_majority_count y c : class_majority y = Some c -> class_count y c = majority_count y.
Proof. unfold class_majority. intros Hf. apply find_some in Hf as [_ Hf]. by apply bool_decide_eq_true in Hf. Qed.

(** The labels SMOTE adds, one block per class of the strategy. *)
Definition added_labels (strategy : list (Z * nat)) : list Z :=
  concat (map (fun '(c, n) => replicate n c) strategy).

Lemma class_count_added (g : Z -> nat) (L : list Z) d :
  NoDup L ->
  class_count (added_labels (map (fun c => (c, g c)) L)) d =
  if bool_decide (d ∈ L) then g d else 0%nat.
Proof.
  unfold added_labels. induction 1 as [| c L Hc HL IH]; [done |].
  cbn [map concat]. rewrite class_count_app, class_count_replicate, IH.
  repeat case_bool_decide; set_solver.
Qed.

Lemma elem_of_added_labels (g : Z -> nat) (L : list Z) d :
  d ∈ added_labels (map (fun c => (c, g c)) L) -> d ∈ L.
Proof.
  unfold added_labels. induction L as [| c L IH]; cbn [map concat]; [set_solver |].
  rewrite elem_of_app. intros [[-> _]%elem_of_replicate | Hd]; [apply list_elem_of_here | apply elem_of_cons; right; by apply IH].
Qed.

Lemma sampling_strategy_eq y :
  sampling_strategy y =
  map (fun c => (c, majority_count y - class_count y c)%nat)
    (filter (fun c => class_majority y ≠ Some c) (np_unique y)).
Proof. done. Qed.

Lemma smote_loop_ok {R} (mk : list R -> nat -> list R) X y strategy xs ys :
  smote_loop mk X y strategy = Ok (xs, ys) -> ys = added_labels strategy.
Proof.
  revert xs ys. unfold added_labels. induction strategy as [| [c n] strategy IH]; intros xs ys.
  - by intros [= <- <-].
  - cbn [smote_loop]. case_bool_decide as Hn; [subst n; apply IH |].
    case_bool_decide; [done |]. destruct (smote_loop _ _ _ _) as [[xs' ys'] |] eqn:Hr; [| done].
    cbn [pybind fst snd]. intros [= _ <-]. by rewrite (IH _ _ eq_refl).
Qed.

Lemma smote_loop_length {R} (mk : list R -> nat -> list R) X y strategy xs ys :
  (forall Xc n, length (mk Xc n) = n) ->
  smote_loop mk X y strategy = Ok (xs, ys) -> length xs = length ys.
Proof.
  intros Hmk. revert xs ys. induction strategy as [| [c n] strategy IH]; intros xs ys.
  - by intros [= <- <-].
  - cbn [smote_loop]. case_bool_decide; [apply IH |].
    case_bool_decide; [done |]. destruct (smote_loop _ _ _ _) as [[xs' ys'] |] eqn:Hr; [| done].
    cbn [pybind fst snd]. intros [= <- <-]. rewrite !length_app, length_replicate, Hmk. by rewrite (IH _ _ eq_refl).
Qed.

Lemma smote_loop_exc {R} (mk : list R -> nat -> list R) X y strategy e :
  smote_loop mk X y strategy = Raise e -> e = ValueError.
Proof.
  induction strategy as [| [c n] strategy IH]; cbn [smote_loop]; [done |].
  case_bool_decide; [done |]. case_bool_decide; [by intros [= <-] |].
  destruct (smote_loop _ _ _ _); cbn [pybind]; [done | apply IH; done].
Qed.

(** A class with samples to add and fewer rows than the neighbour count
    stops the loop. *)
Lemma smote_loop_short {R} (mk : list R -> nat -> list R) X y strategy c n :
  (c, n) ∈ strategy -> n ≠ 0%nat -> (length (rows_of_class X y c) < k_neighbors + 1)%nat ->
  smote_loop mk X y strategy = Raise ValueError.
Proof.
  intros Hin Hn Hshort. destruct (smote_loop mk X y strategy) as [[xs ys] | e] eqn:Hr;
    [| by apply smote_loop_exc in Hr as ->].
  exfalso. revert xs ys Hr. induction strategy as [| [c' n'] strategy IH]; intros xs ys; [set_solver |].
  apply elem_of_cons in Hin as [[= <- <-] | Hin].
  - cbn [smote_loop]. rewrite bool_decide_false by done. by rewrite bool_decide_true.
  - cbn [smote_loop]. case_bool_decide; [by apply IH |]. case_bool_decide; [done |].
    destruct (smote_loop _ _ _ _) as [[xs' ys'] |] eqn:Hr'; [| done]. intros _. by apply (IH Hin xs' ys').
Qed.

Lemma length_rows_of_class {R} (X : list R) y c :
  length X = length y -> length (rows_of_class X y c) = class_count y c.
Proof.
  unfold rows_of_class, class_count. revert y. induction X as [| x X IH]; intros [| l y] Hl; try done.
  cbn [zip_with omap list_omap]. rewrite filter_cons. case_bool_decide; case_decide; try done.
  - cbn [length]. rewrite IH; [done | cbn in Hl; lia].
  - apply IH. cbn in Hl; lia.
Qed.

Lemma class_count_pos y c : c ∈ y -> (1 <= class_count y c)%nat.
Proof.
  intros Hc. unfold class_count. destruct (filter (fun x => x = c) y) eqn:Hf; cbn [length]; [| lia].
  exfalso. by apply (filter_nil_not_elem_of _ _ c Hf).
Qed.

Lemma sum_list_const {A} (f : A -> nat) (L : list A) m :
  (forall x, x ∈ L -> f x = m) -> sum_list (map f L) = (length L * m)%nat.
Proof.
  induction L as [| x L IH]; intros Hf; [done |]. cbn [map sum_list length].
  rewrite (Hf x (list_elem_of_here _ _)), IH; [reflexivity | intros; apply Hf; set_solver].
Qed.

(** What [fit_resample] returns: the input first, then the new rows and
    the labels of the strategy. *)
Lemma smote_resample_shape {R} (mk : list R -> nat -> list R) X y X' y' :
  smote_fit_resample mk X y = Ok (X', y') ->
  length X = length y /\ (1 < length (np_unique y))%nat /\
  exists xs, smote_loop mk X y (sampling_strategy y) = Ok (xs, added_labels (sampling_strategy y)) /\
             X' = X ++ xs /\ y' = y ++ added_labels (sampling_strategy y).
Proof.
  unfold smote_fit_resample. case_bool_decide as Hl; [done |]. case_bool_decide as Hk; [done |].
  destruct (smote_loop mk X y _) as [[xs ys] |] eqn:Hr; [| done]. cbn [pybind fst snd].
  intros [= <- <-]. pose proof (smote_loop_ok _ _ _ _ _ _ Hr) as ->.
  split; [lia | split; [lia |]]. by exists xs.
Qed.

(** Every class of the input ends with the majority count, and no class
    is added. *)
Lemma smote_resample_counts {R} (mk : list R -> nat -> list R) X y X' y' :
  smote_fit_resample mk X y = Ok (X', y') ->
  (forall c, c ∈ y' <-> c ∈ y) /\ (forall c, c ∈ y -> class_count y' c = majority_count y).
Proof.
  intros (_ & _ & xs & _ & _ & ->)%smote_resample_shape. rewrite sampling_strategy_eq.
  split.
  - intros c. rewrite elem_of_app. split; [| by left].
    intros [Hc | Hc%(elem_of_added_labels (fun c => majority_count y - class_count y c)%nat)]; [done |].
    apply list_elem_of_filter in Hc as [_ Hc]. by apply elem_of_np_unique.
  - intros c Hc. rewrite class_count_app,
      (class_count_added (fun c => majority_count y - class_count y c)%nat)
      by (apply NoDup_filter, NoDup_np_unique).
    pose proof (class_count_le_majority y c Hc).
    case_bool_decide as Hin; [lia |]. rewrite list_elem_of_filter, elem_of_np_unique in Hin.
    destruct (class_majority y) as [d |] eqn:Hm; [| naive_solver].
    destruct (decide (d = c)) as [-> | Hne]; [| naive_solver].
    rewrite (class_majority_count _ _ Hm). lia.
Qed.

(** *** Scores *)

(** The diagonal of a matrix built label by label. *)
Lemma trace_square {A} (f : A -> A -> nat) (L : list A) :
  trace (map (fun a => map (f a) L) L) = sum_list (map (fun a => f a a) L).
Proof.
  unfold trace. f_equal. apply list_eq. intros i. rewrite list_lookup_imap.
  change (map ?g ?l) with (g <$> l). rewrite !list_lookup_fmap.
  destruct (L !! i) eqn:E; cbn [fmap option_fmap option_map default]; [| done].
  by rewrite list_lookup_fmap, E.
Qed.

Lemma trace_confusion_matrix yt yp : trace (confusion_matrix yt yp) = n_correct yt yp.
Proof.
  unfold confusion_matrix. rewrite trace_square. unfold pair_count, n_correct.
  rewrite <- (sum_count_by_label (fun '(t, p) => t = p) fst (unique_labels yt yp));
    [| apply NoDup_np_unique |].
  - f_equal. apply map_ext. intros a. f_equal. apply list_filter_iff. intros [t p]. cbn. naive_solver.
  - intros [t p] Htp _. apply elem_of_np_unique, elem_of_app. left.
    by apply elem_of_zip_l in Htp.
Qed.

Lemma correct_plus_wrong yt yp :
  length yt = length yp -> (n_correct yt yp + wrong_count yt yp)%nat = length yt.
Proof.
  unfold n_correct, wrong_count. revert yp. induction yt as [| t yt IH]; intros [| p yp] Hl; try done.
  cbn [zip_with]. rewrite !filter_cons. cbn in Hl.
  repeat case_decide; cbn [length]; rewrite <- (IH yp) by lia; try lia; naive_solver.
Qed.

(** The balanced weights of SMOTE's output are all [1]. *)
Lemma smote_weights_one {R} (mk : list R -> nat -> list R) X y X' y' :
  smote_fit_resample mk X y = Ok (X', y') ->
  Forall (fun w => (w == 1)%Q) (compute_sample_weight y').
Proof.
  intros Hs. destruct (smote_resample_counts _ _ _ _ _ Hs) as [Hin Hc].
  apply Forall_forall. intros w Hw. apply list_elem_of_fmap in Hw as (c & -> & Hcy).
  assert (forall d, d ∈ np_unique y' -> class_count y' d = majority_count y) as Hall
    by (intros d Hd; apply Hc, Hin, elem_of_np_unique, Hd).
  pose proof (sum_class_counts y') as Hsum. rewrite (sum_list_const _ _ _ Hall) in Hsum.
  pose proof (class_count_pos y' c Hcy) as Hpos. rewrite (Hc c (proj1 (Hin c) Hcy)) in Hpos.
  assert (1 <= length (np_unique y'))%nat.
  { destruct (np_unique y') eqn:Hu; [| cbn; lia]. rewrite <- elem_of_np_unique, Hu in Hcy. set_solver. }
  unfold balanced_weight. rewrite <- Hsum, (Hc c (proj1 (Hin c) Hcy)), Nat2Z.inj_mul, inject_Z_mult.
  field. split; intros Hz%(proj1 (inject_Z_injective _ 0)); lia.
Qed.

(** *** The script *)

Lemma smote_fit_resample_exc {R} (mk : list R -> nat -> list R) X y e :
  smote_fit_resample mk X y = Raise e -> e = ValueError.
Proof.
  unfold smote_fit_resample. case_bool_decide; [by intros [= <-] |]. case_bool_decide; [by intros [= <-] |].
  destruct (smote_loop _ _ _ _) eqn:Hr; cbn [pybind]; [done |]. intros [= <-]. by eapply smote_loop_exc.
Qed.

Lemma length_confusion_matrix yt yp :
  length (confusion_matrix yt yp) = length (unique_labels yt yp) /\
  Forall (fun row => length row = length (unique_labels yt yp)) (confusion_matrix yt yp).
Proof.
  unfold confusion_matrix. rewrite length_map. split; [done |].
  apply Forall_forall. intros row (a & -> & _)%list_elem_of_fmap. apply length_map.
Qed.

(** The cell loop runs over a 3x3 matrix without leaving it. *)
Lemma cm_text_cells_square cm :
  length cm = length class_names -> Forall (fun row => length row = length class_names) cm ->
  exists cells, cm_text_cells (normalize_rows cm) = Ok cells.
Proof.
  intros Hl Hrows. destruct cm as [| r0 [| r1 [| r2 [| ? ?]]]]; try done.
  apply Forall_cons in Hrows as [H0 Hrows]. apply Forall_cons in Hrows as [H1 Hrows].
  apply Forall_cons in Hrows as [H2 _].
  destruct r0 as [| ? [| ? [| ? [| ? ?]]]]; try done. destruct r1 as [| ? [| ? [| ? [| ? ?]]]]; try done.
  destruct r2 as [| ? [| ? [| ? [| ? ?]]]]; try done. eexists. reflexivity.
Qed.

Section ScriptProofs.
Context {R M : Type}.
Variable draw : list Z -> nat -> nat -> list nat * list nat.
Variable make_samples : list R -> nat -> list R.
Variable fit : list R -> list Z -> list Q -> M.
Variable predict : M -> list R -> list Z.

(** A run that reaches the end: the steps it went through. *)
Lemma train_evaluate_ok names X y ev :
  train_evaluate draw make_samples fit predict names X y = Ok ev ->
  exists X0 y0 yt yp,
    smote_fit_resample make_samples X0 y0 = Ok (ev_train ev) /\
    ev_sample_weights ev = compute_sample_weight (ev_train ev).2 /\
    ev_test ev = (yt, yp) /\ length yt = length yp /\
    length (unique_labels yt yp) = length class_names /\
    ev_confusion ev = confusion_matrix yt yp /\
    ev_accuracy ev = accuracy_score yt yp /\ ev_wrong ev = wrong_count yt yp.
Proof.
  unfold train_evaluate.
  destruct (train_test_split_sizes y) as [sizes |]; cbn [pybind]; [| done].
  destruct (smote_fit_resample _ _ _) as [bal |] eqn:Hs; cbn [pybind]; [| done].
  destruct (xgb_check_classes _); cbn [pybind]; [| done].
  unfold check_consistent_length, classification_report_check.
  case_bool_decide as Hl; cbn [pybind]; [| done]. case_bool_decide as Hk; cbn [pybind]; [| done].
  destruct (cm_text_cells _); cbn [pybind]; [| done]. intros [= <-]. cbn.
  by do 4 eexists.
Qed.

(** A run raises only [ValueError]. *)
Lemma train_evaluate_exc names X y e :
  train_evaluate draw make_samples fit predict names X y = Raise e -> e = ValueError.
Proof.
  unfold train_evaluate.
  destruct (train_test_split_sizes y) eqn:Hsz; cbn [pybind]; [| intros [= <-]; by eapply train_test_split_sizes_exc].
  destruct (smote_fit_resample _ _ _) eqn:Hs; cbn [pybind]; [| intros [= <-]; by eapply smote_fit_resample_exc].
  unfold xgb_check_classes, check_consistent_length, classification_report_check.
  case_bool_decide; cbn [pybind]; [| by intros [= <-]].
  case_bool_decide as Hl; cbn [pybind]; [| by intros [= <-]].
  case_bool_decide as Hk; cbn [pybind]; [| by intros [= <-]].
  destruct (length_confusion_matrix (select y (draw y a.1 a.2).2)
              (predict (fit a0.1 a0.2 (compute_sample_weight a0.2)) (select X (draw y a.1 a.2).2)))
    as [Hc Hrows].
  rewrite Hk in Hc, Hrows. destruct (cm_text_cells_square _ Hc Hrows) as [cells ->]. done.
Qed.

End ScriptProofs.

(** The plots and the predictions go to different files: no output
    overwrites another. *)
Lemma output_files_nodup : NoDup output_files.
Proof. vm_compute. repeat constructor; set_solver. Qed.

(** *** Feature importance and SHAP *)

#[export] Instance importance_ge_total : Total importance_ge.
Proof.
  intros a b. unfold importance_ge. rewrite !Qle_bool_iff.
  destruct (Qlt_le_dec a.2 b.2); [right; by apply Qlt_le_weak | by left].
Qed.

Lemma importance_frame_ok features imps rows :
  importance_frame features imps = Ok rows -> fst <$> rows = features /\ snd <$> rows = imps.
Proof.
  unfold importance_frame. case_bool_decide as Hl; [intros [= <-] | done].
  split; [apply fst_zip | apply snd_zip]; lia.
Qed.

Lemma sort_by_importance_spec rows :
  sort_by_importance rows ≡ₚ rows /\ Sorted importance_ge (sort_by_importance rows).
Proof. split; [apply merge_sort_Permutation | apply Sorted_merge_sort, _]. Qed.

(** The loop of lines 188-207 saves the three SHAP files of [output_files],
    in class order, whenever it runs through. *)
Lemma shap_plots_files sv out :
  shap_plots sv = Ok out -> out.*1 = imap shap_file_name class_names.
Proof.
  unfold shap_plots. cbn.
  do 3 (destruct (shap_for_class sv _); cbn [pybind]; [| done]).
  by intros [= <-].
Qed.

(** With one matrix per class, the loop runs through exactly when there are
    matrices for the three classes. *)
Lemma shap_plots_list_ok l :
  (exists out, shap_plots (ShapList l) = Ok out) <-> (3 <= length l)%nat.
Proof.
  split.
  - intros [out Hout]. destruct (decide (3 <= length l)%nat) as [| Hn]; [done |].
    revert Hout. unfold shap_plots. cbn.
    rewrite (proj2 (lookup_ge_None l 2)); [| lia].
    by repeat (case_match; cbn [pybind]).
  - intros Hl. unfold shap_plots. cbn.
    destruct (lookup_lt_is_Some_2 l 0 ltac:(lia)) as [? ->].
    destruct (lookup_lt_is_Some_2 l 1 ltac:(lia)) as [? ->].
    destruct (lookup_lt_is_Some_2 l 2 ltac:(lia)) as [? ->].
    by eexists.
Qed.

(** ** Theorems *)

(** C23: SMOTE's output starts with its input rows and labels, has one
    label per row (when the sample maker makes as many rows as asked),
    has no class the input lacks, and gives every class of the input
    exactly the count of the largest class. *)
Theorem smote_balances {R} (mk : list R -> nat -> list R) X y X' y' :
  (forall Xc n, length (mk Xc n) = n) ->
  smote_fit_resample mk X y = Ok (X', y') ->
  X `prefix_of` X' /\ y `prefix_of` y' /\ length X' = length y' /\
  (forall c, c ∈ y' <-> c ∈ y) /\ (forall c, c ∈ y -> class_count y' c = majority_count y).
Proof.
  intros Hmk Hs. pose proof (smote_resample_counts _ _ _ _ _ Hs) as [Hin Hc].
  apply smote_resample_shape in Hs as (Hl & _ & xs & Hr & -> & ->).
  split; [by eexists | split; [by eexists |]]. split; [| done].
  rewrite !length_app, (smote_loop_length _ _ _ _ _ _ Hmk Hr). lia.
Qed.

(** C27: a class of the training labels that is not the largest and has
    fewer than [k_neighbors + 1 = 4] samples makes [fit_resample] raise
    [ValueError] (the neighbour search of line 84 needs four samples of
    the class): the script stops before training. *)
Theorem smote_small_class_fails {R} (mk : list R -> nat -> list R) X y c :
  length X = length y -> c ∈ y ->
  (class_count y c < majority_count y)%nat -> (class_count y c < k_neighbors + 1)%nat ->
  smote_fit_resample mk X y = Raise ValueError.
Proof.
  intros Hl Hc Hlt Hk. unfold smote_fit_resample.
  rewrite bool_decide_false by lia. rewrite bool_decide_false.
  2:{ intros Hle. apply elem_of_np_unique in Hc as Hu.
      destruct (np_unique y) as [| d [| d' U]] eqn:HU; cbn in Hle; [set_solver | | lia].
      apply list_elem_of_singleton in Hu as ->. unfold majority_count in Hlt. rewrite HU in Hlt.
      cbn in Hlt. lia. }
  rewrite (smote_loop_short mk X y _ c (majority_count y - class_count y c)); [done | | lia |].
  - apply list_elem_of_fmap. exists c. split; [done |]. apply list_elem_of_filter.
    split; [| by apply elem_of_np_unique]. intros Hm%class_majority_count. lia.
  - by rewrite length_rows_of_class.
Qed.


(** C21: with no more products than four per class beyond the first,
    [train_test_split] raises [ValueError]: the test side, a quarter of
    the products rounded up, has no room for one product of every
    class. With the four product links of the scraper and two classes
    or more, the training script always stops at line 71. *)
Theorem few_products_split_fails y :
  (length y <= 4 * (length (np_unique y) - 1))%nat ->
  train_test_split_sizes y = Raise ValueError.
Proof.
  intros Hn. destruct (train_test_split_sizes y) as [[a b] | e] eqn:Hs;
    [| by apply train_test_split_sizes_exc in Hs as ->].
  apply train_test_split_sizes_ok in Hs as (Hb & Ha & Ha0 & _ & _ & Hk).
  assert (4 * ((length y + 3) / 4) <= length y + 3)%nat by (apply Nat.Div0.mul_div_le).
  lia.
Qed.

(** C24: a run that reaches the end reports consistent numbers: the
    diagonal of the confusion matrix and the wrong predictions of lines
    225-226 add up to the test size, and the accuracy of line 124 is the
    diagonal over the test size. *)
Theorem evaluation_scores_consistent {R M} draw (mk : list R -> nat -> list R)
    (fit : list R -> list Z -> list Q -> M) predict names X y ev :
  train_evaluate draw mk fit predict names X y = Ok ev ->
  (trace (ev_confusion ev) + ev_wrong ev = length (ev_test ev).1)%nat /\
  ev_accuracy ev = (inject_Z (Z.of_nat (trace (ev_confusion ev))) / inject_Z (Z.of_nat (length (ev_test ev).1)))%Q.
Proof.
  intros (X0 & y0 & yt & yp & _ & _ & -> & Hl & _ & -> & -> & ->)%train_evaluate_ok.
  rewrite trace_confusion_matrix. cbn [fst]. split; [by apply correct_plus_wrong | done].
Qed.

(** C22: the balanced sample weights the script fits with (lines 94-97)
    are all [1]: they are computed on SMOTE's output, where every class
    has the same count, so [len(y) / (n_classes * count)] is [1] for
    every sample and [sample_weight] changes nothing. *)
Theorem train_weights_all_one {R M} draw (mk : list R -> nat -> list R)
    (fit : list R -> list Z -> list Q -> M) predict names X y ev :
  train_evaluate draw mk fit predict names X y = Ok ev ->
  Forall (fun w => (w == 1)%Q) (ev_sample_weights ev).
Proof.
  intros (X0 & y0 & _ & _ & Hs & -> & _)%train_evaluate_ok.
  destruct (ev_train ev) eqn:He. by eapply smote_weights_one.
Qed.

(** ** Witnesses *)

Lemma few_products_split_fails_witness :
  train_test_split_sizes [0; 0; 1; 1]%Z = Raise ValueError.
Proof. apply few_products_split_fails. vm_compute. lia. Defined.

Lemma evaluation_scores_consistent_witness :
  exists ev, demo_evaluate = Ok ev /\ ev_wrong ev = 1%nat /\
    (trace (ev_confusion ev) + ev_wrong ev = length (ev_test ev).1)%nat /\
    ev_accuracy ev = (inject_Z (Z.of_nat (trace (ev_confusion ev))) / inject_Z (Z.of_nat (length (ev_test ev).1)))%Q.
Proof.
  eexists. split; [vm_compute; reflexivity |]. split; [vm_compute; reflexivity |].
  apply (evaluation_scores_consistent demo_draw demo_make_samples (fun _ _ _ => tt) demo_predict
           demo_names demo_labels demo_labels).
  vm_compute. reflexivity.
Defined.

Lemma train_weights_all_one_witness :
  exists ev, demo_evaluate = Ok ev /\ Forall (fun w => (w == 1)%Q) (ev_sample_weights ev).
Proof.
  eexists. split; [vm_compute; reflexivity |].
  apply (train_weights_all_one demo_draw demo_make_samples (fun _ _ _ => tt) demo_predict
           demo_names demo_labels demo_labels).
  vm_compute. reflexivity.
Defined.

Lemma smote_balances_witness :
  exists X' y', smote_fit_resample demo_make_samples demo_train demo_train = Ok (X', y') /\
    class_count y' 1 = 5%nat /\
    (demo_train `prefix_of` X' /\ demo_train `prefix_of` y' /\ length X' = length y' /\
     (forall c, c ∈ y' <-> c ∈ demo_train) /\
     (forall c, c ∈ demo_train -> class_count y' c = majority_count demo_train)).
Proof.
  do 2 eexists. split; [vm_compute; reflexivity |]. split; [vm_compute; reflexivity |].
  apply (smote_balances demo_make_samples demo_train demo_train).
  - intros Xc n. apply length_replicate.
  - vm_compute. reflexivity.
Defined.

Lemma smote_small_class_fails_witness :
  smote_fit_resample demo_make_samples [0; 0; 0; 0; 0; 1; 1; 1]%Z [0; 0; 0; 0; 0; 1; 1; 1]%Z
  = Raise ValueError.
Proof. apply (smote_small_class_fails _ _ _ 1%Z); [done | set_solver | vm_compute; lia | vm_compute; lia]. Defined.


End Evaluate.
