(* ===== verification/TrainScript.v ===== *)
(** * The training script end to end

    [src/scripts/train_model.py] from the table it reads (line 30) to the
    count of wrong predictions (line 226): the feature preparation of
    [Train] (lines 46-61) followed by the split, SMOTE, the fit and the
    scores of [Evaluate] (lines 71-226), with the two points where they
    meet: the labels sklearn receives are the values of 'Risk_Class', and
    the product names of [results_df] are looked up in the table only at
    line 214, after everything else has run. *)

From Stdlib Require Import Qround.
From stdpp Require Import sorting.
From S2P Require Import Prelude PyValue Train Evaluate.
Import Train Evaluate.

Module TrainScript.

(** A value of 'Risk_Class' as a class label. An integral number is its
    class and a bool compares as 0 or 1 in numpy; [NaN] and [None] are
    refused by sklearn's [check_array] ("Input y contains NaN"), any other
    value by XGBoost's label check, each with [ValueError]. *)
Definition label_of (v : PyVal) : pyres Z :=
  match v with
  | PNum q => if Qeq_bool q (inject_Z (Qfloor q)) then Ok (Qfloor q) else Raise ValueError
  | PBool b => Ok (if b then 1 else 0)%Z
  | _ => Raise ValueError
  end.

(** [X], column by column, as the rows sklearn iterates over. *)
Definition feature_rows (cols : list (list PyVal)) (n : nat) : list (list PyVal) :=
  map (fun i => map (fun c => default PNaN (c !! i)) cols) (seq 0 n).

Section Script.
Context {M : Type}.
Variable draw : list Z -> nat -> nat -> list nat * list nat.
Variable make_samples : list (list PyVal) -> nat -> list (list PyVal).
Variable fit : list (list PyVal) -> list Z -> list Q -> M.
Variable predict : M -> list (list PyVal) -> list Z.

(** Lines 30-226 on the table [df] as read. The 'Ürün' column is not a
    feature, so the conversions leave it as read; when it is missing,
    [df.loc[X_test.index, 'Ürün']] raises [KeyError] at line 214, once the
    split, the fit and the scores have gone through. *)
Definition training_script (df : tframe) : pyres (Evaluation (list PyVal)) :=
  Xy <- prepare_training_data df ;;
  ys <- py_mapM label_of Xy.2 ;;
  let names := get_column df "Ürün" in
  ev <- train_evaluate draw make_samples fit predict
          (match names with Ok c => col_values c | Raise _ => [] end)
          (feature_rows Xy.1 (length ys)) ys ;;
  _ <- names ;;
  Ok ev.

End Script.

(** ** A labelled table *)

(** Twelve products, four per class, every feature equal to the label. *)
Definition demo_column (vs : list Z) : tcolumn :=
  {| col_dtype := DNumeric; col_values := map PInt vs |}.

Definition demo_table : tframe :=
  list_to_map
    ((("Ürün", {| col_dtype := DObject; col_values := map (fun _ => PStr "urun") demo_labels |})
      :: ("Risk_Class", demo_column demo_labels)
      :: map (fun col => (col, demo_column demo_labels)) llm_features)).

Definition demo_rows_predict (model : unit) (X_test : list (list PyVal)) : list Z :=
  map (fun row => match row with PNum q :: _ => if Qeq_bool q 2 then 1%Z else Qfloor q | _ => 0%Z end)
    X_test.

(** Importances for the seven features, three of them tied. *)
Definition demo_importances : list Q := [1/10; 3/10; 1/20; 1/5; 1/10; 1/10; 3/20]%Q.

(** ** Lemmas *)

Lemma label_of_exc v e : label_of v = Raise e -> e = ValueError.
Proof. destruct v; cbn; try case_match; by intros [= <-]. Qed.

Lemma prepare_training_data_exc df e : prepare_training_data df = Raise e -> e = KeyError.
Proof.
  rewrite prepare_training_data_eq. destruct (py_mapM _ _) eqn:E; cbn [pybind].
  - unfold get_column. destruct (df !! _); cbn [pybind]; [done | by intros [= <-]].
  - intros [= <-]. by apply get_columns_raise in E as [-> _].
Qed.

Section Proofs.
Context {M : Type}.
Variable draw : list Z -> nat -> nat -> list nat * list nat.
Variable make_samples : list (list PyVal) -> nat -> list (list PyVal).
Variable fit : list (list PyVal) -> list Z -> list Q -> M.
Variable predict : M -> list (list PyVal) -> list Z.

(** The script stops only with [KeyError] (a column it reads is missing)
    or [ValueError] (a label or an argument check). *)
Lemma training_script_exc df e :
  training_script draw make_samples fit predict df = Raise e -> e = KeyError \/ e = ValueError.
Proof.
  unfold training_script.
  destruct (prepare_training_data df) as [Xy | e'] eqn:Hp; cbn [pybind];
    [| intros [= <-]; left; by eapply prepare_training_data_exc].
  destruct (py_mapM label_of Xy.2) as [ys | e'] eqn:Hl; cbn [pybind];
    [| intros [= <-]; right; apply py_mapM_raise_inv in Hl as (v & _ & Hv); by eapply label_of_exc].
  destruct (train_evaluate _ _ _ _ _ _ _) as [ev | e'] eqn:Ht; cbn [pybind];
    [| intros [= <-]; right; by eapply train_evaluate_exc].
  unfold get_column. destruct (df !! _); cbn [pybind]; [done | intros [= <-]; by left].
Qed.

(** A run of the whole script fits with weights that are all [1]. *)
Lemma training_script_weights_one df ev :
  training_script draw make_samples fit predict df = Ok ev ->
  Forall (fun w => (w == 1)%Q) (ev_sample_weights ev).
Proof.
  unfold training_script. destruct (prepare_training_data df); cbn [pybind]; [| done].
  destruct (py_mapM _ _); cbn [pybind]; [| done].
  destruct (train_evaluate _ _ _ _ _ _ _) as [ev' |] eqn:Ht; cbn [pybind]; [| done].
  destruct (get_column _ _); cbn [pybind]; [| done]. intros [= <-].
  apply train_evaluate_ok in Ht as (X0 & y0 & _ & _ & Hs & -> & _).
  destruct (ev_train ev') eqn:He. by eapply smote_weights_one.
Qed.

End Proofs.

(** The script runs to the end on the table: one test product of each
    class, one of them predicted wrong. *)
Lemma training_script_demo :
  exists ev, training_script demo_draw (fun Xc n => replicate n (default [] (head Xc)))
               (fun _ _ _ => tt) demo_rows_predict demo_table = Ok ev /\
             ev_wrong ev = 1%nat /\ ev_test ev = ([0; 1; 2], [0; 1; 1])%Z.
Proof. eexists. split; [vm_compute; reflexivity | split; vm_compute; reflexivity]. Qed.

(** ** Theorems *)


(** ** Witnesses *)


End TrainScript.
