(* ===== verification/Handover.v ===== *)
(** * How the scripts hand their files to each other

    Each script finds its files from its own location:
    [script_dir = os.path.dirname(os.path.abspath(__file__))],
    [project_root = os.path.dirname(script_dir)], then
    [os.path.join(project_root, ...)] ([ty_scrapping.py] lines 15-21,
    [base_metrics.py] lines 121-126, [llm_extraction.py] lines 438-445,
    [train_model.py] lines 19-24 and the output paths of lines 152-221).
    [posixpath.dirname] and [posixpath.join] are modelled as Python defines
    them, on the bytes of the path; the absolute path of the checkout is a
    parameter [repo], so every theorem holds wherever the repository lives.

    The file also records the columns the scripts read from the review CSV
    ([df[col]] raises [KeyError] on a column the file lacks), to compare
    them with the header the scraper writes ([ReviewPage.review_columns]). *)

From Stdlib Require Import Ascii.
From S2P Require Import Prelude PyValue Scraper DateParse ReviewPage Train Evaluate.
Import Scraper ReviewPage Evaluate.

Module Handover.

(** ** [posixpath] *)

Definition is_slash (c : ascii) : bool := Ascii.eqb c "/"%char.

(** The reversed path from its last '/' on: [p[:p.rfind('/') + 1]],
    reversed. *)
Fixpoint drop_to_slash (l : list ascii) : list ascii :=
  match l with
  | [] => []
  | c :: l' => if is_slash c then l else drop_to_slash l'
  end.

Fixpoint skip_slashes (l : list ascii) : list ascii :=
  match l with
  | c :: l' => if is_slash c then skip_slashes l' else l
  | [] => []
  end.

(** [posixpath.dirname(p)]: [head = p[:i]] with [i] after the last '/';
    [head.rstrip('/')] unless [head] is all slashes. *)
Definition py_dirname (p : string) : string :=
  let head_rev := drop_to_slash (rev (String.list_ascii_of_string p)) in
  String.string_of_list_ascii
    (rev (if forallb is_slash head_rev then head_rev else skip_slashes head_rev)).

Definition ends_with_slash (s : string) : bool :=
  match rev (String.list_ascii_of_string s) with
  | c :: _ => is_slash c
  | [] => false
  end.

(** One step of [posixpath.join(a, *p)]: an absolute component replaces
    the path; otherwise it is appended after a '/' unless the path is
    empty or already ends with one. *)
Definition join2 (path b : string) : string :=
  if String.prefix "/" b then b
  else if bool_decide (path = "") || ends_with_slash path then (path ++ b)%string
  else (path ++ "/" ++ b)%string.

Definition py_join (a : string) (p : list string) : string := fold_left join2 p a.

(** ** The paths of each script *)

(** [os.path.abspath(__file__)] of a script in [src/<dir>/], for a
    checkout at [repo] (an absolute path without a trailing '/'). *)
Definition script_file (repo dir file : string) : string :=
  (repo ++ "/src/" ++ dir ++ "/" ++ file)%string.

(** [os.path.dirname(os.path.dirname(os.path.abspath(__file__)))]. *)
Definition project_root (file_abs : string) : string := py_dirname (py_dirname file_abs).

(** [ty_scrapping.py], lines 15-21: [OUT_CSV]. *)
Definition scraper_out_csv (repo : string) : string :=
  py_join (project_root (script_file repo "webscraping" "ty_scrapping.py"))
    ["data"; "raw"; "dataset-first.csv"].

(** [base_metrics.py], lines 121-126. *)
Definition base_metrics_root (repo : string) : string :=
  project_root (script_file repo "scripts" "base_metrics.py").
Definition base_metrics_input (repo : string) : string :=
  py_join (base_metrics_root repo) ["data"; "raw"; "sample_dataset.csv"].
Definition base_metrics_output (repo : string) : string :=
  py_join (base_metrics_root repo) ["data"; "processed"; "base_metrics.csv"].

(** [llm_extraction.py], lines 438-445. *)
Definition llm_root (repo : string) : string :=
  project_root (script_file repo "scripts" "llm_extraction.py").
Definition llm_raw_data (repo : string) : string :=
  py_join (llm_root repo) ["data"; "raw"; "sample_dataset.csv"].
Definition llm_phase1_data (repo : string) : string :=
  py_join (llm_root repo) ["data"; "processed"; "base_metrics.csv"].
Definition llm_temp_output (repo : string) : string :=
  py_join (llm_root repo) ["data"; "processed"; "llm_results.csv"].
Definition llm_final_output (repo : string) : string :=
  py_join (llm_root repo) ["data"; "processed"; "llm_extraction.csv"].

(** [train_model.py], lines 19-24, and the files written into
    [output_dir] (lines 152, 176, 204 and 221). *)
Definition train_root (repo : string) : string :=
  project_root (script_file repo "scripts" "train_model.py").
Definition train_data_path (repo : string) : string :=
  py_join (train_root repo) ["data"; "processed"; "llm_extraction.csv"].
Definition train_output_dir (repo : string) : string :=
  py_join (train_root repo) ["outputs"].
Definition train_output_paths (repo : string) : list string :=
  map (fun f => py_join (train_output_dir repo) [f]) output_files.

(** Every file the pipeline reads or writes, in the order of the
    scripts. *)
Definition pipeline_files (repo : string) : list string :=
  [scraper_out_csv repo; llm_raw_data repo; llm_phase1_data repo;
   llm_temp_output repo; llm_final_output repo] ++ train_output_paths repo.

(** ** Columns *)

(** [pd.read_csv] then [df[col]] for each column a script reads:
    [KeyError] when the file's header lacks one. *)
Definition read_columns (header reads : list string) : pyres unit :=
  if forallb (fun c => bool_decide (c ∈ header)) reads then Ok tt else Raise KeyError.

(** The review columns [base_metrics.py] reads: ['Tarih'] (line 45),
    ['Ürün'] (lines 60-61), ['Marka'] (line 66), ['Genel Puan'] (line 69)
    and ['Puan'] (lines 71-84). *)
Definition base_metrics_review_reads : list string :=
  ["Tarih"; "Ürün"; "Marka"; "Genel Puan"; "Puan"].

(** The review columns [llm_extraction.py] reads: ['Tarih'] (line 58),
    ['Ürün'] (line 150) and ['duzeltilmis_yorum'] (line 153). *)
Definition llm_review_reads : list string :=
  ["Tarih"; "Ürün"; "duzeltilmis_yorum"].

(** ** Lemmas *)

(** A path whose last byte exists and is not '/'. *)
Definition ends_plain (s : string) : bool :=
  match rev (String.list_ascii_of_string s) with
  | c :: _ => negb (is_slash c)
  | [] => false
  end.

Definition no_slash (s : string) : bool := forallb (fun c => negb (is_slash c)) (String.list_ascii_of_string s).

Lemma bytes_app s t :
  String.list_ascii_of_string (s ++ t) = String.list_ascii_of_string s ++ String.list_ascii_of_string t.
Proof.
  induction s as [| c s IH]; [done |]. rewrite string_app_cons. cbn [String.list_ascii_of_string app].
  by rewrite IH.
Qed.

Lemma string_app_assoc (s t u : string) : (s ++ (t ++ u) = (s ++ t) ++ u)%string.
Proof. induction s as [| c s IH]; [done |]. by rewrite !string_app_cons, IH. Qed.

Lemma string_app_inj_l (s t u : string) : (s ++ t = s ++ u)%string -> t = u.
Proof. induction s as [| c s IH]; [done |]. rewrite !string_app_cons. intros [= H]. by apply IH. Qed.

Lemma drop_to_slash_plain n l :
  forallb (fun c => negb (is_slash c)) n = true -> drop_to_slash (n ++ l) = drop_to_slash l.
Proof.
  induction n as [| c n IH]; cbn; [done |]. intros [Hc Hn]%andb_prop.
  apply negb_true_iff in Hc. rewrite Hc. by apply IH.
Qed.

Lemma ends_plain_app s t : ends_plain t = true -> ends_plain (s ++ t) = true.
Proof.
  unfold ends_plain. rewrite bytes_app, rev_app_distr.
  by destruct (rev (String.list_ascii_of_string t)).
Qed.

Lemma drop_to_slash_slash l : drop_to_slash ("/"%char :: l) = "/"%char :: l.
Proof. reflexivity. Qed.

Lemma skip_slashes_slash l : skip_slashes ("/"%char :: l) = skip_slashes l.
Proof. reflexivity. Qed.

Lemma skip_slashes_plain c l : is_slash c = false -> skip_slashes (c :: l) = c :: l.
Proof. intros Hc. cbn [skip_slashes]. by rewrite Hc. Qed.

Lemma forallb_slash_plain c l :
  is_slash c = false -> forallb is_slash ("/"%char :: c :: l) = false.
Proof. intros Hc. cbn [forallb]. by rewrite Hc. Qed.

Lemma forallb_rev {A} (f : A -> bool) (l : list A) : forallb f (rev l) = forallb f l.
Proof.
  induction l as [| x l IH]; [done |]. cbn [rev forallb]. rewrite forallb_app, IH. cbn.
  by rewrite andb_true_r, andb_comm.
Qed.

(** [dirname(p + '/' + n)] is [p] when [n] has no '/' and [p] does not
    end with one. *)
Lemma py_dirname_app p n :
  ends_plain p = true -> no_slash n = true -> py_dirname (p ++ "/" ++ n) = p.
Proof.
  unfold py_dirname, ends_plain, no_slash. intros Hp Hn.
  rewrite bytes_app.
  change (String.list_ascii_of_string ("/" ++ n)) with ("/"%char :: String.list_ascii_of_string n).
  rewrite rev_app_distr. cbn [rev]. rewrite <- app_assoc. cbn [app].
  rewrite drop_to_slash_plain by (rewrite forallb_rev; done). rewrite drop_to_slash_slash.
  destruct (rev (String.list_ascii_of_string p)) as [| c l] eqn:Hr; [done |].
  apply negb_true_iff in Hp. rewrite forallb_slash_plain, skip_slashes_slash, skip_slashes_plain by done.
  rewrite <- Hr, rev_involutive. apply String.string_of_list_ascii_of_string.
Qed.

Lemma join2_plain a b :
  ends_plain a = true -> String.prefix "/" b = false -> join2 a b = (a ++ "/" ++ b)%string.
Proof.
  intros Ha Hb. unfold join2. rewrite Hb. rewrite bool_decide_false by (intros ->; done).
  unfold ends_with_slash. unfold ends_plain in Ha.
  destruct (rev (String.list_ascii_of_string a)); [done |]. apply negb_true_iff in Ha. by rewrite Ha.
Qed.

(** [os.path.join(a, b1, ..., bn)] of plain components: the components
    after [a], each behind a '/'. *)
Lemma py_join_plain a bs :
  ends_plain a = true ->
  Forall (fun b => String.prefix "/" b = false /\ ends_plain b = true) bs ->
  py_join a bs = (a ++ fold_right (fun b acc => "/" ++ b ++ acc) "" bs)%string.
Proof.
  unfold py_join. intros Ha Hbs. revert a Ha. induction Hbs as [| b bs [Hb Hbe] _ IH]; intros a Ha.
  - cbn. by rewrite string_app_nil_r.
  - cbn [fold_left fold_right]. rewrite join2_plain by done.
    rewrite IH by (by apply ends_plain_app, ends_plain_app). by rewrite <- !string_app_assoc.
Qed.

(** Every script's project root is [repo/src]. *)
Lemma project_root_script repo dir file :
  ends_plain dir = true -> no_slash dir = true -> no_slash file = true ->
  project_root (script_file repo dir file) = (repo ++ "/src")%string.
Proof.
  intros Hd Hd' Hf. unfold project_root, script_file.
  rewrite (string_app_assoc "/src/" dir ("/" ++ file)), (string_app_assoc repo ("/src/" ++ dir)).
  rewrite py_dirname_app by (repeat apply ends_plain_app; done).
  change ("/src/" ++ dir)%string with ("/src" ++ "/" ++ dir)%string.
  rewrite (string_app_assoc repo "/src"), py_dirname_app; [done | by apply ends_plain_app | done].
Qed.

Ltac path_nf :=
  rewrite project_root_script by reflexivity;
  rewrite py_join_plain by (try apply ends_plain_app; repeat constructor);
  rewrite <- string_app_assoc; reflexivity.

Lemma scraper_out_csv_eq repo : scraper_out_csv repo = (repo ++ "/src/data/raw/dataset-first.csv")%string.
Proof. unfold scraper_out_csv. path_nf. Qed.

Lemma base_metrics_input_eq repo : base_metrics_input repo = (repo ++ "/src/data/raw/sample_dataset.csv")%string.
Proof. unfold base_metrics_input, base_metrics_root. path_nf. Qed.
Lemma base_metrics_output_eq repo :
  base_metrics_output repo = (repo ++ "/src/data/processed/base_metrics.csv")%string.
Proof. unfold base_metrics_output, base_metrics_root. path_nf. Qed.
Lemma llm_raw_data_eq repo : llm_raw_data repo = (repo ++ "/src/data/raw/sample_dataset.csv")%string.
Proof. unfold llm_raw_data, llm_root. path_nf. Qed.
Lemma llm_phase1_data_eq repo : llm_phase1_data repo = (repo ++ "/src/data/processed/base_metrics.csv")%string.
Proof. unfold llm_phase1_data, llm_root. path_nf. Qed.
Lemma llm_temp_output_eq repo : llm_temp_output repo = (repo ++ "/src/data/processed/llm_results.csv")%string.
Proof. unfold llm_temp_output, llm_root. path_nf. Qed.
Lemma llm_final_output_eq repo :
  llm_final_output repo = (repo ++ "/src/data/processed/llm_extraction.csv")%string.
Proof. unfold llm_final_output, llm_root. path_nf. Qed.
Lemma train_data_path_eq repo :
  train_data_path repo = (repo ++ "/src/data/processed/llm_extraction.csv")%string.
Proof. unfold train_data_path, train_root. path_nf. Qed.
Lemma train_output_dir_eq repo : train_output_dir repo = (repo ++ "/src/outputs")%string.
Proof. unfold train_output_dir, train_root. path_nf. Qed.

Lemma output_files_plain :
  Forall (fun f => String.prefix "/" f = false /\ ends_plain f = true) output_files.
Proof. vm_compute. repeat constructor. Qed.

Lemma train_output_paths_eq repo :
  train_output_paths repo = map (fun f => repo ++ ("/src/outputs/" ++ f))%string output_files.
Proof.
  unfold train_output_paths. apply map_ext_in. intros f Hf%list_elem_of_In.
  pose proof output_files_plain as Hall. eapply Forall_forall in Hall as [Hp He]; [| exact Hf].
  rewrite train_output_dir_eq, py_join_plain by (try apply ends_plain_app; repeat constructor; done).
  cbn [fold_right]. rewrite string_app_nil_r, <- !string_app_assoc. reflexivity.
Qed.

#[export] Hint Rewrite scraper_out_csv_eq base_metrics_input_eq base_metrics_output_eq llm_raw_data_eq
  llm_temp_output_eq llm_final_output_eq train_data_path_eq train_output_paths_eq
  : churn_rw.

Lemma NoDup_app_prefix (repo : string) (l : list string) :
  NoDup l -> NoDup (map (String.append repo) l).
Proof. intros Hl. apply NoDup_fmap_2; [| done]. intros s t. apply string_app_inj_l. Qed.

(** ** Theorems *)

(** C12: wherever the repository is checked out, each script reads the
    file the previous one writes: [base_metrics.py] and
    [llm_extraction.py] read the same review CSV, the product table
    [base_metrics.py] writes is the one [llm_extraction.py] reads, and the
    labelled table [llm_extraction.py] writes is the one [train_model.py]
    reads; and the files of the pipeline are pairwise different, so the
    checkpoint, the final table and the training outputs never overwrite
    one another or an input. *)
Theorem pipeline_files_chain repo :
  base_metrics_input repo = llm_raw_data repo /\
  base_metrics_output repo = llm_phase1_data repo /\
  llm_final_output repo = train_data_path repo /\
  NoDup (pipeline_files repo).
Proof.
  rewrite base_metrics_input_eq, base_metrics_output_eq, llm_raw_data_eq, llm_phase1_data_eq,
    llm_final_output_eq, train_data_path_eq.
  split; [done | split; [done | split; [done |]]].
  replace (pipeline_files repo) with
    (map (String.append repo)
       (["/src/data/raw/dataset-first.csv"; "/src/data/raw/sample_dataset.csv";
         "/src/data/processed/base_metrics.csv"; "/src/data/processed/llm_results.csv";
         "/src/data/processed/llm_extraction.csv"] ++ map (String.append "/src/outputs/") output_files)).
  - apply NoDup_app_prefix. decide_prop.
  - unfold pipeline_files. rewrite llm_phase1_data_eq. autorewrite with churn_rw.
    by rewrite map_app, map_map.
Qed.

(** C13: the review CSV the scraper writes ([data/raw/dataset-first.csv])
    is read by no script, wherever the repository is checked out: the two
    scripts that read reviews read [data/raw/sample_dataset.csv]. Its
    header would not serve either: [base_metrics.py] finds there every
    column it reads, but [llm_extraction.py] reads ['duzeltilmis_yorum'],
    which the scraper does not write (its text column is 'Yorum'), and
    raises [KeyError] at line 153. *)
Theorem scraped_file_not_consumed repo :
  scraper_out_csv repo ∉
    [base_metrics_input repo; llm_raw_data repo; llm_phase1_data repo; train_data_path repo] /\
  read_columns review_columns base_metrics_review_reads = Ok tt /\
  read_columns review_columns llm_review_reads = Raise KeyError.
Proof.
  rewrite scraper_out_csv_eq, base_metrics_input_eq, llm_raw_data_eq, llm_phase1_data_eq,
    train_data_path_eq.
  split; [| split; vm_compute; reflexivity].
  intros Hin. repeat (apply elem_of_cons in Hin as [Hin | Hin]; [apply string_app_inj_l in Hin; discriminate |]).
  by apply elem_of_nil in Hin.
Qed.

End Handover.
